(** * WaterWise: usage analytics and conservation advisor

    A shallow embedding of the analytics module
    ([analyzeUsagePatterns], [calculateMonthlyTrends],
    [identifySavingsOpportunities], [generateUsageReport]), of the advisor
    ([app/services/ai/waterAdvisor.ts]) and of the database accessors they
    call ([db/usage.ts], [db/bills.ts]), with the properties the
    specification states about them; and, further down, of the code around
    them: the cache ([db/cache.ts]) and the requests of [api/openMeteo.ts]
    that go through it, the database of the web platform
    ([WebDatabase] of [db/database.ts]), the reminders and the daily goal
    ([services/notifications]) and the import of a backup
    ([services/export/dataExport.ts]).

    Conventions of the embedding.
    - The functions are written over a type [N] of numbers with the
      operations the code uses (class [Number]).  Two instances are given:
      [float], the binary64 numbers of the kernel, which is what a
      JavaScript [number] is; and [exact], rationals with [NaN] and the two
      infinities, that is the same operations without rounding.  What is
      proved for every instance holds for the program as it runs; what is
      proved for [exact] only holds up to rounding.
    - An [async] function is a function into [result]: the promise resolves
      to a value ([Ok]) or rejects ([Throw]).  A [try]/[catch] is [try_catch].
      [console.error] has no effect on any returned value and is left out.
    - The store, the clock, the location service and the weather service are
      fields of an environment record [Env]; the runtime's [Date] is a
      parameter [newDate] of the analytics section. *)

From Stdlib Require Import QArith Qcanon Qround Ascii Floats Uint63.
From stdpp Require Import base numbers strings pretty gmap list sorting.

Local Open Scope Z_scope.

(** ** Numbers *)

Class Number (N : Type) : Type := {
  (** an integer literal, a length, a size *)
  of_Z : Z → N;
  plus : N → N → N;
  minus : N → N → N;
  times : N → N → N;
  divide : N → N → N;
  (** [x < y] *)
  less : N → N → bool;
  (** ToBoolean *)
  truthy : N → bool;
  (** [x.toFixed(digits)] *)
  toFixed : nat → N → string;
}.

Global Hint Mode Number ! : typeclass_instances.

Declare Scope num_scope.
Delimit Scope num_scope with num.
Infix "+" := plus : num_scope.
Infix "-" := minus : num_scope.
Infix "*" := times : num_scope.
Infix "/" := divide : num_scope.
Infix "<?" := less : num_scope.
Notation "x >? y" := (less y x) : num_scope.

Section NumberOps.
Context {N : Type} `{Number N}.

Definition zero : N := of_Z 0.
Definition int (z : Z) : N := of_Z z.

(** The decimal literal [n / d], [d] a power of ten: [0.35] is
    [dec 35 100].  Both integers are exact and the division rounds to the
    nearest number, which is how the literal is read. *)
Definition dec (n : Z) (d : positive) : N := (of_Z n / of_Z (Zpos d))%num.

(** A length or a [Set]'s size as a number. *)
Definition of_nat (n : nat) : N := of_Z (Z.of_nat n).

(** [x || y] on numbers. *)
Definition or_else (x y : N) : N := if truthy x then x else y.

(** [l.reduce((sum, x) => sum + f(x), 0)] *)
Definition reduce_sum {A} (f : A → N) (l : list A) : N :=
  foldl (λ sum x, sum + f x)%num zero l.
End NumberOps.

(** ** Strings *)

Fixpoint zeros (n : nat) : string :=
  match n with
  | O => EmptyString
  | S n => String "0"%char (zeros n)
  end.

(** The one-character string holding a double quote. *)
Definition dquote : string := String (ascii_of_nat 34) EmptyString.

(** [s.padStart(n, '0')] *)
Definition padStart0 (n : nat) (s : string) : string :=
  zeros (n - String.length s) +:+ s.

(** [String(n)] for an integer-valued number or [NaN] ([None]). *)
Definition intToString (n : option Z) : string :=
  match n with
  | Some z => pretty z
  | None => "NaN"
  end.

(** [x.toFixed(f)] for a finite [x >= 0] given as a fraction and
    0 <= f <= 100: the integer [n] nearest to [x * 10^f] (the larger one
    on a tie) written with [f] digits after the point.  For
    [x >= 10^21] JavaScript switches to the exponent notation of
    [ToString]; that case is outside this model, which writes the digits
    out. *)
Definition toFixed_abs (f : nat) (a : Q) : string :=
  let n := Qfloor (a * inject_Z (10 ^ Z.of_nat f) + (1 # 2))%Q in
  let m := padStart0 (S f) (pretty n) in
  let k := (String.length m - f)%nat in
  match f with
  | O => m
  | _ => String.substring 0 k m +:+ "." +:+ String.substring k f m
  end.

(** *** Doubles *)

(** Exact for [|z| < 2^53], which covers the literals and the sizes of
    the code. *)
Definition float_of_Z (z : Z) : float :=
  match z with
  | Z0 => 0%float
  | Zpos _ => PrimFloat.of_uint63 (Uint63.of_Z z)
  | Zneg p => (- PrimFloat.of_uint63 (Uint63.of_Z (Zpos p)))%float
  end.

(** 0, -0 and NaN are falsy. *)
Definition float_truthy (x : float) : bool :=
  negb (PrimFloat.eqb x 0%float || PrimFloat.is_nan x).

(** The value [m * 2^e] of a finite double. *)
Definition Q_of_mantissa (m : positive) (e : Z) : Q :=
  match e with
  | Z0 => Zpos m # 1
  | Zpos p => Zpos m * 2 ^ Zpos p # 1
  | Zneg p => Zpos m # 2 ^ p
  end.

Definition float_toFixed (f : nat) (x : float) : string :=
  match Prim2SF x with
  | S754_nan => "NaN"
  | S754_infinity false => "Infinity"
  | S754_infinity true => "-Infinity"
  | S754_zero _ => toFixed_abs f 0
  | S754_finite s m e =>
      (if s then "-" else EmptyString) +:+ toFixed_abs f (Q_of_mantissa m e)
  end.

(** *** The string of a double

    [String(x)], [x.toString()] and [`${x}`] (Number::toString of the
    language): the shortest decimal digits that still read as [x], written
    plainly when the decimal point falls within 21 digits before and 6
    zeros after, and with an exponent otherwise. *)

(** 10^n *)
Definition pow10 (n : Z) : Q :=
  match n with
  | Z0 => 1
  | Zpos p => 10 ^ Zpos p # 1
  | Zneg p => 1 # 10 ^ p
  end.

(** The [n] with 10^(n-1) <= v < 10^n, searched from [n] on. *)
Fixpoint decimalExponent (fuel : nat) (v : Q) (n : Z) : Z :=
  match fuel with
  | O => n
  | S fuel =>
      if Qle_bool (pow10 n) v then decimalExponent fuel v (n + 1)
      else if Qle_bool (pow10 (n - 1)) v then n
      else decimalExponent fuel v (n - 1)
  end.

(** The numbers that round to the double [m * 2^e]: those between the two
    midpoints to the doubles next to it, the midpoints included when [m]
    is even. *)
Definition roundsTo (m : positive) (e : Z) (c : Q) : bool :=
  let v := Q_of_mantissa m e in
  let below :=
    if bool_decide (m = 2 ^ 52)%positive && bool_decide (-1074 < e)
    then Q_of_mantissa (2 * m - 1) (e - 1)
    else (inject_Z (Zpos m - 1) * Q_of_mantissa 1 e)%Q in
  let above := Q_of_mantissa (m + 1) e in
  let lo := ((below + v) / 2)%Q in
  let hi := ((v + above) / 2)%Q in
  if Z.even (Zpos m) then Qle_bool lo c && Qle_bool c hi
  else negb (Qle_bool c lo) && negb (Qle_bool hi c).

(** The integer [s] of [k] digits with [s * 10^(n-k)] rounding to the
    double, if there is one: the nearer one to the double if there are
    two. *)
Definition digitsOfLength (m : positive) (e : Z) (n k : Z) : option Z :=
  let v := Q_of_mantissa m e in
  let scale := pow10 (n - k) in
  let lower := Qfloor (v / scale)%Q in
  let upper := lower + 1 in
  let nearerLower :=
    let dl := (v - inject_Z lower * scale)%Q in
    let du := (inject_Z upper * scale - v)%Q in
    if Qle_bool dl du then (if Qle_bool du dl then Z.even lower else true) else false in
  match roundsTo m e (inject_Z lower * scale)%Q, roundsTo m e (inject_Z upper * scale)%Q with
  | true, true => Some (if nearerLower then lower else upper)
  | true, false => Some lower
  | false, true => Some upper
  | false, false => None
  end.

(** The least number of digits that will do, from [k] on, and the digits. *)
Fixpoint shortestDigits (fuel : nat) (m : positive) (e : Z) (n k : Z) : Z * Z :=
  match fuel with
  | O => (0, k)
  | S fuel =>
      match digitsOfLength m e n k with
      | Some s => (s, k)
      | None => shortestDigits fuel m e n (k + 1)
      end
  end.

Fixpoint stripZeros (fuel : nat) (s : Z) : Z :=
  match fuel with
  | O => s
  | S fuel => if bool_decide (s `mod` 10 = 0) then stripZeros fuel (s `div` 10) else s
  end.

Definition toString_abs (m : positive) (e : Z) : string :=
  let v := Q_of_mantissa m e in
  let n0 := decimalExponent 700 v 1 in
  let '(s0, k0) := shortestDigits 25 m e n0 1 in
  (* the digits found may be those of 10^k0, which is 1 and an exponent more *)
  let n := if bool_decide (s0 = 10 ^ k0) then n0 + 1 else n0 in
  let digits := pretty (stripZeros 25 s0) in
  let k := Z.of_nat (String.length digits) in
  if bool_decide (k ≤ n ≤ 21) then digits +:+ zeros (Z.to_nat (n - k))
  else if bool_decide (0 < n ≤ 21) then
    String.substring 0 (Z.to_nat n) digits +:+ "." +:+
      String.substring (Z.to_nat n) (Z.to_nat (k - n)) digits
  else if bool_decide (-6 < n ≤ 0) then "0." +:+ zeros (Z.to_nat (- n)) +:+ digits
  else
    let exponent :=
      (if bool_decide (0 ≤ n - 1) then "+" else "-") +:+ pretty (Z.abs (n - 1)) in
    if bool_decide (k = 1) then digits +:+ "e" +:+ exponent
    else String.substring 0 1 digits +:+ "." +:+
           String.substring 1 (Z.to_nat (k - 1)) digits +:+ "e" +:+ exponent.

Definition float_toString (x : float) : string :=
  match Prim2SF x with
  | S754_nan => "NaN"
  | S754_infinity false => "Infinity"
  | S754_infinity true => "-Infinity"
  | S754_zero _ => "0"
  | S754_finite s m e =>
      (if s then "-" else EmptyString) +:+ toString_abs m e
  end.

Global Instance float_number : Number float := {|
  of_Z := float_of_Z;
  plus := PrimFloat.add;
  minus := PrimFloat.sub;
  times := PrimFloat.mul;
  divide := PrimFloat.div;
  less := PrimFloat.ltb;
  truthy := float_truthy;
  toFixed := float_toFixed;
|}.

(** *** Exact numbers *)

Definition qc (n : Z) (d : positive) : Qc := Q2Qc (n # d).

Inductive exact : Type :=
  | Fin (q : Qc)
  | PInf
  | NInf
  | NaN.

Global Instance exact_eq_dec : EqDecision exact.
Proof. solve_decision. Defined.

(** -1, 0 or 1 for a finite value. *)
Definition Qc_sgn (q : Qc) : Z := Z.sgn (Qnum (this q)).

(** An infinity of the sign [s]; [NaN] when [s] is 0. *)
Definition inf_of_sgn (s : Z) : exact :=
  match s with
  | Z0 => NaN
  | Zpos _ => PInf
  | Zneg _ => NInf
  end.

Definition exact_sgn (x : exact) : option Z :=
  match x with
  | Fin q => Some (Qc_sgn q)
  | PInf => Some 1
  | NInf => Some (-1)
  | NaN => None
  end.

Definition exact_neg (x : exact) : exact :=
  match x with
  | Fin q => Fin (- q)%Qc
  | PInf => NInf
  | NInf => PInf
  | NaN => NaN
  end.

Definition exact_add (x y : exact) : exact :=
  match x, y with
  | NaN, _ | _, NaN => NaN
  | Fin a, Fin b => Fin (a + b)%Qc
  | PInf, NInf | NInf, PInf => NaN
  | PInf, _ | _, PInf => PInf
  | NInf, _ | _, NInf => NInf
  end.

Definition exact_sub (x y : exact) : exact := exact_add x (exact_neg y).

Definition exact_mul (x y : exact) : exact :=
  match x, y with
  | Fin a, Fin b => Fin (a * b)%Qc
  | _, _ =>
      match exact_sgn x, exact_sgn y with
      | Some s, Some t => inf_of_sgn (s * t)
      | _, _ => NaN
      end
  end.

(** A finite value over zero is an infinity ([NaN] for [0 / 0]), a finite
    value over an infinity is 0. *)
Definition exact_div (x y : exact) : exact :=
  match x, y with
  | NaN, _ | _, NaN => NaN
  | Fin a, Fin b =>
      if bool_decide (b = qc 0 1) then inf_of_sgn (Qc_sgn a) else Fin (a / b)%Qc
  | Fin _, _ => Fin (qc 0 1)
  | PInf, Fin b => if bool_decide (b = qc 0 1) then PInf else inf_of_sgn (Qc_sgn b)
  | NInf, Fin b => if bool_decide (b = qc 0 1) then NInf else inf_of_sgn (- Qc_sgn b)
  | _, _ => NaN
  end.

(** False as soon as one side is [NaN]. *)
Definition exact_lt (x y : exact) : bool :=
  match x, y with
  | NaN, _ | _, NaN => false
  | Fin a, Fin b => bool_decide (a < b)%Qc
  | NInf, NInf | PInf, _ => false
  | NInf, _ | _, PInf => true
  | _, NInf => false
  end.

Definition exact_truthy (x : exact) : bool :=
  match x with
  | Fin q => negb (bool_decide (q = qc 0 1))
  | NaN => false
  | _ => true
  end.

Definition exact_toFixed (f : nat) (x : exact) : string :=
  match x with
  | NaN => "NaN"
  | PInf => "Infinity"
  | NInf => "-Infinity"
  | Fin q =>
      if bool_decide (q < qc 0 1)%Qc then "-" +:+ toFixed_abs f (this (- q)%Qc)
      else toFixed_abs f (this q)
  end.

Global Instance exact_number : Number exact := {|
  of_Z := λ z, Fin (qc z 1);
  plus := exact_add;
  minus := exact_sub;
  times := exact_mul;
  divide := exact_div;
  less := exact_lt;
  truthy := exact_truthy;
  toFixed := exact_toFixed;
|}.

(** ** Promises and exceptions *)

(** What a rejected promise carries (an [Error]'s message). *)
Definition error : Type := string.

Inductive result (A : Type) : Type :=
  | Ok (a : A)
  | Throw (e : error).
Arguments Ok {A} a.
Arguments Throw {A} e.

Global Instance result_ret : MRet result := @Ok.
Global Instance result_bind : MBind result := λ A B f m,
  match m with
  | Ok a => f a
  | Throw e => Throw e
  end.

(** [try { body } catch (error) { handler }] *)
Definition try_catch {A} (body : result A) (handler : error → result A) : result A :=
  match body with
  | Ok a => Ok a
  | Throw e => handler e
  end.

Definition throws {A} (r : result A) : Prop := ∃ e, r = Throw e.

Global Instance result_eq_dec {A} `{EqDecision A} : EqDecision (result A).
Proof. solve_decision. Defined.

(** [forEach] and [for] loops whose body updates a variable and may throw. *)
Fixpoint forEachM {A S : Type} (body : S → A → result S) (l : list A) (s : S) : result S :=
  match l with
  | [] => mret s
  | x :: l' => s' ← body s x; forEachM body l' s'
  end.

(** ** Stable sorting, as [Array.prototype.sort] with a comparator *)

Section Sort.
Context {A : Type} (le : A → A → bool).

(** [x] goes in front of the first element it is not greater than, so an
    element inserted later (one that stood earlier in the array) stays in
    front of its equals. *)
Fixpoint insert_sorted (x : A) (l : list A) : list A :=
  match l with
  | [] => [x]
  | y :: l' => if le x y then x :: y :: l' else y :: insert_sorted x l'
  end.

Definition sort_by (l : list A) : list A := foldr insert_sorted [] l.
End Sort.

(** [l.slice(start)] *)
Definition slice_from {A} (start : Z) (l : list A) : list A :=
  let len := Z.of_nat (length l) in
  let k := if bool_decide (start < 0) then Z.max (len + start) 0 else Z.min start len in
  drop (Z.to_nat k) l.

(** [new Set(l).size] *)
Definition distinct_count (l : list string) : nat :=
  size (list_to_set l : gset string).

(** ** Records of the store ([db/usage.ts], [db/bills.ts]) and of the
    services *)

Section Records.
Context {N : Type}.

Record Usage : Type := {
  usage_id : Z;
  liters : N;
  usage_date : string;
  time : option string;
  usage_category : option string;
  location : option string;
  usage_description : option string;
}.

Record Bill : Type := {
  bill_id : string;
  amount : N;
  bill_date : string;
  consumptionLiters : N;
  currency : option string;
}.

Record LocationData : Type := {
  country : string;
  countryCode : string;
  city : string;
  lat : N;
  lon : N;
  timezone : string;
  regionName : string;
}.
End Records.
Arguments Usage : clear implicits.
Arguments Bill : clear implicits.
Arguments LocationData : clear implicits.

(** [WeatherData] of [api/openMeteo.ts]. *)
Module OpenMeteo.
Section Records.
Context {N : Type}.

Record WeatherData : Type := {
  latitude : N;
  longitude : N;
  temperature : N;
  humidity : N;
  precipitation : N;
  windSpeed : N;
  weatherCode : N;
}.
End Records.
Arguments WeatherData : clear implicits.
End OpenMeteo.

(** ** The environment

    The tables hold the rows as a [SELECT *] returns them; a table that
    cannot be read (the database is not initialised, the query fails) is a
    [Throw]. *)
Section Environment.
Context {N : Type}.

Record Env : Type := {
  usageTable : result (list (Usage N));
  billsTable : result (list (Bill N));
  (** [new Date().toISOString().split('T')[0]] *)
  today : string;
  (** the same after [setDate(getDate() - days)] *)
  startDateStr : Z → string;
  (** what AsyncStorage holds under the location key ([None] also when it
      cannot be read: [getSavedLocation] catches) *)
  savedLocation : option (LocationData N);
  (** the outcome of the IP geolocation request *)
  ipLocation : result (LocationData N);
  (** the outcome of [getCurrentWeather(lat, lon)]: cache or HTTP *)
  currentWeather : N → N → result (OpenMeteo.WeatherData N);
}.
End Environment.
Arguments Env : clear implicits.

Section Services.
Context {N : Type} `{Number N}.

(** ** [db/usage.ts] *)

Definition getAllUsage (env : Env N) : result (list (Usage N)) := usageTable env.

(** [SELECT COALESCE(SUM(liters), 0) as total FROM usage WHERE date = ?],
    then [result?.total || 0]. *)
Definition getTotalUsageByDate (env : Env N) (date : string) : result N :=
  rows ← usageTable env;
  let total := reduce_sum liters (filter (λ u, usage_date u = date) rows) in
  mret (or_else total zero).

(** [SELECT COALESCE(AVG(daily_total), 0) as avg FROM (SELECT date,
    SUM(liters) as daily_total FROM usage WHERE date >= ? GROUP BY date)],
    then [result?.avg || 0].  The comparison of [TEXT] values is bytewise;
    the aggregates are taken to add in the order of the rows, from 0,
    without the compensation that the summation of SQLite itself applies,
    from which they can differ in the last place. *)
Definition daily_totals (rows : list (Usage N)) : list N :=
  (λ d, reduce_sum liters (filter (λ u, usage_date u = d) rows))
    <$> remove_dups (usage_date <$> rows).

Definition sql_avg (l : list N) : option N :=
  match l with
  | [] => None
  | _ => Some (reduce_sum id l / of_nat (length l))%num
  end.

Definition getAverageDailyUsage (env : Env N) (days : Z) : result N :=
  rows ← usageTable env;
  let since := startDateStr env days in
  let selected := filter (λ u, String.leb since (usage_date u) = true) rows in
  let avg := default zero (sql_avg (daily_totals selected)) in
  mret (or_else avg zero).

(** ** [db/bills.ts] *)

Definition getAllBills (env : Env N) : result (list (Bill N)) := billsTable env.

(** [SELECT COALESCE(SUM(consumptionLiters), 0) as total FROM bills], then
    [result?.total || 0].  As above, the SUM is taken to add the values in
    the order of the rows; the summation of SQLite itself can differ from
    this sum in the last place. *)
Definition getTotalConsumption (env : Env N) : result N :=
  rows ← billsTable env;
  mret (or_else (reduce_sum consumptionLiters rows) zero).

(** ** [location/geolocation.ts] *)

Definition defaultLocation : LocationData N := {|
  country := "Iran"; countryCode := "IR"; city := "Tehran";
  lat := dec 356892 10000; lon := dec 513890 10000;
  timezone := "Asia/Tehran"; regionName := "Tehran" |}.

Definition getSavedLocation (env : Env N) : result (option (LocationData N)) :=
  mret (savedLocation env).

Definition getLocationFromIP (env : Env N) : result (LocationData N) :=
  try_catch (ipLocation env)
    (λ _, Throw "Failed to detect your location. Please set it manually.").

Definition getLocation (env : Env N) : result (LocationData N) :=
  try_catch
    (saved ← getSavedLocation env;
     match saved with
     | Some l => mret l
     | None => try_catch (getLocationFromIP env) (λ _, mret defaultLocation)
     end)
    (λ _, mret defaultLocation).

(** ** [getCurrentWeather] of [api/openMeteo.ts] *)

Definition getCurrentWeather (env : Env N) (latitude longitude : N)
    : result (OpenMeteo.WeatherData N) :=
  currentWeather env latitude longitude.
End Services.

(** ** The runtime's [Date]

    The getters the code reads from [new Date(s)], in local time.  An
    Invalid Date is [None]: every getter of it is [NaN]. *)
Record DateFields : Type := {
  fullYear : Z;
  monthIndex : Z;
  weekDay : Z;
}.

Definition JSDate : Type := option DateFields.

Definition getFullYear (d : JSDate) : option Z := fullYear <$> d.
Definition getMonth (d : JSDate) : option Z := monthIndex <$> d.
Definition getDay (d : JSDate) : option Z := weekDay <$> d.

(** ** The analytics module *)

Module Analytics.

Inductive Priority : Type := high | medium | low.

Global Instance Priority_eq_dec : EqDecision Priority.
Proof. solve_decision. Defined.

Section Records.
Context {N : Type}.

Record UsagePattern : Type := {
  dayOfWeek : string;
  averageUsage : N;
  peakHours : option (list N);
}.

Record MonthlyTrend : Type := {
  month : string;
  totalUsage : N;
  totalCost : N;
  averageDaily : N;
}.

Record WaterSavingsOpportunity : Type := {
  category : string;
  currentUsage : N;
  recommendedUsage : N;
  potentialSavings : N;
  priority : Priority;
  description : string;
}.

Record Summary : Type := {
  summary_totalDays : nat;
  summary_totalUsage : N;
  summary_averageDaily : N;
  summary_totalCost : N;
}.

Record UsageReport : Type := {
  summary : Summary;
  patterns : list UsagePattern;
  trends : list MonthlyTrend;
  opportunities : list WaterSavingsOpportunity;
}.

(** The value of a key of [monthMap]. *)
Record MonthData : Type := {
  usage : N;
  cost : N;
  days : gset string;
}.

Context `{EqDecision N}.

Global Instance UsagePattern_eq_dec : EqDecision UsagePattern.
Proof. solve_decision. Defined.
Global Instance MonthlyTrend_eq_dec : EqDecision MonthlyTrend.
Proof. solve_decision. Defined.
Global Instance WaterSavingsOpportunity_eq_dec : EqDecision WaterSavingsOpportunity.
Proof. solve_decision. Defined.
Global Instance Summary_eq_dec : EqDecision Summary.
Proof. solve_decision. Defined.
Global Instance UsageReport_eq_dec : EqDecision UsageReport.
Proof. solve_decision. Defined.
End Records.
Arguments UsagePattern : clear implicits.
Arguments MonthlyTrend : clear implicits.
Arguments WaterSavingsOpportunity : clear implicits.
Arguments Summary : clear implicits.
Arguments UsageReport : clear implicits.
Arguments MonthData : clear implicits.

Definition dayNames : list string :=
  ["Sunday"; "Monday"; "Tuesday"; "Wednesday"; "Thursday"; "Friday"; "Saturday"].

Definition priorityOrder (p : Priority) : Z :=
  match p with
  | high => 0
  | medium => 1
  | low => 2
  end.

Section Functions.
Context {N : Type} `{Number N}.
(** [new Date(s)] *)
Variable newDate : string → JSDate.

(** *** analyzeUsagePatterns *)

Definition emptyDayMap : gmap Z (list N) :=
  list_to_map [(0, []); (1, []); (2, []); (3, []); (4, []); (5, []); (6, [])].

(** [dayMap[dayOfWeek].push(u.liters)]; [dayMap[dayOfWeek]] is
    [undefined] for a key the map does not have, [NaN] included, and the
    call on it is a TypeError. *)
Definition pushDay (dayMap : gmap Z (list N)) (u : Usage N) : result (gmap Z (list N)) :=
  let date := newDate (usage_date u) in
  match getDay date with
  | Some dayOfWeek =>
      match dayMap !! dayOfWeek with
      | Some l => mret (<[dayOfWeek := l ++ [liters u]]> dayMap)
      | None => Throw "TypeError: Cannot read property 'push' of undefined"
      end
  | None => Throw "TypeError: Cannot read property 'push' of undefined"
  end.

Definition pushPattern (dayMap : gmap Z (list N)) (patterns : list (UsagePattern N)) (i : Z)
    : result (list (UsagePattern N)) :=
  match dayMap !! i with
  | Some l =>
      if bool_decide (0 < length l)%nat then
        let avg := (reduce_sum id l / of_nat (length l))%num in
        mret (patterns ++ [{| dayOfWeek := dayNames !!! Z.to_nat i;
                              averageUsage := avg; peakHours := None |}])
      else mret patterns
  | None => Throw "TypeError: Cannot read property 'length' of undefined"
  end.

Definition analyzeUsagePatterns (env : Env N) : result (list (UsagePattern N)) :=
  try_catch
    (usage ← getAllUsage env;
     dayMap ← forEachM pushDay usage emptyDayMap;
     forEachM (pushPattern dayMap) (seqZ 0 7) [])
    (λ error, mret []).

(** *** calculateMonthlyTrends *)

(** [`${date.getFullYear()}-${String(date.getMonth() + 1).padStart(2, '0')}`] *)
Definition monthKeyOf (date : JSDate) : string :=
  intToString (getFullYear date) +:+ "-"
    +:+ padStart0 2 (intToString ((λ m, m + 1) <$> getMonth date)).

(** [if (!monthMap[monthKey]) monthMap[monthKey] = {usage: 0, cost: 0, days: new Set()}] *)
Definition ensureMonth (monthKey : string) (monthMap : gmap string (MonthData N))
    : gmap string (MonthData N) :=
  match monthMap !! monthKey with
  | Some _ => monthMap
  | None => <[monthKey := {| usage := zero; cost := zero; days := ∅ |}]> monthMap
  end.

Definition addUsage (monthMap : gmap string (MonthData N)) (u : Usage N)
    : gmap string (MonthData N) :=
  let date := newDate (usage_date u) in
  let monthKey := monthKeyOf date in
  alter (λ data, {| usage := (usage data + liters u)%num;
                    cost := cost data;
                    days := {[usage_date u]} ∪ days data |})
    monthKey (ensureMonth monthKey monthMap).

Definition addBill (monthMap : gmap string (MonthData N)) (b : Bill N)
    : gmap string (MonthData N) :=
  let date := newDate (bill_date b) in
  let monthKey := monthKeyOf date in
  alter (λ data, {| usage := usage data;
                    cost := (cost data + amount b)%num;
                    days := days data |})
    monthKey (ensureMonth monthKey monthMap).

Definition buildMonthMap (usage : list (Usage N)) (bills : list (Bill N))
    : gmap string (MonthData N) :=
  foldl addBill (foldl addUsage ∅ usage) bills.

(** [Object.keys(monthMap).sort().slice(-months)]: the default sort
    compares strings by code units.  The keys of an object are distinct,
    so the order in which [Object.keys] lists them does not show after the
    sort. *)
Definition sortedMonths (monthMap : gmap string (MonthData N)) (months : Z) : list string :=
  slice_from (- months) (sort_by String.leb (map_to_list monthMap).*1).

Definition pushTrend (monthMap : gmap string (MonthData N)) (trends : list (MonthlyTrend N))
    (monthKey : string) : result (list (MonthlyTrend N)) :=
  match monthMap !! monthKey with
  | Some data =>
      let daysInMonth := or_else (of_nat (size (days data))) (int 1) in
      mret (trends ++ [{| month := monthKey;
                          totalUsage := usage data;
                          totalCost := cost data;
                          averageDaily := (usage data / daysInMonth)%num |}])
  | None => Throw "TypeError: Cannot read property 'days' of undefined"
  end.

(** The two reads of [Promise.all] are taken in the order of the array. *)
Definition calculateMonthlyTrends (env : Env N) (months : Z) : result (list (MonthlyTrend N)) :=
  try_catch
    (usage ← getAllUsage env;
     bills ← getAllBills env;
     let monthMap := buildMonthMap usage bills in
     forEachM (pushTrend monthMap) (sortedMonths monthMap months) [])
    (λ error, mret []).

(** *** identifySavingsOpportunities *)

Definition dailyAverage (usage : list (Usage N)) : N :=
  let totalUsage := reduce_sum liters usage in
  let days := distinct_count (usage_date <$> usage) in
  (totalUsage / of_nat days)%num.

Definition showerOpportunity (dailyAvg : N) : list (WaterSavingsOpportunity N) :=
  let showerUsage := (dailyAvg * dec 35 100)%num in
  if (showerUsage >? int 50)%num then
    [{| category := "Shower & Bath";
        currentUsage := showerUsage;
        recommendedUsage := int 40;
        potentialSavings := ((showerUsage - int 40) * int 30)%num;
        priority := high;
        description := "Reduce shower time to 5 minutes or install low-flow showerheads" |}]
  else [].

Definition toiletOpportunity (dailyAvg : N) : list (WaterSavingsOpportunity N) :=
  let toiletUsage := (dailyAvg * dec 27 100)%num in
  if (toiletUsage >? int 30)%num then
    [{| category := "Toilet";
        currentUsage := toiletUsage;
        recommendedUsage := int 24;
        potentialSavings := ((toiletUsage - int 24) * int 30)%num;
        priority := medium;
        description := "Install dual-flush toilet system or check for leaks" |}]
  else [].

Definition kitchenOpportunity (dailyAvg : N) : list (WaterSavingsOpportunity N) :=
  let kitchenUsage := (dailyAvg * dec 20 100)%num in
  if (kitchenUsage >? int 20)%num then
    [{| category := "Kitchen";
        currentUsage := kitchenUsage;
        recommendedUsage := int 15;
        potentialSavings := ((kitchenUsage - int 15) * int 30)%num;
        priority := medium;
        description := "Use dishwasher efficiently, don't pre-rinse dishes" |}]
  else [].

Definition generalOpportunity (dailyAvg : N) : list (WaterSavingsOpportunity N) :=
  if (dailyAvg >? int 150)%num then
    [{| category := "General";
        currentUsage := dailyAvg;
        recommendedUsage := int 100;
        potentialSavings := ((dailyAvg - int 100) * int 30)%num;
        priority := high;
        description := "Check for leaks and review all water-using activities" |}]
  else [].

(** The four [push]es in the order of the source. *)
Definition pushedOpportunities (dailyAvg : N) : list (WaterSavingsOpportunity N) :=
  showerOpportunity dailyAvg ++ toiletOpportunity dailyAvg
    ++ kitchenOpportunity dailyAvg ++ generalOpportunity dailyAvg.

(** The comparator [priorityOrder[a.priority] - priorityOrder[b.priority]]
    puts [a] first when it is not positive. *)
Definition byPriority (a b : WaterSavingsOpportunity N) : bool :=
  bool_decide (priorityOrder (priority a) - priorityOrder (priority b) ≤ 0).

Definition identifySavingsOpportunities (env : Env N)
    : result (list (WaterSavingsOpportunity N)) :=
  try_catch
    (usage ← getAllUsage env;
     if bool_decide (length usage = 0%nat) then mret []
     else
       let dailyAvg := dailyAverage usage in
       mret (sort_by byPriority (pushedOpportunities dailyAvg)))
    (λ error, mret []).

(** *** generateUsageReport *)

(** The five promises of [Promise.all] are taken in the order of the
    array; the last three never reject. *)
Definition generateUsageReport (env : Env N) : result (UsageReport N) :=
  try_catch
    (usage ← getAllUsage env;
     bills ← getAllBills env;
     patterns ← analyzeUsagePatterns env;
     trends ← calculateMonthlyTrends env 6;
     opportunities ← identifySavingsOpportunities env;
     let totalUsage := reduce_sum liters usage in
     let totalCost := reduce_sum amount bills in
     let totalDays := distinct_count (usage_date <$> usage) in
     let averageDaily :=
       if bool_decide (0 < totalDays)%nat then (totalUsage / of_nat totalDays)%num
       else zero in
     mret {| summary := {| summary_totalDays := totalDays;
                           summary_totalUsage := totalUsage;
                           summary_averageDaily := averageDaily;
                           summary_totalCost := totalCost |};
             patterns := patterns;
             trends := trends;
             opportunities := opportunities |})
    (λ error, Throw error).
End Functions.

End Analytics.

(** ** The advisor ([services/ai/waterAdvisor.ts]) *)

Module Advisor.

Inductive RecType : Type := usage | savings | regional | bill.
Inductive Priority : Type := high | medium | low.
Inductive Trend : Type := increasing | decreasing | stable.

Global Instance RecType_eq_dec : EqDecision RecType.
Proof. solve_decision. Defined.
Global Instance Priority_eq_dec : EqDecision Priority.
Proof. solve_decision. Defined.
Global Instance Trend_eq_dec : EqDecision Trend.
Proof. solve_decision. Defined.

Section Records.
Context {N : Type}.

Record AdvisorRecommendation : Type := {
  type : RecType;
  priority : Priority;
  title : string;
  message : string;
  actionable : string;
  potentialSavings : option N;
}.

Record UsageAnalysis : Type := {
  todayUsage : N;
  avgDailyUsage : N;
  comparisonToRecommended : N;
  trend : Trend;
}.

Record BillsAnalysis : Type := {
  totalConsumption : N;
  averageCostPerLiter : N;
  billCount : nat;
}.

Record RegionalContext : Type := {
  temperature : N;
  humidity : N;
  precipitation : N;
  recommendation : string;
}.
End Records.
Arguments AdvisorRecommendation : clear implicits.
Arguments UsageAnalysis : clear implicits.
Arguments BillsAnalysis : clear implicits.
Arguments RegionalContext : clear implicits.

Section Functions.
Context {N : Type} `{Number N}.

Definition RECOMMENDED_DAILY_USAGE : N := int 100.

Definition getUserUsageAnalysis (env : Env N) : result (UsageAnalysis N) :=
  todayUsage ← getTotalUsageByDate env (today env);
  avgDailyUsage ← getAverageDailyUsage env 30;
  let comparisonToRecommended :=
    ((avgDailyUsage - RECOMMENDED_DAILY_USAGE) / RECOMMENDED_DAILY_USAGE * int 100)%num in
  recentAvg ← getAverageDailyUsage env 7;
  olderAvg ← getAverageDailyUsage env 30;
  let trend :=
    if (recentAvg >? olderAvg * dec 11 10)%num then increasing
    else if (recentAvg <? olderAvg * dec 9 10)%num then decreasing
    else stable in
  mret {| todayUsage := todayUsage;
          avgDailyUsage := avgDailyUsage;
          comparisonToRecommended := comparisonToRecommended;
          trend := trend |}.

Definition getBillsAnalysis (env : Env N) : result (BillsAnalysis N) :=
  bills ← getAllBills env;
  totalConsumption ← getTotalConsumption env;
  let totalCost := reduce_sum amount bills in
  let averageCostPerLiter :=
    if (totalConsumption >? zero)%num then (totalCost / totalConsumption)%num else zero in
  mret {| totalConsumption := totalConsumption;
          averageCostPerLiter := averageCostPerLiter;
          billCount := length bills |}.

Definition weatherAdvice (weather : OpenMeteo.WeatherData N) : string :=
  if (OpenMeteo.precipitation weather <? int 1)%num
     && (OpenMeteo.humidity weather <? int 40)%num
  then "Low rainfall and humidity detected. Consider reducing outdoor water usage."
  else if (OpenMeteo.precipitation weather >? int 10)%num
  then "Good rainfall! Perfect time to collect rainwater for later use."
  else if (OpenMeteo.temperature weather >? int 30)%num
  then "High temperatures increase water evaporation. Water plants early morning or late evening."
  else "Weather conditions are normal. Maintain regular water conservation practices.".

Definition getRegionalWaterContext (env : Env N) : result (RegionalContext N) :=
  try_catch
    (location ← getLocation env;
     weather ← getCurrentWeather env (lat location) (lon location);
     let recommendation := weatherAdvice weather in
     mret {| temperature := OpenMeteo.temperature weather;
             humidity := OpenMeteo.humidity weather;
             precipitation := OpenMeteo.precipitation weather;
             recommendation := recommendation |})
    (λ error,
     mret {| temperature := zero;
             humidity := zero;
             precipitation := zero;
             recommendation := "Unable to fetch regional weather data." |}).

(** The recommendation on the usage level: one of the two is always pushed. *)
Definition usageRecommendation (usageAnalysis : UsageAnalysis N) : AdvisorRecommendation N :=
  if (avgDailyUsage usageAnalysis >? RECOMMENDED_DAILY_USAGE)%num then
    let excessUsage := (avgDailyUsage usageAnalysis - RECOMMENDED_DAILY_USAGE)%num in
    let potentialSavings := (excessUsage * int 30)%num in
    {| type := usage;
       priority := high;
       title := "Reduce Daily Water Usage";
       message := "Your average daily usage is " +:+ toFixed 1 (avgDailyUsage usageAnalysis)
         +:+ "L, which is " +:+ toFixed 0 (comparisonToRecommended usageAnalysis)
         +:+ "% above the recommended " +:+ "100" +:+ "L per day.";
       actionable := "Try reducing shower time by 2-3 minutes and fix any leaking faucets.";
       potentialSavings := Some potentialSavings |}
  else
    {| type := usage;
       priority := low;
       title := "Excellent Water Conservation!";
       message := "Your daily average of " +:+ toFixed 1 (avgDailyUsage usageAnalysis)
         +:+ "L is within recommended limits.";
       actionable := "Keep up the great work! Share your water-saving tips with others.";
       potentialSavings := None |}.

Definition trendRecommendation : AdvisorRecommendation N :=
  {| type := usage;
     priority := medium;
     title := "Usage Trend Alert";
     message := "Your water usage has been increasing over the past week.";
     actionable := "Review your recent activities and identify opportunities to reduce consumption.";
     potentialSavings := None |}.

Definition regionalRecommendation (regionalContext : RegionalContext N) : AdvisorRecommendation N :=
  {| type := regional;
     priority := high;
     title := "Low Rainfall in Your Area";
     message := "Current precipitation: " +:+ toFixed 1 (precipitation regionalContext)
       +:+ "mm. Your region is experiencing dry conditions.";
     actionable := "Limit outdoor watering to early morning only and consider rainwater harvesting for future use.";
     potentialSavings := None |}.

Definition costRecommendation (billsAnalysis : BillsAnalysis N) : AdvisorRecommendation N :=
  let monthlyPotentialSaving := (averageCostPerLiter billsAnalysis * int 1000)%num in
  {| type := bill;
     priority := medium;
     title := "Reduce Water Costs";
     message := "Your average cost is $" +:+ toFixed 4 (averageCostPerLiter billsAnalysis)
       +:+ " per liter.";
     actionable := "Reducing usage by 1000L monthly could save you $"
       +:+ toFixed 2 monthlyPotentialSaving +:+ ".";
     potentialSavings := Some monthlyPotentialSaving |}.

(** The recommendation of the [catch] block. *)
Definition startTracking : AdvisorRecommendation N :=
  {| type := usage;
     priority := low;
     title := "Start Tracking";
     message := "Add your water usage and bills to get personalized recommendations.";
     actionable := "Tap on " +:+ dquote +:+ "Add Usage" +:+ dquote +:+ " or " +:+ dquote
       +:+ "Water Bills" +:+ dquote +:+ " to start tracking your water consumption.";
     potentialSavings := None |}.

Definition push_if {A} (test : bool) (x : A) (l : list A) : list A :=
  if test then l ++ [x] else l.

(** The [try] block, run on the array [recommendations]: the array as the
    block leaves it, and the exception that ended the block, if any. *)
Definition tryBlock (env : Env N) (recommendations : list (AdvisorRecommendation N))
    : list (AdvisorRecommendation N) * option error :=
  match getUserUsageAnalysis env with
  | Throw error => (recommendations, Some error)
  | Ok usageAnalysis =>
  match getBillsAnalysis env with
  | Throw error => (recommendations, Some error)
  | Ok billsAnalysis =>
  match getRegionalWaterContext env with
  | Throw error => (recommendations, Some error)
  | Ok regionalContext =>
      let recommendations := recommendations ++ [usageRecommendation usageAnalysis] in
      let recommendations :=
        push_if (bool_decide (trend usageAnalysis = increasing))
          trendRecommendation recommendations in
      let recommendations :=
        push_if (precipitation regionalContext <? int 1)%num
          (regionalRecommendation regionalContext) recommendations in
      let recommendations :=
        push_if (averageCostPerLiter billsAnalysis >? dec 1 100)%num
          (costRecommendation billsAnalysis) recommendations in
      (recommendations, None)
  end end end.

Definition generateRecommendations (env : Env N)
    : result (list (AdvisorRecommendation N)) :=
  let recommendations := [] in
  match tryBlock env recommendations with
  | (recommendations, None) => mret recommendations
  | (recommendations, Some error) => mret (recommendations ++ [startTracking])
  end.
End Functions.

End Advisor.


(** ** A runtime instance for the examples

    [new Date(s)] for a date-only string [YYYY-MM-DD] in a runtime whose
    local time zone is UTC: the string denotes midnight UTC of that day,
    and the getters read the same day back.  Anything else is taken to be an
    Invalid Date here. *)

Definition digitOf (c : ascii) : option Z :=
  let n := Z.of_N (N_of_ascii c) in
  if bool_decide (48 ≤ n ≤ 57) then Some (n - 48) else None.

Definition number2 (a b : ascii) : option Z :=
  x ← digitOf a; y ← digitOf b; Some (10 * x + y).

Definition isLeap (y : Z) : bool :=
  bool_decide (y mod 4 = 0) && (negb (bool_decide (y mod 100 = 0)) || bool_decide (y mod 400 = 0)).

Definition daysInMonth (y m : Z) : Z :=
  if bool_decide (m = 2) then (if isLeap y then 29 else 28)
  else if bool_decide (m = 4 ∨ m = 6 ∨ m = 9 ∨ m = 11) then 30 else 31.

(** Days from 1970-01-01 to the civil date [y]-[m]-[d]. *)
Definition daysFromCivil (y m d : Z) : Z :=
  let y' := if bool_decide (m ≤ 2) then y - 1 else y in
  let era := y' `div` 400 in
  let yoe := y' - era * 400 in
  let mp := if bool_decide (m ≤ 2) then m + 9 else m - 3 in
  let doy := (153 * mp + 2) `div` 5 + d - 1 in
  let doe := yoe * 365 + yoe `div` 4 - yoe `div` 100 + doy in
  era * 146097 + doe - 719468.

Definition utcDate (s : string) : JSDate :=
  match s with
  | String y1 (String y2 (String y3 (String y4 (String "-" (String m1 (String m2
      (String "-" (String d1 (String d2 EmptyString))))))))) =>
      hi ← number2 y1 y2; lo ← number2 y3 y4; m ← number2 m1 m2; d ← number2 d1 d2;
      let y := 100 * hi + lo in
      if bool_decide (1 ≤ m ≤ 12) && bool_decide (1 ≤ d ≤ daysInMonth y m) then
        Some {| fullYear := y; monthIndex := m - 1;
                weekDay := (daysFromCivil y m d + 4) `mod` 7 |}
      else None
  | _ => None
  end.


Section Builders.
Context {N : Type} `{Number N}.

(** A usage event and a bill with only the fields the analytics read. *)
Definition mkUsage (id : Z) (l : Z) (date : string) : Usage N :=
  {| usage_id := id; liters := int l; usage_date := date; time := None;
     usage_category := None; location := None; usage_description := None |}.

Definition mkBill (id : string) (a : Z) (date : string) (c : Z) : Bill N :=
  {| bill_id := id; amount := int a; bill_date := date; consumptionLiters := int c;
     currency := Some "USD" |}.

(** An environment over given tables and a given weather outcome; the
    clock stands at 2024-03-15, no location is saved and the IP lookup
    fails, so the default location is used. *)
Definition mkEnv (us : result (list (Usage N))) (bs : result (list (Bill N)))
    (w : result (OpenMeteo.WeatherData N)) : Env N :=
  {| usageTable := us; billsTable := bs; today := "2024-03-15";
     startDateStr := λ days,
       if bool_decide (days = 7) then "2024-03-08" else "2024-02-14";
     savedLocation := None; ipLocation := Throw "Network Error";
     currentWeather := λ _ _, w |}.

Definition rainy (mm : Z) : OpenMeteo.WeatherData N :=
  {| OpenMeteo.latitude := dec 356892 10000; OpenMeteo.longitude := dec 513890 10000;
     OpenMeteo.temperature := int 20; OpenMeteo.humidity := int 50;
     OpenMeteo.precipitation := int mm; OpenMeteo.windSpeed := int 3;
     OpenMeteo.weatherCode := int 61 |}.
End Builders.

(** ** Specification-side definitions

    What the specification says in its own words, to be compared with the
    functions above. *)

(** *** Sums and means

    The sum of a list of numbers is taken from the first number to the
    last, as one adds a column: [total [a; b; c]] is [((0 + a) + b) + c].
    With doubles the order matters. *)

Section Sums.
Context {N : Type} `{Number N}.

(** The sum of a list whose last number comes first. *)
Fixpoint added (r : list N) : N :=
  match r with
  | [] => zero
  | x :: r => (added r + x)%num
  end.

Definition total (l : list N) : N := added (rev l).

Definition arithmeticMean (l : list N) : N := (total l / of_nat (length l))%num.

(** The liters of the events [evs] together. *)
Definition litersOf (evs : list (Usage N)) : N := total (liters <$> evs).
End Sums.

(** *** The calendar

    The day of the week of a date [YYYY-MM-DD] of the Gregorian calendar,
    0 for Sunday to 6 for Saturday, by Zeller's congruence. *)

(** The number that a string of decimal digits writes, after [acc]. *)
Fixpoint decimal (acc : Z) (s : string) : option Z :=
  match s with
  | EmptyString => Some acc
  | String c s =>
      let n := Z.of_N (N_of_ascii c) in
      if bool_decide (48 ≤ n ≤ 57) then decimal (10 * acc + (n - 48)) s else None
  end.

Definition leapYear (y : Z) : bool :=
  bool_decide ((y `mod` 4 = 0 ∧ y `mod` 100 ≠ 0) ∨ y `mod` 400 = 0).

Definition monthLength (y m : Z) : Z :=
  match m with
  | 2 => if leapYear y then 29 else 28
  | 4 | 6 | 9 | 11 => 30
  | _ => 31
  end.

(** The year, the month and the day of a date [YYYY-MM-DD]. *)
Definition calendarDay (s : string) : option (Z * Z * Z) :=
  if bool_decide (String.length s = 10%nat)
     && bool_decide (String.substring 4 1 s = "-")
     && bool_decide (String.substring 7 1 s = "-")
  then
    y ← decimal 0 (String.substring 0 4 s);
    m ← decimal 0 (String.substring 5 2 s);
    d ← decimal 0 (String.substring 8 2 s);
    if bool_decide (1 ≤ m ≤ 12 ∧ 1 ≤ d ≤ monthLength y m) then Some (y, m, d) else None
  else None.

Definition zeller (y m d : Z) : Z :=
  let m' := if bool_decide (m ≤ 2) then m + 12 else m in
  let y' := if bool_decide (m ≤ 2) then y - 1 else y in
  let k := y' `mod` 100 in
  let j := y' `div` 100 in
  (d + (13 * (m' + 1)) `div` 5 + k + k `div` 4 + j `div` 4 + 5 * j + 6) `mod` 7.

Definition calendarWeekday (s : string) : option Z :=
  (λ '(y, m, d), zeller y m d) <$> calendarDay s.

Section Spec.
Context {N : Type} `{Number N}.
Variable newDate : string → JSDate.

(** The day of the week that the runtime reads from the date of an event. *)
Definition weekdayOf (u : Usage N) : option Z := getDay (newDate (usage_date u)).

(** The date of the event is a date of the calendar, and the runtime
    reads it on its own day of the week.  (A date [YYYY-MM-DD] is midnight
    UTC of that day to [new Date], and [getDay] reads the local time: the
    two agree in a time zone that is not behind UTC.) *)
Definition readsCalendarDay (u : Usage N) : Prop :=
  ∃ d, calendarWeekday (usage_date u) = Some d ∧ weekdayOf u = Some d.

(** The events of the weekday [i], in the order of the rows. *)
Definition onWeekday (i : Z) (rows : list (Usage N)) : list (Usage N) :=
  filter (λ u, calendarWeekday (usage_date u) = Some i) rows.

(** The entry of the weekday [i]: none when no event falls on it. *)
Definition weekdayMean (rows : list (Usage N)) (i : Z) : option (Analytics.UsagePattern N) :=
  match onWeekday i rows with
  | [] => None
  | evs => Some {| Analytics.dayOfWeek := Analytics.dayNames !!! Z.to_nat i;
                   Analytics.averageUsage := arithmeticMean (liters <$> evs);
                   Analytics.peakHours := None |}
  end.

(** One entry per weekday with an event, Sunday first. *)
Definition weekdayMeans (rows : list (Usage N)) : list (Analytics.UsagePattern N) :=
  omap (weekdayMean rows) [0; 1; 2; 3; 4; 5; 6].

(** The month keys of the usage events and of the bills. *)
Definition usageKey (u : Usage N) : string := Analytics.monthKeyOf (newDate (usage_date u)).
Definition billKey (b : Bill N) : string := Analytics.monthKeyOf (newDate (bill_date b)).
Definition activeMonths (us : list (Usage N)) (bs : list (Bill N)) : list string :=
  (usageKey <$> us) ++ (billKey <$> bs).
End Spec.

Section SpecValues.
Context {N : Type} `{Number N}.

(** Every weekday has its array in the map. *)
Definition fullWeek (dayMap : gmap Z (list N)) : Prop :=
  ∀ i, 0 ≤ i < 7 → is_Some (dayMap !! i).

(** The report over tables without rows. *)
Definition emptyReport : Analytics.UsageReport N :=
  {| Analytics.summary :=
       {| Analytics.summary_totalDays := 0;
          Analytics.summary_totalUsage := zero;
          Analytics.summary_averageDaily := zero;
          Analytics.summary_totalCost := zero |};
     Analytics.patterns := [];
     Analytics.trends := [];
     Analytics.opportunities := [] |}.

(** What [getRegionalWaterContext] returns from its [catch]. *)
Definition regionalFallback : Advisor.RegionalContext N :=
  {| Advisor.temperature := zero;
     Advisor.humidity := zero;
     Advisor.precipitation := zero;
     Advisor.recommendation := "Unable to fetch regional weather data." |}.

(** The array at the end of a [try] block that did not throw. *)
Definition normalRecommendations (ua : Advisor.UsageAnalysis N)
    (ba : Advisor.BillsAnalysis N) (ctx : Advisor.RegionalContext N)
    : list (Advisor.AdvisorRecommendation N) :=
  Advisor.push_if (Advisor.averageCostPerLiter ba >? dec 1 100)%num
    (Advisor.costRecommendation ba)
    (Advisor.push_if (Advisor.precipitation ctx <? int 1)%num
       (Advisor.regionalRecommendation ctx)
       (Advisor.push_if (bool_decide (Advisor.trend ua = Advisor.increasing))
          Advisor.trendRecommendation
          [Advisor.usageRecommendation ua])).

(** The same environment with another outcome of the weather request. *)
Definition withWeather (env : Env N) (w : result (OpenMeteo.WeatherData N)) : Env N :=
  {| usageTable := usageTable env; billsTable := billsTable env;
     today := today env; startDateStr := startDateStr env;
     savedLocation := savedLocation env; ipLocation := ipLocation env;
     currentWeather := λ _ _, w |}.

(** The regional recommendation for a reading of 0 mm. *)
Definition lowRainfallAtZero : Advisor.AdvisorRecommendation N :=
  {| Advisor.type := Advisor.regional;
     Advisor.priority := Advisor.high;
     Advisor.title := "Low Rainfall in Your Area";
     Advisor.message :=
       "Current precipitation: 0.0mm. Your region is experiencing dry conditions.";
     Advisor.actionable :=
       "Limit outdoor watering to early morning only and consider rainwater harvesting for future use.";
     Advisor.potentialSavings := None |}.

(** The cost recommendation for 0.02 per liter. *)
Definition costAtTwoCents : Advisor.AdvisorRecommendation N :=
  {| Advisor.type := Advisor.bill;
     Advisor.priority := Advisor.medium;
     Advisor.title := "Reduce Water Costs";
     Advisor.message := "Your average cost is $0.0200 per liter.";
     Advisor.actionable := "Reducing usage by 1000L monthly could save you $20.00.";
     Advisor.potentialSavings := Some (int 20) |}.

(** The General and the Shower & Bath opportunities at 200 L a day. *)
Definition generalAt200 : Analytics.WaterSavingsOpportunity N :=
  {| Analytics.category := "General";
     Analytics.currentUsage := int 200;
     Analytics.recommendedUsage := int 100;
     Analytics.potentialSavings := int 3000;
     Analytics.priority := Analytics.high;
     Analytics.description := "Check for leaks and review all water-using activities" |}.

Definition showerAt200 : Analytics.WaterSavingsOpportunity N :=
  {| Analytics.category := "Shower & Bath";
     Analytics.currentUsage := int 70;
     Analytics.recommendedUsage := int 40;
     Analytics.potentialSavings := int 900;
     Analytics.priority := Analytics.high;
     Analytics.description :=
       "Reduce shower time to 5 minutes or install low-flow showerheads" |}.
End SpecValues.

(** *** Sample data *)

Section Samples.
Context {N : Type} `{Number N}.

(** Two events on Mondays, a week apart. *)
Definition twoMondays : list (Usage N) :=
  [mkUsage 1 100 "2024-01-01"; mkUsage 2 200 "2024-01-08"].

(** Seven events on Mondays, 29 L together. *)
Definition sevenMondays : list (Usage N) :=
  [mkUsage 1 5 "2024-01-01"; mkUsage 2 4 "2024-01-08"; mkUsage 3 4 "2024-01-15";
   mkUsage 4 4 "2024-01-22"; mkUsage 5 4 "2024-01-29"; mkUsage 6 4 "2024-02-05";
   mkUsage 7 4 "2024-02-12"].


(** Two events on one day, 200 L together. *)
Definition oneDayOf200 : list (Usage N) :=
  [mkUsage 1 150 "2024-03-01"; mkUsage 2 50 "2024-03-01"].

Definition januaryBill : Bill N := mkBill "B1" 2 "2024-01-20" 100.

(** The two Mondays, one bill, 5 mm of rain. *)
Definition envJanuary : Env N := mkEnv (Ok twoMondays) (Ok [januaryBill]) (Ok (rainy 5)).

(** Readable, empty tables and a weather request that fails. *)
Definition envWeatherDown : Env N := mkEnv (Ok []) (Ok []) (Throw "Network Error").

(** No usage, one bill of 2 for 100 liters, 5 mm of rain. *)
Definition envTwoCents : Env N := mkEnv (Ok []) (Ok [januaryBill]) (Ok (rainy 5)).

(** 600 L logged five days before the clock's date, no bills, and a
    weather request that fails. *)
Definition envDryOrDown : Env N :=
  mkEnv (Ok [mkUsage 1 600 "2024-03-10"]) (Ok []) (Throw "Network Error").

(** The analyses of [envTwoCents]. *)
Definition analysisOfNothing : Advisor.UsageAnalysis N :=
  {| Advisor.todayUsage := zero;
     Advisor.avgDailyUsage := zero;
     Advisor.comparisonToRecommended := int (-100);
     Advisor.trend := Advisor.stable |}.

Definition billsAtTwoCents : Advisor.BillsAnalysis N :=
  {| Advisor.totalConsumption := int 100;
     Advisor.averageCostPerLiter := dec 2 100;
     Advisor.billCount := 1 |}.

Definition contextOfRain : Advisor.RegionalContext N :=
  {| Advisor.temperature := int 20;
     Advisor.humidity := int 50;
     Advisor.precipitation := int 5;
     Advisor.recommendation :=
       "Weather conditions are normal. Maintain regular water conservation practices." |}.
End Samples.

(** Strictly ascending in the order of the code units. *)
Definition ascending (l : list string) : Prop :=
  StronglySorted (λ a b, String.ltb a b = true) l.



(** The number of distinct strings of [l]. *)
Definition distinct (l : list string) : nat := length (remove_dups l).

(** *** Doubles next to each other *)

(** [y] is [x] or one of the two doubles next to [x]. *)
Definition nextTo (x y : float) : Prop :=
  y = x ∨ y = PrimFloat.next_up x ∨ y = PrimFloat.next_down x.

Definition isNextTo (x y : float) : bool :=
  PrimFloat.Leibniz.eqb y x || PrimFloat.Leibniz.eqb y (PrimFloat.next_up x)
    || PrimFloat.Leibniz.eqb y (PrimFloat.next_down x).

(** The whole number [s] divided by the count [n] and multiplied by it
    again, in doubles, is next to [s]. *)
Definition dividesBack (s n : Z) : bool :=
  isNextTo (float_of_Z s) (float_of_Z s / float_of_Z n * float_of_Z n)%float.

(** The same for the counts [n], [n + 1], ... ([counts] of them) and for
    the sums [s], [s + 1], ... ([sums] of them). *)
Fixpoint dividesBackCounts (counts : nat) (n s : Z) : bool :=
  match counts with
  | O => true
  | S counts => dividesBack s n && dividesBackCounts counts (n + 1) s
  end.

Fixpoint dividesBackSums (sums : nat) (s : Z) (counts : nat) : bool :=
  match sums with
  | O => true
  | S sums => dividesBackCounts counts 1 s && dividesBackSums sums (s + 1) counts
  end.

(** Two closed doubles are different when the test of equality on the
    right one tells them apart. *)
Ltac float_neq :=
  let H := fresh in
  intros H;
  match type of H with
  | ?x = ?y => apply (f_equal (λ z, PrimFloat.Leibniz.eqb z y)) in H
  end;
  vm_compute in H; discriminate H.


(** ** The months of the trends, in the words of the data *)

Section MonthSpec.
Context {N : Type} `{Number N}.
Variable newDate : string → JSDate.

(** The usage events and the bills whose date falls in the month [k], in
    the order of the rows. *)
Definition usageOfMonth (k : string) (us : list (Usage N)) : list (Usage N) :=
  filter (λ u, usageKey newDate u = k) us.

Definition billsOfMonth (k : string) (bs : list (Bill N)) : list (Bill N) :=
  filter (λ b, billKey newDate b = k) bs.

(** The entry of the month [k]: the liters and the amounts of the month,
    and the liters over the number of distinct dates with an event (over 1
    when there is none). *)
Definition monthTrend (us : list (Usage N)) (bs : list (Bill N)) (k : string)
    : Analytics.MonthlyTrend N :=
  let evs := usageOfMonth k us in
  {| Analytics.month := k;
     Analytics.totalUsage := litersOf evs;
     Analytics.totalCost := reduce_sum amount (billsOfMonth k bs);
     Analytics.averageDaily :=
       (litersOf evs / or_else (of_nat (distinct_count (usage_date <$> evs))) (int 1))%num |}.

(** The value of a new key of [monthMap], and the two updates of a value. *)
Definition emptyMonth : Analytics.MonthData N :=
  {| Analytics.usage := zero; Analytics.cost := zero; Analytics.days := ∅ |}.

Definition withEvent (data : Analytics.MonthData N) (u : Usage N) : Analytics.MonthData N :=
  {| Analytics.usage := (Analytics.usage data + liters u)%num;
     Analytics.cost := Analytics.cost data;
     Analytics.days := {[usage_date u]} ∪ Analytics.days data |}.

Definition withBill (data : Analytics.MonthData N) (b : Bill N) : Analytics.MonthData N :=
  {| Analytics.usage := Analytics.usage data;
     Analytics.cost := (Analytics.cost data + amount b)%num;
     Analytics.days := Analytics.days data |}.
End MonthSpec.

(** The key of a date the runtime cannot read. *)
Definition invalidMonthKey : string := "NaN-NaN".

Section MonthSamples.
Context {N : Type} `{Number N}.

(** Three events on two days of March 2024; a bill in February and one in
    March. *)
Definition springUsage : list (Usage N) :=
  [mkUsage 1 90 "2024-03-02"; mkUsage 2 30 "2024-03-02"; mkUsage 3 60 "2024-03-05"].

Definition springBills : list (Bill N) :=
  [mkBill "b1" 12 "2024-02-10" 400; mkBill "b2" 8 "2024-03-10" 300].

Definition envSpring : Env N := mkEnv (Ok springUsage) (Ok springBills) (Ok (rainy 5)).
End MonthSamples.

(** ** More values of the advisor, in the words of the data *)

Section AdvisorValues.
Context {N : Type} `{Number N}.

(** The usage recommendation for a daily average of 0. *)
Definition excellentAtZero : Advisor.AdvisorRecommendation N :=
  {| Advisor.type := Advisor.usage;
     Advisor.priority := Advisor.low;
     Advisor.title := "Excellent Water Conservation!";
     Advisor.message := "Your daily average of 0.0L is within recommended limits.";
     Advisor.actionable :=
       "Keep up the great work! Share your water-saving tips with others.";
     Advisor.potentialSavings := None |}.

(** The analysis of bills that report no consumption. *)
Definition billsOfNoConsumption (count : nat) : Advisor.BillsAnalysis N :=
  {| Advisor.totalConsumption := zero;
     Advisor.averageCostPerLiter := zero;
     Advisor.billCount := count |}.

(** The types of a list of recommendations: the usage level, then the
    trend alert, the regional one and the one on the cost, each if it is
    there. *)
Definition typesOf (trendAlert regional cost : bool) : list Advisor.RecType :=
  Advisor.usage :: (if trendAlert then [Advisor.usage] else [])
    ++ (if regional then [Advisor.regional] else [])
    ++ (if cost then [Advisor.bill] else []).

(** The opportunities in the order in which they are returned. *)
Definition opportunitiesInOrder (dailyAvg : N) : list (Analytics.WaterSavingsOpportunity N) :=
  Analytics.showerOpportunity dailyAvg ++ Analytics.generalOpportunity dailyAvg
    ++ Analytics.toiletOpportunity dailyAvg ++ Analytics.kitchenOpportunity dailyAvg.
End AdvisorValues.
(** ** The cache ([db/cache.ts]) over the native database

    The functions of the cache work on the table [cache] of the database
    and read the clock.  The database here is the SQLite database of the
    native platforms, in which [key] is the primary key of the table; the
    database of the web platform, which answers these statements
    differently, is the [WebDatabase] further down.  The state holds the
    rows of the table by their key ([None] when the database is not
    initialised, in which case [getDatabase] throws) and the time that
    [Date.now()] reads, in milliseconds.  A query on an initialised
    database is taken to succeed.  The number of minutes a caller passes is
    an integer. *)

(** [JSON.stringify] and [JSON.parse] at the type of the values that the
    program stores, which are objects: [parse s] is [Ok v] when [s] is the
    JSON text of the object [v], and [Throw] when [JSON.parse] throws. *)
Class Json (T : Type) : Type := {
  stringify : T → string;
  parse : string → result T;
}.

Module Cache.

Record Entry : Type := {
  value : string;
  timestamp : Z;
}.

Global Instance Entry_eq_dec : EqDecision Entry.
Proof. solve_decision. Defined.

Record State : Type := {
  table : option (gmap string Entry);
  clock : Z;
}.

(** An [async] function that works on the state: its outcome and the
    state it leaves, which is the state at the time of the throw when it
    rejects. *)
Definition action (A : Type) : Type := State → result A * State.

Global Instance action_ret : MRet action := λ A a s, (Ok a, s).
Global Instance action_bind : MBind action := λ A B f m s,
  match m s with
  | (Ok a, s') => f a s'
  | (Throw e, s') => (Throw e, s')
  end.

(** A value or an exception that does not touch the state. *)
Definition lift {A} (r : result A) : action A := λ s, (r, s).

(** [getDatabase()] of [db/database.ts] *)
Definition getDatabase : action (gmap string Entry) := λ s,
  match table s with
  | Some db => (Ok db, s)
  | None => (Throw "Database not initialized. Call initDatabase first.", s)
  end.

(** [Date.now()] *)
Definition now : action Z := λ s, (Ok (clock s), s).

(** A statement that leaves [rows] in the table. *)
Definition runAsync (rows : gmap string Entry) : action unit := λ s,
  (Ok (), {| table := Some rows; clock := clock s |}).

(** The state [d] milliseconds later. *)
Definition later (d : Z) (s : State) : State :=
  {| table := table s; clock := clock s + d |}.

(** [DELETE FROM cache WHERE key = ?] *)
Definition deleteCache (key : string) : action unit :=
  db ← getDatabase;
  runAsync (delete key db).

(** [DELETE FROM cache WHERE timestamp < ?] *)
Definition clearOldCache (maxAgeMinutes : Z) : action unit :=
  db ← getDatabase;
  now ← now;
  let cutoff := now - maxAgeMinutes * 60 * 1000 in
  runAsync (filter (λ row, ¬ timestamp row.2 < cutoff) db).

(** [DELETE FROM cache] *)
Definition clearAllCache : action unit :=
  db ← getDatabase;
  runAsync ∅.

Section Functions.
Context {T : Type} {json : Json T}.

(** [INSERT OR REPLACE INTO cache (key, value, timestamp) VALUES (?, ?, ?)];
    [ttlMinutes] is not used. *)
Definition setCache (key : string) (value : T) (ttlMinutes : Z) : action unit :=
  db ← getDatabase;
  timestamp ← now;
  let valueStr := stringify value in
  runAsync (<[key := {| value := valueStr; timestamp := timestamp |}]> db).

(** [SELECT value, timestamp FROM cache WHERE key = ?] *)
Definition getCache (key : string) (ttlMinutes : Z) : action (option T) :=
  db ← getDatabase;
  match db !! key with
  | None => mret None
  | Some result =>
      now ← now;
      let age := now - timestamp result in
      let maxAge := ttlMinutes * 60 * 1000 in
      if bool_decide (age > maxAge) then
        deleteCache key;;
        mret None
      else
        cached ← lift (parse (value result));
        mret (Some cached)
  end.
End Functions.

End Cache.

(** ** The requests of [api/openMeteo.ts]

    A request of [axios.get] takes some time and then resolves with the
    data of the response or rejects with what was thrown. *)

Module WeatherApi.

(** What a [catch] of this module can receive, as far as [handleApiError]
    tells the cases apart: an error of axios, without a response or with
    one, whose [data.reason] is a string when it is there; another
    [Error]; anything else, by its [String(error)]. *)
Inductive Thrown : Type :=
  | AxiosError (response : option (option string))
  | JsError (message : string)
  | NonError (asString : string).

Inductive Outcome (R : Type) : Type :=
  | Resolved (data : R)
  | Rejected (error : Thrown).
Arguments Resolved {R} data.
Arguments Rejected {R} error.

Record Request (R : Type) : Type := {
  elapsed : Z;
  outcome : Outcome R;
}.
Arguments elapsed {R} _.
Arguments outcome {R} _.

(** The message of the [Error] that [handleApiError] returns; the empty
    string is falsy for [||]. *)
Definition handleApiError (error : Thrown) (fallbackMessage : string) : string :=
  match error with
  | AxiosError None => "No internet connection. Please check your network."
  | AxiosError (Some (Some (String a reason))) => String a reason
  | AxiosError (Some _) => fallbackMessage
  | JsError message => message
  | NonError asString => asString
  end.

Section Records.
Context {N : Type}.

(** [response.data.current] and [response.data.daily] *)
Record Current : Type := {
  temperature_2m : N;
  relative_humidity_2m : N;
  current_precipitation : N;
  wind_speed_10m : N;
  weather_code : N;
}.

Record Daily : Type := {
  precipitation_sum : list N;
  temperature_2m_mean : list N;
  daily_time : list string;
}.

Record ClimateData : Type := {
  climate_latitude : N;
  climate_longitude : N;
  dailyRainfall : list N;
  dailyTemperature : list N;
  dates : list string;
}.

Record DroughtIndicator : Type := {
  avgPrecipitation : N;
  isDroughtRisk : bool;
}.
End Records.
Arguments Current : clear implicits.
Arguments Daily : clear implicits.
Arguments ClimateData : clear implicits.
Arguments DroughtIndicator : clear implicits.

Section Functions.
Context {N : Type} `{Number N}.
(** The string of a number in a template literal. *)
Variable numberToString : N → string.
(** [new Date(t).toISOString().split('T')[0]] *)
Variable isoDate : Z → string.
Context {jsonWeather : Json (OpenMeteo.WeatherData N)}
  {jsonClimate : Json (ClimateData N)} {jsonDrought : Json (DroughtIndicator N)}.

Definition weatherKey (latitude longitude : N) : string :=
  "weather_" +:+ numberToString latitude +:+ "_" +:+ numberToString longitude.

(** The cached value, which is an object, is truthy.  [current] is
    [None] when the data of the response has no such field, and reading a
    field of it is a TypeError. *)
Definition getCurrentWeather (latitude longitude : N) (useCache : bool)
    (request : Request (option (Current N))) : Cache.action (OpenMeteo.WeatherData N) :=
  let cacheKey := weatherKey latitude longitude in
  cached ← (if useCache then Cache.getCache cacheKey 60 else mret None);
  match cached with
  | Some cached => mret cached
  | None => λ s,
      let s := Cache.later (elapsed request) s in
      match outcome request with
      | Rejected error =>
          (Throw (handleApiError error "Failed to fetch weather data"), s)
      | Resolved None =>
          (Throw (handleApiError
                    (JsError "TypeError: Cannot read property 'temperature_2m' of undefined")
                    "Failed to fetch weather data"), s)
      | Resolved (Some current) =>
          let weatherData :=
            {| OpenMeteo.latitude := latitude;
               OpenMeteo.longitude := longitude;
               OpenMeteo.temperature := temperature_2m current;
               OpenMeteo.humidity := relative_humidity_2m current;
               OpenMeteo.precipitation := current_precipitation current;
               OpenMeteo.windSpeed := wind_speed_10m current;
               OpenMeteo.weatherCode := weather_code current |} in
          match Cache.setCache cacheKey weatherData 60 s with
          | (Ok _, s) => (Ok weatherData, s)
          | (Throw message, s) =>
              (Throw (handleApiError (JsError message) "Failed to fetch weather data"), s)
          end
      end
  end.

Definition climateKey (latitude longitude : N) (startDate endDate : string) : string :=
  "climate_" +:+ numberToString latitude +:+ "_" +:+ numberToString longitude
    +:+ "_" +:+ startDate +:+ "_" +:+ endDate.

Definition getHistoricalClimate (latitude longitude : N) (startDate endDate : string)
    (useCache : bool) (request : Request (option (Daily N)))
    : Cache.action (ClimateData N) :=
  let cacheKey := climateKey latitude longitude startDate endDate in
  cached ← (if useCache then Cache.getCache cacheKey 360 else mret None);
  match cached with
  | Some cached => mret cached
  | None => λ s,
      let s := Cache.later (elapsed request) s in
      match outcome request with
      | Rejected error =>
          (Throw (handleApiError error "Failed to fetch climate data"), s)
      | Resolved None =>
          (Throw (handleApiError
                    (JsError "TypeError: Cannot read property 'precipitation_sum' of undefined")
                    "Failed to fetch climate data"), s)
      | Resolved (Some daily) =>
          let climateData :=
            {| climate_latitude := latitude;
               climate_longitude := longitude;
               dailyRainfall := precipitation_sum daily;
               dailyTemperature := temperature_2m_mean daily;
               dates := daily_time daily |} in
          match Cache.setCache cacheKey climateData 360 s with
          | (Ok _, s) => (Ok climateData, s)
          | (Throw message, s) =>
              (Throw (handleApiError (JsError message) "Failed to fetch climate data"), s)
          end
      end
  end.

Definition droughtKey (latitude longitude : N) (days : Z) : string :=
  "drought_" +:+ numberToString latitude +:+ "_" +:+ numberToString longitude
    +:+ "_" +:+ pretty days.

(** The indicator of a series of daily rainfall. *)
Definition droughtOf (dailyRainfall : list N) : DroughtIndicator N :=
  let totalPrecipitation := reduce_sum id dailyRainfall in
  let avgPrecipitation := (totalPrecipitation / of_nat (length dailyRainfall))%num in
  let isDroughtRisk := (avgPrecipitation <? dec 15 10)%num in
  {| avgPrecipitation := avgPrecipitation; isDroughtRisk := isDroughtRisk |}.

(** [days] is a whole number of days.  What the [try] block can throw is
    an [Error] of [getHistoricalClimate] or of the cache. *)
Definition getDroughtIndicator (latitude longitude : N) (days : Z) (useCache : bool)
    (request : Request (option (Daily N))) : Cache.action (DroughtIndicator N) :=
  endTime ← Cache.now;
  let endDate := isoDate endTime in
  startTime ← Cache.now;
  let startDate := isoDate (startTime - days * 24 * 60 * 60 * 1000) in
  let cacheKey := droughtKey latitude longitude days in
  cached ← (if useCache then Cache.getCache cacheKey 120 else mret None);
  match cached with
  | Some cached => mret cached
  | None => λ s,
      match getHistoricalClimate latitude longitude startDate endDate useCache request s with
      | (Throw message, s) =>
          (Throw (handleApiError (JsError message) "Failed to calculate drought indicator"), s)
      | (Ok climateData, s) =>
          let result := droughtOf (dailyRainfall climateData) in
          match Cache.setCache cacheKey result 120 s with
          | (Ok _, s) => (Ok result, s)
          | (Throw message, s) =>
              (Throw (handleApiError (JsError message)
                        "Failed to calculate drought indicator"), s)
          end
      end
  end.
End Functions.

(** *** The descriptions of the weather codes *)

(** The integer that a double is, if it is one: the string of such a
    number is the one of the integer (of 0 for -0), and the string of any
    other number names no property of the tables below. *)
Definition integerOf (x : float) : option Z :=
  match Prim2SF x with
  | S754_zero _ => Some 0
  | S754_finite s m e =>
      let q := Qred (Q_of_mantissa m e) in
      if bool_decide (Qden q = 1%positive)
      then Some (if s then - Qnum q else Qnum q)
      else None
  | _ => None
  end.

(** [table[key]] on an object literal with integer keys. *)
Fixpoint property (table : list (Z * string)) (key : Z) : option string :=
  match table with
  | [] => None
  | (k, v) :: table => if bool_decide (k = key) then Some v else property table key
  end.

(** [s || fallback] for a string or [undefined]. *)
Definition string_or_else (s : option string) (fallback : string) : string :=
  match s with
  | Some (String a s) => String a s
  | _ => fallback
  end.

Definition weatherCodeKeys : list (Z * string) :=
  [(0, "weather.clearSky"); (1, "weather.mainlyClear"); (2, "weather.partlyCloudy");
   (3, "weather.overcast"); (45, "weather.foggy"); (48, "weather.depositingRimeFog");
   (51, "weather.lightDrizzle"); (53, "weather.moderateDrizzle");
   (55, "weather.denseDrizzle"); (61, "weather.slightRain"); (63, "weather.moderateRain");
   (65, "weather.heavyRain"); (71, "weather.slightSnow"); (73, "weather.moderateSnow");
   (75, "weather.heavySnow"); (77, "weather.snowGrains");
   (80, "weather.slightRainShowers"); (81, "weather.moderateRainShowers");
   (82, "weather.violentRainShowers"); (85, "weather.slightSnowShowers");
   (86, "weather.heavySnowShowers"); (95, "weather.thunderstorm");
   (96, "weather.thunderstormSlightHail"); (99, "weather.thunderstormHeavyHail")].

Definition getWeatherDescriptionKey (code : float) : string :=
  string_or_else (integerOf code ≫= property weatherCodeKeys) "weather.unknown".

Definition weatherCodes : list (Z * string) :=
  [(0, "Clear sky"); (1, "Mainly clear"); (2, "Partly cloudy"); (3, "Overcast");
   (45, "Foggy"); (48, "Depositing rime fog"); (51, "Light drizzle");
   (53, "Moderate drizzle"); (55, "Dense drizzle"); (61, "Slight rain");
   (63, "Moderate rain"); (65, "Heavy rain"); (71, "Slight snow"); (73, "Moderate snow");
   (75, "Heavy snow"); (77, "Snow grains"); (80, "Slight rain showers");
   (81, "Moderate rain showers"); (82, "Violent rain showers");
   (85, "Slight snow showers"); (86, "Heavy snow showers"); (95, "Thunderstorm");
   (96, "Thunderstorm with slight hail"); (99, "Thunderstorm with heavy hail")].

Definition getWeatherDescription (code : float) : string :=
  string_or_else (integerOf code ≫= property weatherCodes) "Unknown".

End WeatherApi.

(** *** Sample codecs and states *)

(** The JSON text of a string without a character to escape: the string
    between double quotes. *)
Definition jsonOfString : Json string := {|
  stringify := λ s, dquote +:+ s +:+ dquote;
  parse := λ t,
    let n := String.length t in
    if bool_decide (2 ≤ n)%nat
       && bool_decide (String.substring 0 1 t = dquote)
       && bool_decide (String.substring (n - 1) 1 t = dquote)
    then Ok (String.substring 1 (n - 2) t)
    else Throw "SyntaxError: Unexpected token in JSON"
|}.

(** A codec that knows one value and its text. *)
Definition jsonOfOne {T : Type} (text : string) (v : T) : Json T := {|
  stringify := λ _, text;
  parse := λ t,
    if bool_decide (t = text) then Ok v
    else Throw "SyntaxError: Unexpected token in JSON"
|}.

(** [JSON.stringify] of numbers, strings without a character to escape,
    arrays and objects. *)
Definition jsonNumber (x : float) : string :=
  match Prim2SF x with
  | S754_nan | S754_infinity _ => "null"
  | _ => float_toString x
  end.

Definition jsonString (s : string) : string := dquote +:+ s +:+ dquote.

Fixpoint jsonItems (items : list string) : string :=
  match items with
  | [] => EmptyString
  | [item] => item
  | item :: items => item +:+ "," +:+ jsonItems items
  end.

Definition jsonArray (items : list string) : string := "[" +:+ jsonItems items +:+ "]".

Definition jsonMember (name value : string) : string := jsonString name +:+ ":" +:+ value.

Definition jsonObject (members : list string) : string := "{" +:+ jsonItems members +:+ "}".

(** A codec that writes as [write] does and reads the text of one
    value. *)
Definition jsonOfKnown {T : Type} (write : T → string) (v : T) : Json T := {|
  stringify := write;
  parse := λ t,
    if bool_decide (t = write v) then Ok v
    else Throw "SyntaxError: Unexpected token in JSON"
|}.

(** An initialised database without a cached row, at noon of 2024-03-15
    (UTC). *)
Definition emptyCache : Cache.State :=
  {| Cache.table := Some ∅; Cache.clock := 1710504000000 |}.

(** No database. *)
Definition noDatabase : Cache.State :=
  {| Cache.table := None; Cache.clock := 1710504000000 |}.

(** [new Date(t).toISOString().split('T')[0]] for a time [t] in
    milliseconds since 1970-01-01 and a year from 0 to 9999: the date in
    UTC of the day that [t] falls on. *)
Definition civilFromDays (days : Z) : Z * Z * Z :=
  let z := days + 719468 in
  let era := z `div` 146097 in
  let doe := z - era * 146097 in
  let yoe := (doe - doe `div` 1460 + doe `div` 36524 - doe `div` 146096) `div` 365 in
  let doy := doe - (365 * yoe + yoe `div` 4 - yoe `div` 100) in
  let mp := (5 * doy + 2) `div` 153 in
  let d := doy - (153 * mp + 2) `div` 5 + 1 in
  let m := if bool_decide (mp < 10) then mp + 3 else mp - 9 in
  let y := yoe + era * 400 in
  (if bool_decide (m ≤ 2) then y + 1 else y, m, d).

Definition isoDateUTC (t : Z) : string :=
  let '(y, m, d) := civilFromDays (t `div` 86400000) in
  padStart0 4 (pretty y) +:+ "-" +:+ padStart0 2 (pretty m) +:+ "-" +:+ padStart0 2 (pretty d).

(** [new Date(s)] for a date [YYYY-MM-DD] in a runtime whose local time is
    [offset] minutes ahead of UTC (behind it, when [offset] is negative):
    the string is midnight UTC of that day, and the getters read the local
    day of that moment. *)
Definition zonedDate (offset : Z) (s : string) : JSDate :=
  '(y, m, d) ← calendarDay s;
  let days := daysFromCivil y m d + offset `div` 1440 in
  let '(y', m', _) := civilFromDays days in
  Some {| fullYear := y'; monthIndex := m' - 1; weekDay := (days + 4) `mod` 7 |}.

(** *** Values of the requests, in the words of the data *)

Section WeatherValues.
Context {N : Type} `{Number N}.

(** The reading that a response carries. *)
Definition weatherOf (latitude longitude : N) (current : WeatherApi.Current N)
    : OpenMeteo.WeatherData N :=
  {| OpenMeteo.latitude := latitude;
     OpenMeteo.longitude := longitude;
     OpenMeteo.temperature := WeatherApi.temperature_2m current;
     OpenMeteo.humidity := WeatherApi.relative_humidity_2m current;
     OpenMeteo.precipitation := WeatherApi.current_precipitation current;
     OpenMeteo.windSpeed := WeatherApi.wind_speed_10m current;
     OpenMeteo.weatherCode := WeatherApi.weather_code current |}.

Definition climateOf (latitude longitude : N) (daily : WeatherApi.Daily N)
    : WeatherApi.ClimateData N :=
  {| WeatherApi.climate_latitude := latitude;
     WeatherApi.climate_longitude := longitude;
     WeatherApi.dailyRainfall := WeatherApi.precipitation_sum daily;
     WeatherApi.dailyTemperature := WeatherApi.temperature_2m_mean daily;
     WeatherApi.dates := WeatherApi.daily_time daily |}.

(** The state after a row was written under [key] at the clock's time. *)
Definition withRow (s : Cache.State) (db : gmap string Cache.Entry) (key text : string)
    : Cache.State :=
  {| Cache.table :=
       Some (<[key := {| Cache.value := text; Cache.timestamp := Cache.clock s |}]> db);
     Cache.clock := Cache.clock s |}.

(** A response of 20 degrees, 50 % and [mm] millimetres. *)
Definition currentOf (mm : Z) : WeatherApi.Current N :=
  {| WeatherApi.temperature_2m := int 20;
     WeatherApi.relative_humidity_2m := int 50;
     WeatherApi.current_precipitation := int mm;
     WeatherApi.wind_speed_10m := int 3;
     WeatherApi.weather_code := int 61 |}.
End WeatherValues.

(** The message of [getDatabase]. *)
Definition notInitialized : string := "Database not initialized. Call initDatabase first.".

(** *** Sample requests and cached rows *)

Definition tehranLatitude : float := dec 356892 10000.
Definition tehranLongitude : float := dec 513890 10000.

(** The reading of 5 mm at the default location, and a codec that knows
    it. *)
Definition rainAtTehran : OpenMeteo.WeatherData float :=
  weatherOf tehranLatitude tehranLongitude (currentOf 5).

Definition stringifyWeather (w : OpenMeteo.WeatherData float) : string :=
  jsonObject
    [jsonMember "latitude" (jsonNumber (OpenMeteo.latitude w));
     jsonMember "longitude" (jsonNumber (OpenMeteo.longitude w));
     jsonMember "temperature" (jsonNumber (OpenMeteo.temperature w));
     jsonMember "humidity" (jsonNumber (OpenMeteo.humidity w));
     jsonMember "precipitation" (jsonNumber (OpenMeteo.precipitation w));
     jsonMember "windSpeed" (jsonNumber (OpenMeteo.windSpeed w));
     jsonMember "weatherCode" (jsonNumber (OpenMeteo.weatherCode w))].

Definition stringifyClimate (c : WeatherApi.ClimateData float) : string :=
  jsonObject
    [jsonMember "latitude" (jsonNumber (WeatherApi.climate_latitude c));
     jsonMember "longitude" (jsonNumber (WeatherApi.climate_longitude c));
     jsonMember "dailyRainfall" (jsonArray (jsonNumber <$> WeatherApi.dailyRainfall c));
     jsonMember "dailyTemperature" (jsonArray (jsonNumber <$> WeatherApi.dailyTemperature c));
     jsonMember "dates" (jsonArray (jsonString <$> WeatherApi.dates c))].

Definition stringifyDrought (d : WeatherApi.DroughtIndicator float) : string :=
  jsonObject
    [jsonMember "avgPrecipitation" (jsonNumber (WeatherApi.avgPrecipitation d));
     jsonMember "isDroughtRisk" (if WeatherApi.isDroughtRisk d then "true" else "false")].

Definition jsonRain : Json (OpenMeteo.WeatherData float) :=
  jsonOfKnown stringifyWeather rainAtTehran.

(** The text of the reading: an object with latitude 35.6892, longitude
    51.389, temperature 20, humidity 50, precipitation 5, windSpeed 3 and
    weatherCode 61. *)
Definition rainText : string := Eval vm_compute in stringifyWeather rainAtTehran.

(** The database with that reading cached [age] milliseconds ago, under
    the key of the default location: the longitude 51.3890 is written
    51.389. *)
Definition rainCached (age : Z) : gmap string Cache.Entry :=
  {["weather_35.6892_51.389" :=
      {| Cache.value := rainText; Cache.timestamp := 1710504000000 - age |}]}.

Definition cachedRain (age : Z) : Cache.State :=
  {| Cache.table := Some (rainCached age); Cache.clock := 1710504000000 |}.

(** A request that is answered with 5 mm after a quarter of a second, and
    one that finds no network. *)
Definition answered : WeatherApi.Request (option (WeatherApi.Current float)) :=
  {| WeatherApi.elapsed := 250;
     WeatherApi.outcome := WeatherApi.Resolved (Some (currentOf 5)) |}.

Definition offline : WeatherApi.Request (option (WeatherApi.Current float)) :=
  {| WeatherApi.elapsed := 10000;
     WeatherApi.outcome := WeatherApi.Rejected (WeatherApi.AxiosError None) |}.

(** A response without a daily value. *)
Definition noDays : WeatherApi.Daily float :=
  {| WeatherApi.precipitation_sum := [];
     WeatherApi.temperature_2m_mean := [];
     WeatherApi.daily_time := [] |}.

Definition answeredNoDays : WeatherApi.Request (option (WeatherApi.Daily float)) :=
  {| WeatherApi.elapsed := 400; WeatherApi.outcome := WeatherApi.Resolved (Some noDays) |}.

Definition jsonClimateSample : Json (WeatherApi.ClimateData float) :=
  jsonOfOne "no-days" (climateOf tehranLatitude tehranLongitude noDays).

Definition jsonDroughtSample : Json (WeatherApi.DroughtIndicator float) :=
  jsonOfOne "no-risk" (WeatherApi.droughtOf []).

(** A response with the rainfall of three days, 3 mm together, and the
    codecs that know the series and its indicator. *)
Definition threeDays : WeatherApi.Daily float :=
  {| WeatherApi.precipitation_sum := [0; 3; 0]%float;
     WeatherApi.temperature_2m_mean := [12; 13; 14]%float;
     WeatherApi.daily_time := ["2024-03-13"; "2024-03-14"; "2024-03-15"] |}.

Definition answeredThreeDays : WeatherApi.Request (option (WeatherApi.Daily float)) :=
  {| WeatherApi.elapsed := 400; WeatherApi.outcome := WeatherApi.Resolved (Some threeDays) |}.

Definition riskOfThreeDays : WeatherApi.DroughtIndicator float :=
  {| WeatherApi.avgPrecipitation := 1%float; WeatherApi.isDroughtRisk := true |}.

Definition jsonClimateThreeDays : Json (WeatherApi.ClimateData float) :=
  jsonOfKnown stringifyClimate (climateOf tehranLatitude tehranLongitude threeDays).

Definition jsonDroughtThreeDays : Json (WeatherApi.DroughtIndicator float) :=
  jsonOfKnown stringifyDrought riskOfThreeDays.

Definition threeDaysText : string :=
  Eval vm_compute in
    stringifyClimate (climateOf tehranLatitude tehranLongitude threeDays).

Definition riskText : string := Eval vm_compute in stringifyDrought riskOfThreeDays.

(** ** [getQuickTip] of the advisor *)

Definition tips : list string :=
  ["A 5-minute shower uses about 50 liters of water. Try to keep it under 4 minutes!";
   "Fix leaky faucets! A dripping tap can waste up to 20 liters per day.";
   "Running your washing machine only when full can save 15,000 liters per year.";
   "Turn off the tap while brushing your teeth to save 6 liters per minute.";
   "Collect rainwater for watering plants instead of using tap water.";
   "Use a bucket instead of a hose to wash your car and save up to 300 liters.";
   "Install low-flow showerheads to reduce water usage by 40%.";
   "Water your garden early in the morning to reduce evaporation."].

(** [tips[Math.floor(Math.random() * tips.length)]], [None] for
    [undefined].  [random] is the double that [Math.random()] returned,
    given by the rational it denotes: its product by the length 8, a power
    of two, is exact in doubles. *)
Definition getQuickTip (random : Q) : option string :=
  let index := Qfloor (random * inject_Z (Z.of_nat (length tips))) in
  if bool_decide (0 ≤ index) then tips !! Z.to_nat index else None.

(** ** The database of the web platform ([WebDatabase] of [db/database.ts])

    On the web the database is an object that keeps each table as a JSON
    array in [localStorage] and tells the statements apart by looking for
    pieces of text in the lower-cased query.  The values of this part are
    the values of the runtime: numbers are doubles. *)

Module Web.

Inductive Value : Type :=
  | VUndefined
  | VNull
  | VNumber (x : float)
  | VString (s : string).

(** An object by its own properties; reading a property it does not have
    gives [undefined]. *)
Notation Obj := (gmap string Value).

Definition get (o : Obj) (k : string) : Value := default VUndefined (o !! k).

(** [params?.[i]]; an argument [params] that is left out is the empty
    list here. *)
Definition param (params : list Value) (i : nat) : Value :=
  default VUndefined (params !! i).

(** [a === b] *)
Definition strictEq (a b : Value) : bool :=
  match a, b with
  | VUndefined, VUndefined | VNull, VNull => true
  | VNumber x, VNumber y => PrimFloat.eqb x y
  | VString s, VString t => bool_decide (s = t)
  | _, _ => false
  end.

(** ToBoolean, and [a || b] *)
Definition truthyValue (v : Value) : bool :=
  match v with
  | VNumber x => float_truthy x
  | VString s => negb (bool_decide (s = EmptyString))
  | _ => false
  end.

Definition orElse (a b : Value) : Value := if truthyValue a then a else b.

(** *** JSON

    What [JSON.parse(JSON.stringify(o))] is for an object of such values:
    a property that is [undefined] is left out, a number that is not finite
    becomes [null], and -0 becomes 0. *)
Definition jsonValue (v : Value) : option Value :=
  match v with
  | VUndefined => None
  | VNumber x =>
      if PrimFloat.is_nan x || PrimFloat.is_infinity x then Some VNull
      else if PrimFloat.eqb x 0 then Some (VNumber 0)
      else Some (VNumber x)
  | _ => Some v
  end.

Definition jsonObj (o : Obj) : Obj := omap jsonValue o.

(** *** Strings *)

Definition lowerChar (c : ascii) : ascii :=
  let n := nat_of_ascii c in
  if bool_decide (65 ≤ n ≤ 90)%nat then ascii_of_nat (n + 32) else c.

(** [s.toLowerCase()] for a string of ASCII characters. *)
Fixpoint toLowerCase (s : string) : string :=
  match s with
  | EmptyString => EmptyString
  | String c s => String (lowerChar c) (toLowerCase s)
  end.

(** [s.includes(part)] *)
Fixpoint includes (s part : string) : bool :=
  String.prefix part s
  || match s with
     | EmptyString => false
     | String _ s => includes s part
     end.

(** *** The storage

    [window.localStorage] with each table as the array that [JSON.parse]
    gives back, or [None] when there is no [localStorage]. *)
Definition Storage : Type := option (gmap string (list Obj)).

Definition getTable (tableName : string) (storage : Storage) : list Obj :=
  match storage with
  | None => []
  | Some items => default [] (items !! ("waterwise_" +:+ tableName))
  end.

Definition saveTable (tableName : string) (data : list Obj) (storage : Storage) : Storage :=
  match storage with
  | None => None
  | Some items => Some (<["waterwise_" +:+ tableName := jsonObj <$> data]> items)
  end.

Record RunResult : Type := {
  lastInsertRowId : Z;
  changes : Z;
}.

Section Database.
(** The string of a number and the number of a string, for [+] and [/]
    with a string. *)
Variable numberToString : float → string.
Variable stringToNumber : string → float.
(** [new Date(v).getTime()], [None] for [NaN]. *)
Variable getTime : Value → option Z.
(** [a <= b] *)
Variable lessEq : Value → Value → bool.

(** [a + b] *)
Definition toStringValue (v : Value) : string :=
  match v with
  | VUndefined => "undefined"
  | VNull => "null"
  | VNumber x => numberToString x
  | VString s => s
  end.

Definition toNumberValue (v : Value) : float :=
  match v with
  | VNumber x => x
  | VNull => 0
  | VUndefined => PrimFloat.nan
  | VString s => stringToNumber s
  end.

Definition plusValue (a b : Value) : Value :=
  match a, b with
  | VString _, _ | _, VString _ => VString (toStringValue a +:+ toStringValue b)
  | _, _ => VNumber (toNumberValue a + toNumberValue b)
  end.

(** [rows.reduce((sum, r) => sum + (r.field || 0), 0)] *)
Definition sumOf (field : string) (rows : list Obj) : Value :=
  foldl (λ sum r, plusValue sum (orElse (get r field) (VNumber 0))) (VNumber 0) rows.

(** [{ ...o, ...params }]: the elements of the array become the
    properties 0, 1, ... *)
Definition spread (o : Obj) (params : list Value) : Obj :=
  foldl (λ o iv, <[pretty (iv.1 : nat) := iv.2]> o) o (imap (λ i v, (i, v)) params).

Definition newBill (params : list Value) : Obj :=
  {["id" := param params 0; "amount" := param params 1; "date" := param params 2;
    "consumptionLiters" := param params 3]}.

Definition newUsage (usage : list Obj) (params : list Value) : Obj :=
  {["id" := VNumber (PrimFloat.of_uint63 (Uint63.of_Z (Z.of_nat (length usage))) + 1);
    "liters" := param params 0; "date" := param params 1;
    "description" := param params 2]}.

Definition runAsync (query : string) (params : list Value) (storage : Storage)
    : RunResult * Storage :=
  let lowerQuery := toLowerCase query in
  if includes lowerQuery "insert into bills" then
    let bills := getTable "bills" storage in
    let bills := bills ++ [newBill params] in
    ({| lastInsertRowId := Z.of_nat (length bills); changes := 1 |},
     saveTable "bills" bills storage)
  else if includes lowerQuery "insert into usage" then
    let usage := getTable "usage" storage in
    let usage' := usage ++ [newUsage usage params] in
    ({| lastInsertRowId := Z.of_nat (length usage) + 1; changes := 1 |},
     saveTable "usage" usage' storage)
  else if includes lowerQuery "delete from bills" then
    let bills := getTable "bills" storage in
    let filtered := filter (λ b, strictEq (get b "id") (param params 0) = false) bills in
    ({| lastInsertRowId := 0;
        changes := Z.of_nat (length bills) - Z.of_nat (length filtered) |},
     saveTable "bills" filtered storage)
  else if includes lowerQuery "delete from usage" then
    let usage := getTable "usage" storage in
    let filtered := filter (λ u, strictEq (get u "id") (param params 0) = false) usage in
    ({| lastInsertRowId := 0;
        changes := Z.of_nat (length usage) - Z.of_nat (length filtered) |},
     saveTable "usage" filtered storage)
  else if includes lowerQuery "update bills" then
    let bills := getTable "bills" storage in
    let wanted := param params (length params - 1) in
    match list_find (λ b, strictEq (get b "id") wanted = true) bills with
    | Some (index, b) =>
        ({| lastInsertRowId := 0; changes := 1 |},
         saveTable "bills" (<[index := spread b params]> bills) storage)
    | None =>
        ({| lastInsertRowId := 0; changes := 0 |}, saveTable "bills" bills storage)
    end
  else ({| lastInsertRowId := 0; changes := 0 |}, storage).

(** [rows[0] as T || null] and [rows.find(...) as T || null]; an object
    is truthy. *)
Definition getFirstAsync (query : string) (params : list Value) (storage : Storage)
    : option Obj :=
  let lowerQuery := toLowerCase query in
  if includes lowerQuery "from bills" then
    let bills := getTable "bills" storage in
    if includes lowerQuery "sum(consumptionliters)" then
      Some {["total" := sumOf "consumptionLiters" bills]}
    else if includes lowerQuery "sum(amount)" then
      Some {["total" := sumOf "amount" bills]}
    else head bills
  else if includes lowerQuery "from usage" then
    let usage := getTable "usage" storage in
    if includes lowerQuery "sum(liters)" then
      let dateParam := param params 0 in
      let filtered :=
        if truthyValue dateParam
        then filter (λ u, strictEq (get u "date") dateParam = true) usage
        else usage in
      Some {["total" := sumOf "liters" filtered]}
    else if includes lowerQuery "avg(liters)" then
      let total := sumOf "liters" usage in
      let avg :=
        if bool_decide (0 < length usage)%nat
        then VNumber (toNumberValue total
                      / PrimFloat.of_uint63 (Uint63.of_Z (Z.of_nat (length usage))))
        else VNumber 0 in
      Some {["avg" := avg]}
    else head usage
  else if includes lowerQuery "from cache" then
    let cache := getTable "cache" storage in
    let key := param params 0 in
    snd <$> list_find (λ c, strictEq (get c "key") key = true) cache
  else None.

(** The comparator [new Date(b.date).getTime() - new Date(a.date).getTime()]
    puts [a] first unless the difference is positive; a difference that is
    [NaN] counts as 0.  The sort is the stable one of [sort_by]; with dates
    that are not dates the comparator is not consistent and the order is
    the one of this sort. *)
Definition byDateDesc (a b : Obj) : bool :=
  match getTime (get b "date"), getTime (get a "date") with
  | Some tb, Some ta => bool_decide (tb - ta ≤ 0)
  | _, _ => true
  end.

(** [b.date >= startDate && b.date <= endDate] *)
Definition inRange (params : list Value) (r : Obj) : bool :=
  lessEq (param params 0) (get r "date") && lessEq (get r "date") (param params 1).

Definition getAllAsync (query : string) (params : list Value) (storage : Storage)
    : list Obj :=
  let lowerQuery := toLowerCase query in
  if includes lowerQuery "from bills" then
    let bills := getTable "bills" storage in
    let bills :=
      if bool_decide (2 ≤ length params)%nat
      then filter (λ b, inRange params b = true) bills else bills in
    sort_by byDateDesc bills
  else if includes lowerQuery "from usage" then
    let usage := getTable "usage" storage in
    let usage :=
      if bool_decide (2 ≤ length params)%nat
      then filter (λ u, inRange params u = true) usage else usage in
    sort_by byDateDesc usage
  else if includes lowerQuery "from cache" then getTable "cache" storage
  else [].

(** *** The functions of [db/usage.ts], [db/bills.ts] and [db/cache.ts]
    on this database *)

(** [s || null] for an optional string. *)
Definition orNull (s : option string) : Value :=
  match s with
  | Some (String a s) => VString (String a s)
  | _ => VNull
  end.

Definition addUsage (usage : Usage float) (storage : Storage) : Storage :=
  (runAsync
     "INSERT INTO usage (liters, date, time, category, location, description) VALUES (?, ?, ?, ?, ?, ?)"
     [VNumber (liters usage); VString (usage_date usage); orNull (time usage);
      orNull (usage_category usage); orNull (location usage);
      orNull (usage_description usage)] storage).2.

Definition getAllUsage (storage : Storage) : list Obj :=
  getAllAsync "SELECT * FROM usage ORDER BY date DESC" [] storage.

Definition getUsageByDateRange (startDate endDate : string) (storage : Storage) : list Obj :=
  getAllAsync "SELECT * FROM usage WHERE date >= ? AND date <= ? ORDER BY date DESC"
    [VString startDate; VString endDate] storage.

Definition getUsageByDate (date : string) (storage : Storage) : list Obj :=
  getAllAsync "SELECT * FROM usage WHERE date = ? ORDER BY id DESC" [VString date] storage.

(** [result?.total || 0] *)
Definition totalOrZero (result : option Obj) : Value :=
  orElse (default VUndefined ((λ r, get r "total") <$> result)) (VNumber 0).

Definition getTotalUsageByDate (date : string) (storage : Storage) : Value :=
  totalOrZero
    (getFirstAsync "SELECT COALESCE(SUM(liters), 0) as total FROM usage WHERE date = ?"
       [VString date] storage).

(** [startDateStr] is the date [days] days before the clock's. *)
Definition getAverageDailyUsage (startDateStr : Z → string) (days : Z) (storage : Storage)
    : Value :=
  let result :=
    getFirstAsync
      "SELECT COALESCE(AVG(daily_total), 0) as avg FROM (SELECT date, SUM(liters) as daily_total FROM usage WHERE date >= ? GROUP BY date)"
      [VString (startDateStr days)] storage in
  orElse (default VUndefined ((λ r, get r "avg") <$> result)) (VNumber 0).

Definition deleteUsage (id : float) (storage : Storage) : Storage :=
  (runAsync "DELETE FROM usage WHERE id = ?" [VNumber id] storage).2.

Definition addBill (bill : Bill float) (now : Z) (storage : Storage) : Storage :=
  let billId :=
    match bill_id bill with
    | String a s => String a s
    | EmptyString => "BILL-" +:+ pretty now
    end in
  let currency :=
    match currency bill with
    | Some (String a s) => String a s
    | _ => "USD"
    end in
  (runAsync
     "INSERT INTO bills (id, amount, date, consumptionLiters, currency) VALUES (?, ?, ?, ?, ?)"
     [VString billId; VNumber (amount bill); VString (bill_date bill);
      VNumber (consumptionLiters bill); VString currency] storage).2.

Definition getAllBills (storage : Storage) : list Obj :=
  getAllAsync "SELECT * FROM bills ORDER BY date DESC" [] storage.

Definition deleteBill (id : string) (storage : Storage) : Storage :=
  (runAsync "DELETE FROM bills WHERE id = ?" [VString id] storage).2.

Definition getTotalConsumption (storage : Storage) : Value :=
  totalOrZero
    (getFirstAsync "SELECT COALESCE(SUM(consumptionLiters), 0) as total FROM bills" []
       storage).

Definition getTotalCost (storage : Storage) : Value :=
  totalOrZero
    (getFirstAsync "SELECT COALESCE(SUM(amount), 0) as total FROM bills" [] storage).

(** The statement of setCache and the queries of getCache, deleteCache,
    clearOldCache and clearAllCache. *)
Definition setCacheStatement : string :=
  "INSERT OR REPLACE INTO cache (key, value, timestamp) VALUES (?, ?, ?)".
Definition getCacheQuery : string := "SELECT value, timestamp FROM cache WHERE key = ?".
Definition deleteCacheStatement : string := "DELETE FROM cache WHERE key = ?".
Definition clearOldCacheStatement : string := "DELETE FROM cache WHERE timestamp < ?".
Definition clearAllCacheStatement : string := "DELETE FROM cache".

(** The storage after a list of statements, each with its arguments. *)
Definition runAll (statements : list (string * list Value)) (storage : Storage) : Storage :=
  foldl (λ storage st, (runAsync st.1 st.2 storage).2) storage statements.
End Database.

End Web.

(** ** Reminders and the daily goal ([services/notifications]) *)

Module Notifications.

Record NotificationSettings : Type := {
  enabled : bool;
  dailyReminder : bool;
  usageAlerts : bool;
  goalReminders : bool;
  reminderTime : string;
}.

Definition NOTIFICATION_STORAGE_KEY : string := "@waterwise_notifications".
Definition DAILY_GOAL_STORAGE_KEY : string := "@waterwise_daily_goal".
Definition LAST_REMINDER_KEY : string := "@waterwise_last_reminder".
Definition DEFAULT_DAILY_GOAL : Z := 100.

Definition DEFAULT_SETTINGS : NotificationSettings :=
  {| enabled := true; dailyReminder := true; usageAlerts := true; goalReminders := true;
     reminderTime := "20:00" |}.

(** AsyncStorage: the items by their key, or [None] when the storage
    cannot be used and every call rejects. *)
Definition AsyncStorage : Type := option (gmap string string).

Definition getItem (key : string) (storage : AsyncStorage) : result (option string) :=
  match storage with
  | Some items => Ok (items !! key)
  | None => Throw "AsyncStorage is not available"
  end.

Definition setItem (key value : string) (storage : AsyncStorage) : result unit * AsyncStorage :=
  match storage with
  | Some items => (Ok (), Some (<[key := value]> items))
  | None => (Throw "AsyncStorage is not available", None)
  end.

Section Settings.
Context {json : Json NotificationSettings}.

(** An item that is the empty string is falsy. *)
Definition getNotificationSettings (storage : AsyncStorage) : NotificationSettings :=
  match getItem NOTIFICATION_STORAGE_KEY storage with
  | Ok (Some (String a stored)) =>
      match parse (String a stored) with
      | Ok settings => settings
      | Throw error => DEFAULT_SETTINGS
      end
  | Ok _ => DEFAULT_SETTINGS
  | Throw error => DEFAULT_SETTINGS
  end.

Definition saveNotificationSettings (settings : NotificationSettings)
    (storage : AsyncStorage) : result unit * AsyncStorage :=
  setItem NOTIFICATION_STORAGE_KEY (stringify settings) storage.

(** [today] is [new Date().toISOString().split('T')[0]]. *)
Definition shouldShowDailyReminder (today : string) (storage : AsyncStorage)
    : result bool * AsyncStorage :=
  let settings := getNotificationSettings storage in
  if negb (enabled settings) || negb (dailyReminder settings) then (Ok false, storage)
  else
    match getItem LAST_REMINDER_KEY storage with
    | Throw error => (Throw error, storage)
    | Ok lastShown =>
        if bool_decide (lastShown = Some today) then (Ok false, storage)
        else
          match setItem LAST_REMINDER_KEY today storage with
          | (Ok _, storage) => (Ok true, storage)
          | (Throw error, storage) => (Throw error, storage)
          end
    end.
End Settings.

(** *** The daily goal

    The goal is a number; what is stored is its string. *)

Definition isWhiteSpace (c : ascii) : bool :=
  let n := nat_of_ascii c in
  bool_decide (n = 32 ∨ 9 ≤ n ≤ 13)%nat.

Fixpoint trimStart (s : string) : string :=
  match s with
  | String c s' => if isWhiteSpace c then trimStart s' else s
  | EmptyString => EmptyString
  end.

(** The digits at the start of [s], read in base 10 after [acc]; [seen]
    tells whether a digit was read. *)
Fixpoint parseDigits (acc : Z) (seen : bool) (s : string) : option Z :=
  match s with
  | String c s' =>
      match digitOf c with
      | Some d => parseDigits (10 * acc + d) true s'
      | None => if seen then Some acc else None
      end
  | EmptyString => if seen then Some acc else None
  end.

(** [parseInt(s, 10)], [None] for [NaN]. *)
Definition parseInt (s : string) : option Z :=
  match trimStart s with
  | String "-" s' => Z.opp <$> parseDigits 0 false s'
  | String "+" s' => parseDigits 0 false s'
  | s' => parseDigits 0 false s'
  end.

(** [stored ? parseInt(stored, 10) : DEFAULT_DAILY_GOAL], with the
    default also when the storage fails: the integer that is read, whose
    double is the number returned. *)
Definition getDailyGoal (storage : AsyncStorage) : option Z :=
  match getItem DAILY_GOAL_STORAGE_KEY storage with
  | Ok (Some (String a stored)) => parseInt (String a stored)
  | Ok _ => Some DEFAULT_DAILY_GOAL
  | Throw error => Some DEFAULT_DAILY_GOAL
  end.

(** [goal.toString()] is stored. *)
Definition setDailyGoal (goal : float) (storage : AsyncStorage)
    : result unit * AsyncStorage :=
  setItem DAILY_GOAL_STORAGE_KEY (float_toString goal) storage.

End Notifications.

(** A string that does not go on with a digit. *)
Definition endsNumber (rest : string) : Prop :=
  match rest with
  | EmptyString => True
  | String c _ => digitOf c = None
  end.

(** The whole numbers [z], [z + 1], ... ([count] of them), as doubles,
    have their decimal digits for their string. *)
Fixpoint writtenInDigits (count : nat) (z : Z) : bool :=
  match count with
  | O => true
  | S count =>
      bool_decide (float_toString (float_of_Z z) = pretty z)
      && writtenInDigits count (z + 1)
  end.

(** ** Import of a backup ([services/export/dataExport.ts])

    The tables are those of the native database: a bill is refused when
    the table has a row with its id (the primary key) or when a column
    declared [NOT NULL] would be empty; a usage row gets the next id. *)

Module DataExport.

(** The objects of the arrays [bills] and [usage] of the file, by the
    properties that importFromJSON reads; [None] for a property that is
    missing or [null]. *)
Record ImportedBill : Type := {
  amount : option float;
  date : option string;
  consumptionLiters : option float;
  billId : option string;
}.

Record ImportedUsage : Type := {
  liters : option float;
  usage_date : option string;
  description : option string;
}.

Record ExportData : Type := {
  version : option string;
  exportDate : option string;
  bills : option (list ImportedBill);
  usage : option (list ImportedUsage);
}.

Record BillRow : Type := {
  row_amount : float;
  row_date : string;
  row_consumptionLiters : float;
  row_currency : string;
}.

Record UsageRow : Type := {
  row_id : Z;
  row_liters : float;
  row_usage_date : string;
  row_description : option string;
}.

Record Tables : Type := {
  billRows : gmap string BillRow;
  usageRows : list UsageRow;
  nextUsageId : Z;
}.

(** [None]: the database is not initialised. *)
Definition Database : Type := option Tables.

Record Imported : Type := {
  billsImported : nat;
  usageImported : nat;
}.

(** addBill of [db/bills.ts]: [id] and [currency] are the properties of
    these names of its argument, and [now] is what [Date.now()] reads. *)
Definition addBill (id : option string) (amount : option float) (date : option string)
    (consumptionLiters : option float) (currency : option string) (now : Z)
    (db : Database) : result unit * Database :=
  match db with
  | None => (Throw "Database not initialized. Call initDatabase first.", db)
  | Some tables =>
      let billId :=
        match id with
        | Some (String a s) => String a s
        | _ => "BILL-" +:+ pretty now
        end in
      let currency :=
        match currency with
        | Some (String a s) => String a s
        | _ => "USD"
        end in
      match amount, date, consumptionLiters with
      | Some amount, Some date, Some consumptionLiters =>
          match billRows tables !! billId with
          | Some _ => (Throw "UNIQUE constraint failed: bills.id", db)
          | None =>
              (Ok (),
               Some {| billRows :=
                         <[billId := {| row_amount := amount; row_date := date;
                                        row_consumptionLiters := consumptionLiters;
                                        row_currency := currency |}]> (billRows tables);
                       usageRows := usageRows tables;
                       nextUsageId := nextUsageId tables |})
          end
      | _, _, _ => (Throw "NOT NULL constraint failed", db)
      end
  end.

(** addUsage of [db/usage.ts] *)
Definition addUsage (liters : option float) (date : option string)
    (description : option string) (db : Database) : result unit * Database :=
  match db with
  | None => (Throw "Database not initialized. Call initDatabase first.", db)
  | Some tables =>
      match liters, date with
      | Some liters, Some date =>
          (Ok (),
           Some {| billRows := billRows tables;
                   usageRows :=
                     usageRows tables
                       ++ [{| row_id := nextUsageId tables; row_liters := liters;
                              row_usage_date := date;
                              row_description :=
                                match description with
                                | Some (String a s) => Some (String a s)
                                | _ => None
                                end |}];
                   nextUsageId := nextUsageId tables + 1 |})
      | _, _ => (Throw "NOT NULL constraint failed", db)
      end
  end.

(** The loop over the bills: the count and the database after it.  The
    object given to addBill has the properties amount, date,
    consumptionLiters and billId; the properties id and currency, which
    addBill reads, it does not have.  [now i] is what [Date.now()] reads in
    the call for the bill of index [i]. *)
Fixpoint importBills (now : nat → Z) (i : nat) (bills : list ImportedBill)
    (billsImported : nat) (db : Database) : nat * Database :=
  match bills with
  | [] => (billsImported, db)
  | bill :: bills =>
      match addBill None (amount bill) (date bill) (consumptionLiters bill) None
              (now i) db with
      | (Ok _, db) => importBills now (S i) bills (S billsImported) db
      | (Throw error, db) => importBills now (S i) bills billsImported db
      end
  end.

Fixpoint importUsage (usage : list ImportedUsage) (usageImported : nat) (db : Database)
    : nat * Database :=
  match usage with
  | [] => (usageImported, db)
  | u :: usage =>
      match addUsage (liters u) (usage_date u) (description u) db with
      | (Ok _, db) => importUsage usage (S usageImported) db
      | (Throw error, db) => importUsage usage usageImported db
      end
  end.

Section ImportFunctions.
Context {json : Json ExportData}.

Definition importFromJSON (jsonString : string) (now : nat → Z) (db : Database)
    : result Imported * Database :=
  let body : result Imported * Database :=
    match parse jsonString with
    | Throw error => (Throw error, db)
    | Ok data =>
        match version data, bills data, usage data with
        | Some (String _ _), Some bills, Some usage =>
            let '(billsImported, db) := importBills now 0 bills 0 db in
            let '(usageImported, db) := importUsage usage 0 db in
            (Ok {| billsImported := billsImported; usageImported := usageImported |}, db)
        | _, _, _ => (Throw "Invalid import file format", db)
        end
    end in
  match body with
  | (Ok imported, db) => (Ok imported, db)
  | (Throw error, db) => (Throw "Failed to import data", db)
  end.
End ImportFunctions.

End DataExport.

(** *** Sample backup and settings *)

(** A backup with two bills, which carry ids of their own, and one usage
    event. *)
Definition sampleBills : list DataExport.ImportedBill :=
  [{| DataExport.amount := Some 12%float; DataExport.date := Some "2024-02-10";
      DataExport.consumptionLiters := Some 400%float; DataExport.billId := Some "b1" |};
   {| DataExport.amount := Some 8%float; DataExport.date := Some "2024-03-10";
      DataExport.consumptionLiters := Some 300%float; DataExport.billId := Some "b2" |}].

Definition sampleEvents : list DataExport.ImportedUsage :=
  [{| DataExport.liters := Some 90%float; DataExport.usage_date := Some "2024-03-02";
      DataExport.description := Some "shower" |}].

Definition sampleBackup : DataExport.ExportData :=
  {| DataExport.version := Some "1.0";
     DataExport.exportDate := Some "2024-03-15T12:00:00.000Z";
     DataExport.bills := Some sampleBills;
     DataExport.usage := Some sampleEvents |}.

Definition jsonBackup : Json DataExport.ExportData := jsonOfOne "backup" sampleBackup.

Definition noTables : DataExport.Tables :=
  {| DataExport.billRows := ∅; DataExport.usageRows := []; DataExport.nextUsageId := 1 |}.

(** A clock that stands still at noon of 2024-03-15, and one that moves
    on by a millisecond from one bill to the next. *)
Definition standingClock : nat → Z := λ _, 1710504000000.
Definition runningClock : nat → Z := λ i, 1710504000000 + Z.of_nat i.

(** Settings as they are stored: a codec that knows the default ones. *)
Definition jsonSettings : Json Notifications.NotificationSettings :=
  jsonOfOne "default-settings" Notifications.DEFAULT_SETTINGS.

(** * Properties *)

(** ** The two kinds of numbers *)

(** The decimal literals of the code, read as doubles: the division of the
    two integers gives the double that the literal denotes (written here
    in hexadecimal, which is exact). *)
Example float_literals :
  (dec 35 100 : float) = 0x1.6666666666666p-2%float
  ∧ (dec 27 100 : float) = 0x1.147ae147ae148p-2%float
  ∧ (dec 20 100 : float) = 0x1.999999999999ap-3%float
  ∧ (dec 11 10 : float) = 0x1.199999999999ap+0%float
  ∧ (dec 9 10 : float) = 0x1.ccccccccccccdp-1%float
  ∧ (dec 1 100 : float) = 0x1.47ae147ae147bp-7%float
  ∧ (int 100 : float) = 100%float.
Proof. repeat split. Qed.

Example float_arithmetic :
  (int 200 * dec 35 100)%num = (int 70 : float)
  ∧ ((int 70 - int 40) * int 30)%num = (int 900 : float)
  ∧ (dec 2 100 * int 1000)%num = (int 20 : float)
  ∧ (int 29 / int 7 * int 7)%num = 0x1.d000000000001p+4%float
  ∧ ((zero : float) <? int 1)%num = true
  ∧ truthy (zero / zero : float)%num = false.
Proof. repeat split. Qed.

Example float_toFixed_samples :
  toFixed 1 (zero : float) = "0.0" ∧ toFixed 4 (dec 2 100 : float) = "0.0200"
  ∧ toFixed 2 (int 20 : float) = "20.00" ∧ toFixed 0 (dec 505 10 : float) = "51"
  ∧ toFixed 1 (dec (-4) 100 : float) = "-0.0"
  ∧ toFixed 1 (dec 12345 100 : float) = "123.5"
  ∧ toFixed 2 (dec 1005 1000 : float) = "1.00"
  ∧ toFixed 1 (zero / zero : float)%num = "NaN".
Proof. vm_compute. repeat split. Qed.

Example exact_toFixed_samples :
  toFixed 1 (zero : exact) = "0.0" ∧ toFixed 4 (dec 2 100 : exact) = "0.0200"
  ∧ toFixed 2 (int 20 : exact) = "20.00" ∧ toFixed 0 (dec 505 10 : exact) = "51"
  ∧ toFixed 1 (dec (-4) 100 : exact) = "-0.0"
  ∧ toFixed 2 (dec 1005 1000 : exact) = "1.01".
Proof. vm_compute. repeat split. Qed.

Example utcDate_samples :
  utcDate "2024-01-01" = Some {| fullYear := 2024; monthIndex := 0; weekDay := 1 |}
  ∧ utcDate "1970-01-01" = Some {| fullYear := 1970; monthIndex := 0; weekDay := 4 |}
  ∧ utcDate "2026-11-02" = Some {| fullYear := 2026; monthIndex := 10; weekDay := 1 |}
  ∧ utcDate "yesterday" = None.
Proof. vm_compute. repeat split. Qed.

Example float_division_by_zero :
  (zero / zero : float)%num ≠ zero ∧ (int 29 / int 7 * int 7)%num ≠ (int 29 : float).
Proof. split; float_neq. Qed.

(** *** Exact arithmetic *)

Lemma Qc_of_nat_ne_0 (n : nat) : (0 < n)%nat → qc (Z.of_nat n) 1 ≠ qc 0 1.
Proof.
  intros Hn He. apply Q2Qc_eq_iff in He.
  unfold Qeq in He. simpl in He. lia.
Qed.

Lemma Qc_sgn_of_nat (n : nat) : (0 < n)%nat → Qc_sgn (qc (Z.of_nat n) 1) = 1.
Proof.
  intros Hn. unfold Qc_sgn, qc. cbn [this Q2Qc].
  pose proof (Qred_correct (Z.of_nat n # 1)) as Heq.
  unfold Qeq in Heq. cbn [Qnum Qden] in Heq.
  apply Z.sgn_pos.
  pose proof (Pos2Z.is_pos (Qden (Qred (Z.of_nat n # 1)))). nia.
Qed.

(** Without rounding, dividing by a count and multiplying by it again is
    the identity, on infinities and on [NaN] as well. *)
Lemma exact_div_mul (x : exact) (n : nat) :
  (0 < n)%nat → (x / of_nat n * of_nat n)%num = x.
Proof.
  intros Hn. pose proof (Qc_of_nat_ne_0 n Hn) as Hne.
  pose proof (Qc_sgn_of_nat n Hn) as Hsgn.
  unfold of_nat. cbn [of_Z divide times exact_number].
  set (c := qc (Z.of_nat n) 1) in *.
  destruct x as [q| | |].
  - assert (exact_div (Fin q) (Fin c) = Fin (q / c)%Qc) as ->.
    { unfold exact_div. by rewrite bool_decide_eq_false_2. }
    unfold exact_mul. f_equal. rewrite Qcmult_comm. by apply Qcmult_div_r.
  - assert (exact_div PInf (Fin c) = PInf) as ->.
    { unfold exact_div. by rewrite bool_decide_eq_false_2, Hsgn. }
    unfold exact_mul, exact_sgn. by rewrite Hsgn.
  - assert (exact_div NInf (Fin c) = NInf) as ->.
    { unfold exact_div. by rewrite bool_decide_eq_false_2, Hsgn. }
    unfold exact_mul, exact_sgn. by rewrite Hsgn.
  - reflexivity.
Qed.

(** ** Counting and summing *)

Lemma reduce_sum_fmap {N A B} `{Number N} (f : B → N) (g : A → B) (l : list A) :
  reduce_sum f (g <$> l) = reduce_sum (f ∘ g) l.
Proof.
  unfold reduce_sum. generalize (zero : N).
  induction l as [|x l IH]; intros acc; simpl; [done|]. by rewrite IH.
Qed.

(** The sum that [reduce] computes is the sum of the numbers, taken from
    the first to the last. *)
Lemma total_snoc {N} `{Number N} (l : list N) (x : N) :
  total (l ++ [x]) = (total l + x)%num.
Proof. unfold total. by rewrite rev_unit. Qed.

Lemma reduce_sum_total {N A} `{Number N} (f : A → N) (l : list A) :
  reduce_sum f l = total (f <$> l).
Proof.
  induction l as [|x l IH] using rev_ind; [done|].
  rewrite fmap_app. cbn [fmap list_fmap]. rewrite total_snoc, <-IH.
  unfold reduce_sum. by rewrite foldl_app.
Qed.

Lemma reduce_sum_id {N} `{Number N} (l : list N) : reduce_sum id l = total l.
Proof. by rewrite reduce_sum_total, list_fmap_id. Qed.

Lemma reduce_sum_liters {N} `{Number N} (evs : list (Usage N)) :
  reduce_sum liters evs = litersOf evs.
Proof. apply reduce_sum_total. Qed.

(** Zeller's congruence gives a day of the week. *)
Lemma calendarWeekday_range (s : string) (d : Z) :
  calendarWeekday s = Some d → 0 ≤ d < 7.
Proof.
  unfold calendarWeekday. destruct (calendarDay s) as [[[y m] day]|]; [|done].
  intros [= <-]. unfold zeller. apply Z.mod_pos_bound. lia.
Qed.

Lemma distinct_count_remove_dups (l : list string) : distinct_count l = distinct l.
Proof.
  unfold distinct_count, distinct.
  assert (list_to_set (remove_dups l) = (list_to_set l : gset string)) as <-.
  { apply set_eq. intros x. rewrite !elem_of_list_to_set. apply elem_of_remove_dups. }
  apply size_list_to_set, NoDup_remove_dups.
Qed.

Lemma distinct_count_pos (l : list string) : l ≠ [] → (0 < distinct_count l)%nat.
Proof.
  intros Hl. destruct l as [|x l]; [done|].
  unfold distinct_count.
  destruct (decide (size (list_to_set (x :: l) : gset string) = 0%nat)) as [H0|]; [|lia].
  apply size_empty_inv in H0. exfalso. set_solver.
Qed.

(** ** Promises *)

Lemma bind_Ok {A B} (a : A) (f : A → result B) : (Ok a ≫= f) = f a.
Proof. done. Qed.

Lemma bind_Throw {A B} (e : error) (f : A → result B) : (Throw e ≫= f) = Throw e.
Proof. done. Qed.

Lemma try_catch_total {A} (body : result A) (a : A) :
  ∃ r, try_catch body (λ _, mret a) = Ok r.
Proof. destruct body; simpl; eauto. Qed.
(** ** analyzeUsagePatterns *)

Section PatternFacts.
Context {N : Type} {number : Number N}.
Variable newDate : string → JSDate.


Lemma emptyDayMap_lookup (i : Z) :
  0 ≤ i < 7 → (Analytics.emptyDayMap : gmap Z (list N)) !! i = Some [].
Proof.
  intros Hi. assert (i = 0 ∨ i = 1 ∨ i = 2 ∨ i = 3 ∨ i = 4 ∨ i = 5 ∨ i = 6) as Hc by lia.
  destruct Hc as [->|[->|[->|[->|[->|[->| ->]]]]]]; reflexivity.
Qed.

Lemma onWeekday_cons_eq (u : Usage N) (rows : list (Usage N)) (d : Z) :
  calendarWeekday (usage_date u) = Some d →
  onWeekday d (u :: rows) = u :: onWeekday d rows.
Proof. intros Hd. unfold onWeekday. rewrite filter_cons. by case_decide. Qed.

Lemma onWeekday_cons_ne (u : Usage N) (rows : list (Usage N)) (d i : Z) :
  calendarWeekday (usage_date u) = Some d → i ≠ d →
  onWeekday i (u :: rows) = onWeekday i rows.
Proof.
  intros Hd Hi. unfold onWeekday. rewrite filter_cons.
  case_decide; [congruence|done].
Qed.

(** The first loop: each event is appended to the array of the day of
    the week that the runtime reads from its date. *)
Lemma forEach_pushDay (rows : list (Usage N)) (dayMap : gmap Z (list N)) :
  Forall (readsCalendarDay newDate) rows → fullWeek dayMap →
  ∃ m, forEachM (Analytics.pushDay newDate) rows dayMap = Ok m
    ∧ ∀ i, m !! i = (λ l, l ++ (liters <$> onWeekday i rows)) <$> dayMap !! i.
Proof.
  intros Hrows. revert dayMap.
  induction Hrows as [|u rows [d [Hcal Hd]] _ IH]; intros dayMap Hfull.
  - exists dayMap. split; [done|]. intros i.
    destruct (dayMap !! i); simpl; [|done]. by rewrite app_nil_r.
  - pose proof (calendarWeekday_range _ _ Hcal) as Hr.
    destruct (Hfull d Hr) as [l Hl].
    assert (Analytics.pushDay newDate dayMap u = Ok (<[d := l ++ [liters u]]> dayMap)) as Hpush.
    { unfold Analytics.pushDay. fold (weekdayOf newDate u). by rewrite Hd, Hl. }
    destruct (IH (<[d := l ++ [liters u]]> dayMap)) as [m [Hm Hlook]].
    { intros i Hi. destruct (decide (d = i)) as [->|Hne].
      - rewrite lookup_insert_eq. eauto.
      - rewrite lookup_insert_ne by done. by apply Hfull. }
    exists m. split.
    { simpl. by rewrite Hpush. }
    intros i. rewrite Hlook. destruct (decide (d = i)) as [<-|Hne].
    + rewrite lookup_insert_eq, Hl, (onWeekday_cons_eq u rows d Hcal). simpl.
      by rewrite <-app_assoc.
    + rewrite lookup_insert_ne by done.
      by rewrite (onWeekday_cons_ne u rows d i Hcal) by congruence.
Qed.

(** The second loop pushes the entry of each weekday whose array is not
    empty: the sum that [reduce] leaves, over the length. *)
Lemma forEach_pushPattern (rows : list (Usage N)) (dayMap : gmap Z (list N))
    (days : list Z) (patterns : list (Analytics.UsagePattern N)) :
  (∀ i, i ∈ days → dayMap !! i = Some (liters <$> onWeekday i rows)) →
  forEachM (Analytics.pushPattern dayMap) days patterns
  = Ok (patterns ++ omap (weekdayMean rows) days).
Proof.
  revert patterns. induction days as [|i days IH]; intros patterns Hdays.
  - simpl. by rewrite app_nil_r.
  - assert (Analytics.pushPattern dayMap patterns i
            = Ok (patterns ++ option_list (weekdayMean rows i))) as Hpush.
    { unfold Analytics.pushPattern, weekdayMean, arithmeticMean.
      rewrite (Hdays i) by apply list_elem_of_here.
      destruct (onWeekday i rows) as [|u evs] eqn:Hevs.
      - simpl. by rewrite app_nil_r.
      - rewrite bool_decide_eq_true_2 by (rewrite length_fmap; simpl; lia).
        by rewrite reduce_sum_id. }
    cbn [forEachM]. rewrite Hpush. simpl.
    rewrite IH by (intros j Hj; apply Hdays; by apply list_elem_of_further).
    f_equal. rewrite <-app_assoc. f_equal.
    by destruct (weekdayMean rows i).
Qed.

(** The function on a readable table whose dates the runtime reads on
    their day of the calendar. *)
Lemma analyzeUsagePatterns_Ok (env : Env N) (rows : list (Usage N)) :
  usageTable env = Ok rows → Forall (readsCalendarDay newDate) rows →
  Analytics.analyzeUsagePatterns newDate env = Ok (weekdayMeans rows).
Proof.
  intros Hread Hvalid. unfold Analytics.analyzeUsagePatterns, getAllUsage.
  rewrite Hread, bind_Ok.
  destruct (forEach_pushDay rows Analytics.emptyDayMap Hvalid) as [m [Hm Hlook]].
  { intros i Hi. rewrite emptyDayMap_lookup by done. eauto. }
  rewrite Hm, bind_Ok.
  change (seqZ 0 7) with [0; 1; 2; 3; 4; 5; 6].
  rewrite (forEach_pushPattern rows).
  - done.
  - intros i Hi. rewrite Hlook, emptyDayMap_lookup; [done|].
    repeat (apply elem_of_cons in Hi as [->|Hi]; [lia|]).
    by apply elem_of_nil in Hi.
Qed.

Lemma analyzeUsagePatterns_never_throws (env : Env N) :
  ∃ patterns, Analytics.analyzeUsagePatterns newDate env = Ok patterns.
Proof. apply try_catch_total. Qed.

Lemma analyzeUsagePatterns_read_failure (env : Env N) :
  throws (usageTable env) → Analytics.analyzeUsagePatterns newDate env = Ok [].
Proof.
  intros [e He]. unfold Analytics.analyzeUsagePatterns, getAllUsage. by rewrite He.
Qed.

(** An event whose date the runtime cannot read makes the first loop
    throw, and the [catch] turns the whole result into the empty list. *)
Lemma analyzeUsagePatterns_invalid_date (env : Env N) (rows : list (Usage N)) :
  usageTable env = Ok rows → Exists (λ u, weekdayOf newDate u = None) rows →
  Analytics.analyzeUsagePatterns newDate env = Ok [].
Proof.
  intros Hread Hex. unfold Analytics.analyzeUsagePatterns, getAllUsage.
  rewrite Hread, bind_Ok.
  assert (∀ dayMap, ∃ e, forEachM (Analytics.pushDay newDate) rows dayMap = Throw e) as Hthrow.
  { clear Hread. induction Hex as [u rows Hu|u rows _ IH]; intros dayMap; cbn [forEachM].
    - assert (∃ e, Analytics.pushDay newDate dayMap u = Throw e) as [e ->]; [|by eauto].
      unfold Analytics.pushDay. cbv zeta. unfold weekdayOf in Hu. rewrite Hu. eauto.
    - destruct (Analytics.pushDay newDate dayMap u) as [m|e].
      + rewrite bind_Ok. apply IH.
      + rewrite bind_Throw. eauto. }
  destruct (Hthrow Analytics.emptyDayMap) as [e ->]. done.
Qed.

Lemma dayNames_inj (i j : Z) :
  0 ≤ i < 7 → 0 ≤ j < 7 →
  Analytics.dayNames !!! Z.to_nat i = (Analytics.dayNames !!! Z.to_nat j : string) → i = j.
Proof.
  intros Hi Hj.
  assert (i = 0 ∨ i = 1 ∨ i = 2 ∨ i = 3 ∨ i = 4 ∨ i = 5 ∨ i = 6) as Hci by lia.
  assert (j = 0 ∨ j = 1 ∨ j = 2 ∨ j = 3 ∨ j = 4 ∨ j = 5 ∨ j = 6) as Hcj by lia.
  destruct Hci as [->|[->|[->|[->|[->|[->| ->]]]]]];
    destruct Hcj as [->|[->|[->|[->|[->|[->| ->]]]]]]; simpl; intros H;
    first [reflexivity | discriminate H].
Qed.

Lemma elem_of_weekdayMeans (rows : list (Usage N)) (p : Analytics.UsagePattern N) :
  p ∈ weekdayMeans rows ↔ ∃ i, 0 ≤ i < 7 ∧ weekdayMean rows i = Some p.
Proof.
  unfold weekdayMeans. rewrite list_elem_of_omap. split.
  - intros [i [Hi Hp]]. exists i. split; [|done].
    repeat (apply elem_of_cons in Hi as [->|Hi]; [lia|]).
    by apply elem_of_nil in Hi.
  - intros [i [Hi Hp]]. exists i. split; [|done].
    rewrite !elem_of_cons. lia.
Qed.

Lemma weekdayMean_Some (rows : list (Usage N)) (i : Z) (p : Analytics.UsagePattern N) :
  weekdayMean rows i = Some p →
  onWeekday i rows ≠ []
  ∧ p = {| Analytics.dayOfWeek := Analytics.dayNames !!! Z.to_nat i;
           Analytics.averageUsage := arithmeticMean (liters <$> onWeekday i rows);
           Analytics.peakHours := None |}.
Proof.
  unfold weekdayMean. destruct (onWeekday i rows) as [|u evs]; [done|].
  intros [= <-]. done.
Qed.

(** The entries of a readable table, weekday by weekday. *)
Lemma analyzeUsagePatterns_entries (env : Env N) (rows : list (Usage N)) :
  usageTable env = Ok rows → Forall (readsCalendarDay newDate) rows →
  ∃ patterns,
    Analytics.analyzeUsagePatterns newDate env = Ok patterns
    ∧ ∀ i, 0 ≤ i < 7 →
        (onWeekday i rows ≠ [] →
          ∃ p, p ∈ patterns ∧ Analytics.dayOfWeek p = Analytics.dayNames !!! Z.to_nat i)
        ∧ (∀ p, p ∈ patterns →
            Analytics.dayOfWeek p = Analytics.dayNames !!! Z.to_nat i →
            onWeekday i rows ≠ []
            ∧ Analytics.averageUsage p
              = (litersOf (onWeekday i rows) / of_nat (length (onWeekday i rows)))%num).
Proof.
  intros Hread Hvalid. exists (weekdayMeans rows).
  split; [by apply analyzeUsagePatterns_Ok|]. intros i Hi. split.
  - intros Hsome.
    destruct (weekdayMean rows i) as [p|] eqn:Hp.
    + exists p. split; [apply elem_of_weekdayMeans; eauto|].
      by apply weekdayMean_Some in Hp as [_ ->].
    + unfold weekdayMean in Hp. by destruct (onWeekday i rows).
  - intros p Hp Hname.
    apply elem_of_weekdayMeans in Hp as [j [Hj Hp]].
    apply weekdayMean_Some in Hp as [Hsome ->]. cbn [Analytics.dayOfWeek] in Hname.
    apply dayNames_inj in Hname as ->; [|done..]. split; [done|].
    cbn [Analytics.averageUsage]. unfold arithmeticMean, litersOf.
    by rewrite length_fmap.
Qed.


End PatternFacts.




(** The example of the specification: 100 L and 200 L on two Mondays. *)
Example twoMondays_mean :
  Analytics.analyzeUsagePatterns utcDate envJanuary
  = Ok [{| Analytics.dayOfWeek := "Monday"; Analytics.averageUsage := 150%float;
           Analytics.peakHours := None |}].
Proof. vm_compute. reflexivity. Qed.

(** The days of the week of some dates. *)
Example calendarWeekday_samples :
  calendarWeekday "2024-01-01" = Some 1 ∧ calendarWeekday "1970-01-01" = Some 4
  ∧ calendarWeekday "2000-02-29" = Some 2 ∧ calendarWeekday "2026-11-01" = Some 0
  ∧ calendarWeekday "1900-03-01" = Some 4 ∧ calendarWeekday "2023-12-31" = Some 0
  ∧ calendarWeekday "2023-02-29" = None ∧ calendarWeekday "2024-1-1" = None
  ∧ calendarWeekday "yesterday" = None.
Proof. vm_compute. repeat split. Qed.

(** In a time zone behind UTC the runtime reads a date on the day before:
    five hours behind, the two Mondays are reported as Sundays.  In a time
    zone ahead of UTC (Tehran, three and a half hours) they are Mondays. *)
Example behind_and_ahead_of_utc :
  zonedDate 0 "2024-01-01" = utcDate "2024-01-01"
  ∧ calendarWeekday "2024-01-01" = Some 1
  ∧ getDay (zonedDate (-300) "2024-01-01") = Some 0
  ∧ getMonth (zonedDate (-300) "2024-01-01") = Some 11
  ∧ Analytics.analyzeUsagePatterns (zonedDate (-300)) envJanuary
    = Ok [{| Analytics.dayOfWeek := "Sunday"; Analytics.averageUsage := 150%float;
             Analytics.peakHours := None |}]
  ∧ Analytics.analyzeUsagePatterns (zonedDate 210) envJanuary
    = Ok [{| Analytics.dayOfWeek := "Monday"; Analytics.averageUsage := 150%float;
             Analytics.peakHours := None |}].
Proof. vm_compute. repeat split. Qed.

(** ** The averages multiplied back *)

Lemma readsCalendarDay_sevenMondays {N} `{Number N} :
  Forall (readsCalendarDay utcDate) (sevenMondays (N:=N)).
Proof.
  unfold sevenMondays.
  repeat (apply Forall_cons_2; [exists 1; split; vm_compute; reflexivity|]).
  apply Forall_nil_2.
Qed.

(** In doubles the statement C9 fails: seven Monday events of 29 L in
    total have the average 29/7, and 29/7 * 7 is not 29 but the next
    double, 29.000000000000004. *)
Lemma averageUsage_roundtrip_rounds :
  usageTable (mkEnv (Ok sevenMondays) (Ok []) (Ok (rainy 5))) = Ok (sevenMondays (N:=float))
  ∧ Forall (readsCalendarDay utcDate) (sevenMondays (N:=float))
  ∧ length (onWeekday 1 (sevenMondays (N:=float))) = 7%nat
  ∧ litersOf (onWeekday 1 (sevenMondays (N:=float))) = 29%float
  ∧ ∃ p,
      Analytics.analyzeUsagePatterns utcDate (mkEnv (Ok sevenMondays) (Ok []) (Ok (rainy 5)))
      = Ok [p]
      ∧ Analytics.dayOfWeek p = Analytics.dayNames !!! Z.to_nat 1
      ∧ (Analytics.averageUsage p * of_nat 7)%num = 0x1.d000000000001p+4%float
      ∧ (Analytics.averageUsage p * of_nat 7)%num
        ≠ litersOf (onWeekday 1 (sevenMondays (N:=float))).
Proof.
  split; [reflexivity|]. split; [exact readsCalendarDay_sevenMondays|].
  split; [vm_compute; reflexivity|]. split; [vm_compute; reflexivity|].
  eexists. split; [vm_compute; reflexivity|]. split; [reflexivity|].
  split; [vm_compute; reflexivity|]. float_neq.
Qed.

(** *** Whole sums up to 10000 and up to 500 events *)

Lemma isNextTo_nextTo (x y : float) : isNextTo x y = true → nextTo x y.
Proof.
  unfold isNextTo, nextTo. rewrite !orb_true_iff, !FloatAxioms.Leibniz.eqb_spec. tauto.
Qed.

Lemma dividesBackCounts_true (counts : nat) (n0 s n : Z) :
  dividesBackCounts counts n0 s = true → n0 ≤ n < n0 + Z.of_nat counts →
  dividesBack s n = true.
Proof.
  revert n0. induction counts as [|counts IH]; intros n0 Hall Hn; [lia|].
  cbn [dividesBackCounts] in Hall. apply andb_true_iff in Hall as [Hhere Hrest].
  destruct (decide (n = n0)) as [->|Hne]; [done|].
  apply (IH (n0 + 1)); [done|lia].
Qed.

Lemma dividesBackSums_true (sums counts : nat) (s0 s n : Z) :
  dividesBackSums sums s0 counts = true →
  s0 ≤ s < s0 + Z.of_nat sums → 1 ≤ n < 1 + Z.of_nat counts →
  dividesBack s n = true.
Proof.
  revert s0. induction sums as [|sums IH]; intros s0 Hall Hs Hn; [lia|].
  cbn [dividesBackSums] in Hall. apply andb_true_iff in Hall as [Hhere Hrest].
  destruct (decide (s = s0)) as [->|Hne].
  - by apply (dividesBackCounts_true counts 1).
  - apply (IH (s0 + 1)); [done|lia|done].
Qed.

(** Every sum from 0 to 10000 over every count from 1 to 500, one by
    one. *)
Lemma dividesBack_checked :
  dividesBackSums (Z.to_nat 10001) 0 (Z.to_nat 500) = true.
Proof. vm_compute. reflexivity. Qed.

Lemma dividesBack_nextTo (s : Z) (n : nat) :
  0 ≤ s ≤ 10000 → (1 ≤ n ≤ 500)%nat →
  nextTo (of_Z s) (of_Z s / of_nat n * of_nat n)%num.
Proof.
  intros Hs Hn. apply isNextTo_nextTo.
  apply (dividesBackSums_true _ _ _ s (Z.of_nat n) dividesBack_checked); lia.
Qed.

Section DoublePatterns.
Variable newDate : string → JSDate.

(** C9 (as amended): on doubles, for every weekday with events, the
    averageUsage that analyzeUsagePatterns reports is the sum of the liters
    of that weekday's events divided by their number.  Multiplied by that
    number it gives the sum back up to rounding: whenever the sum is a
    whole number of liters up to 10000 and the weekday has up to 500
    events, the product is the sum or one of the two doubles next to
    it. *)
Theorem averageUsage_roundtrip_doubles (env : Env float) (rows : list (Usage float)) :
  usageTable env = Ok rows → Forall (readsCalendarDay newDate) rows →
  ∃ patterns,
    Analytics.analyzeUsagePatterns newDate env = Ok patterns
    ∧ ∀ i, 0 ≤ i < 7 →
        (onWeekday i rows ≠ [] →
          ∃ p, p ∈ patterns ∧ Analytics.dayOfWeek p = Analytics.dayNames !!! Z.to_nat i)
        ∧ (∀ p, p ∈ patterns →
            Analytics.dayOfWeek p = Analytics.dayNames !!! Z.to_nat i →
            Analytics.averageUsage p
            = (litersOf (onWeekday i rows) / of_nat (length (onWeekday i rows)))%num
            ∧ ∀ s, 0 ≤ s ≤ 10000 → litersOf (onWeekday i rows) = of_Z s →
                (length (onWeekday i rows) ≤ 500)%nat →
                nextTo (litersOf (onWeekday i rows))
                  (Analytics.averageUsage p * of_nat (length (onWeekday i rows)))%num).
Proof.
  intros Hread Hvalid.
  destruct (analyzeUsagePatterns_entries newDate env rows Hread Hvalid)
    as [patterns [Hrun Hentries]].
  exists patterns. split; [done|]. intros i Hi.
  destruct (Hentries i Hi) as [Hsome Hmean]. split; [done|].
  intros p Hp Hname. destruct (Hmean p Hp Hname) as [Hevs Havg].
  split; [done|]. intros s Hs Hsum Hlen. rewrite Havg, Hsum.
  apply dividesBack_nextTo; [done|].
  destruct (onWeekday i rows); [done|simpl in *; lia].
Qed.
End DoublePatterns.

Lemma averageUsage_roundtrip_doubles_witness :
  (usageTable (mkEnv (Ok sevenMondays) (Ok []) (Ok (rainy 5)))
   = Ok (sevenMondays (N:=float))
   ∧ Forall (readsCalendarDay utcDate) (sevenMondays (N:=float)))
  ∧ litersOf (onWeekday 1 (sevenMondays (N:=float))) = of_Z 29
  ∧ PrimFloat.next_up 29 = 0x1.d000000000001p+4%float
  ∧ ∃ patterns,
      Analytics.analyzeUsagePatterns utcDate (mkEnv (Ok sevenMondays) (Ok []) (Ok (rainy 5)))
      = Ok patterns
      ∧ ∀ i, 0 ≤ i < 7 →
          (onWeekday i (sevenMondays (N:=float)) ≠ [] →
            ∃ p, p ∈ patterns
              ∧ Analytics.dayOfWeek p = Analytics.dayNames !!! Z.to_nat i)
          ∧ (∀ p, p ∈ patterns →
              Analytics.dayOfWeek p = Analytics.dayNames !!! Z.to_nat i →
              Analytics.averageUsage p
              = (litersOf (onWeekday i (sevenMondays (N:=float)))
                 / of_nat (length (onWeekday i (sevenMondays (N:=float)))))%num
              ∧ ∀ s, 0 ≤ s ≤ 10000 →
                  litersOf (onWeekday i (sevenMondays (N:=float))) = of_Z s →
                  (length (onWeekday i (sevenMondays (N:=float))) ≤ 500)%nat →
                  nextTo (litersOf (onWeekday i (sevenMondays (N:=float))))
                    (Analytics.averageUsage p
                     * of_nat (length (onWeekday i (sevenMondays (N:=float)))))%num).
Proof.
  split; [split; [reflexivity|exact readsCalendarDay_sevenMondays]|].
  split; [vm_compute; reflexivity|]. split; [vm_compute; reflexivity|].
  exact (averageUsage_roundtrip_doubles utcDate
           (mkEnv (Ok sevenMondays) (Ok []) (Ok (rainy 5))) sevenMondays
           eq_refl readsCalendarDay_sevenMondays).
Defined.

(** Without rounding the product is the sum: the same functions on exact
    numbers. *)
Lemma averageUsage_without_rounding (newDate : string → JSDate) (env : Env exact)
    (rows : list (Usage exact)) :
  usageTable env = Ok rows → Forall (readsCalendarDay newDate) rows →
  ∃ patterns,
    Analytics.analyzeUsagePatterns newDate env = Ok patterns
    ∧ ∀ i p, 0 ≤ i < 7 → p ∈ patterns →
        Analytics.dayOfWeek p = Analytics.dayNames !!! Z.to_nat i →
        (Analytics.averageUsage p * of_nat (length (onWeekday i rows)))%num
        = litersOf (onWeekday i rows).
Proof.
  intros Hread Hvalid.
  destruct (analyzeUsagePatterns_entries newDate env rows Hread Hvalid)
    as [patterns [Hrun Hentries]].
  exists patterns. split; [done|]. intros i p Hi Hp Hname.
  destruct (Hentries i Hi) as [_ Hmean]. destruct (Hmean p Hp Hname) as [Hevs ->].
  apply exact_div_mul. destruct (onWeekday i rows); [done|simpl; lia].
Qed.

(** ** Sorting *)

Section SortFacts.
Context {A : Type} (le : A → A → bool).

Lemma insert_sorted_Permutation (x : A) (l : list A) :
  insert_sorted le x l ≡ₚ x :: l.
Proof.
  induction l as [|y l IH]; simpl; [done|].
  destruct (le x y); [done|]. rewrite IH. apply Permutation_swap.
Qed.

Lemma sort_by_Permutation (l : list A) : sort_by le l ≡ₚ l.
Proof.
  induction l as [|x l IH]; simpl; [done|].
  rewrite insert_sorted_Permutation. by f_equiv.
Qed.

Lemma elem_of_sort_by (x : A) (l : list A) : x ∈ sort_by le l ↔ x ∈ l.
Proof. by rewrite sort_by_Permutation. Qed.

Lemma length_sort_by (l : list A) : length (sort_by le l) = length l.
Proof. by rewrite sort_by_Permutation. Qed.
End SortFacts.

(** ** identifySavingsOpportunities *)

Section OpportunityFacts.
Context {N : Type} {number : Number N}.

Lemma identifySavingsOpportunities_Ok (env : Env N) (rows : list (Usage N)) :
  usageTable env = Ok rows →
  Analytics.identifySavingsOpportunities env
  = Ok (match rows with
        | [] => []
        | _ => sort_by Analytics.byPriority
                 (Analytics.pushedOpportunities (Analytics.dailyAverage rows))
        end).
Proof.
  intros Hread. unfold Analytics.identifySavingsOpportunities, getAllUsage.
  rewrite Hread, bind_Ok. by destruct rows.
Qed.

Lemma identifySavingsOpportunities_never_throws (env : Env N) :
  ∃ opportunities, Analytics.identifySavingsOpportunities env = Ok opportunities.
Proof. apply try_catch_total. Qed.

Lemma identifySavingsOpportunities_read_failure (env : Env N) :
  throws (usageTable env) → Analytics.identifySavingsOpportunities env = Ok [].
Proof.
  intros [e He]. unfold Analytics.identifySavingsOpportunities, getAllUsage. by rewrite He.
Qed.


(** C7: on an empty usage table identifySavingsOpportunities returns the
    empty list without dividing, and on a table with events the divisor of
    the daily average, the number of distinct dates, is at least 1. *)
Theorem identifySavingsOpportunities_no_zero_divisor (env : Env N) :
  (usageTable env = Ok [] → Analytics.identifySavingsOpportunities env = Ok [])
  ∧ (∀ rows, usageTable env = Ok rows → rows ≠ [] →
      let days := distinct_count (usage_date <$> rows) in
      (1 ≤ days)%nat
      ∧ Analytics.dailyAverage rows = (litersOf rows / of_nat days)%num
      ∧ Analytics.identifySavingsOpportunities env
        = Ok (sort_by Analytics.byPriority
                (Analytics.pushedOpportunities (litersOf rows / of_nat days)%num))).
Proof.
  split.
  - intros Hread. by rewrite (identifySavingsOpportunities_Ok env []).
  - intros rows Hread Hrows days. subst days.
    assert (0 < distinct_count (usage_date <$> rows))%nat as Hpos.
    { apply distinct_count_pos. by destruct rows. }
    assert (Analytics.dailyAverage rows
            = (litersOf rows / of_nat (distinct_count (usage_date <$> rows)))%num) as Havg.
    { unfold Analytics.dailyAverage. by rewrite reduce_sum_liters. }
    split; [lia|]. split; [done|]. rewrite <-Havg.
    rewrite (identifySavingsOpportunities_Ok env rows Hread). by destruct rows.
Qed.
End OpportunityFacts.



(** At 200 L a day all four heuristics fire; the two of high priority come
    first, each group in the order of the pushes. *)
Example opportunities_at_200 :
  Analytics.identifySavingsOpportunities
    (mkEnv (Ok oneDayOf200) (Ok []) (Ok (rainy 5)) : Env float)
  = Ok [showerAt200;
        generalAt200;
        {| Analytics.category := "Toilet";
           Analytics.currentUsage := 54%float;
           Analytics.recommendedUsage := 24%float;
           Analytics.potentialSavings := 900%float;
           Analytics.priority := Analytics.medium;
           Analytics.description := "Install dual-flush toilet system or check for leaks" |};
        {| Analytics.category := "Kitchen";
           Analytics.currentUsage := 40%float;
           Analytics.recommendedUsage := 15%float;
           Analytics.potentialSavings := 750%float;
           Analytics.priority := Analytics.medium;
           Analytics.description := "Use dishwasher efficiently, don't pre-rinse dishes" |}].
Proof. vm_compute. reflexivity. Qed.

(** ** The order of strings *)

Lemma ascii_compare_refl (a : ascii) : Ascii.compare a a = Eq.
Proof. apply N.compare_refl. Qed.

Lemma ascii_compare_lt_trans (a b c : ascii) :
  Ascii.compare a b = Lt → Ascii.compare b c = Lt → Ascii.compare a c = Lt.
Proof.
  unfold Ascii.compare. rewrite !N.compare_lt_iff. apply N.lt_trans.
Qed.

Lemma string_compare_lt_trans (s1 s2 s3 : string) :
  String.compare s1 s2 = Lt → String.compare s2 s3 = Lt → String.compare s1 s3 = Lt.
Proof.
  revert s2 s3. induction s1 as [|a s1 IH]; intros [|b s2] [|c s3]; simpl; try done.
  destruct (Ascii.compare a b) eqn:Hab; [|clear IH|done];
    destruct (Ascii.compare b c) eqn:Hbc; try done.
  - apply Ascii.compare_eq_iff in Hab as ->. rewrite Hbc. apply IH.
  - apply Ascii.compare_eq_iff in Hab as ->. by rewrite Hbc.
  - apply Ascii.compare_eq_iff in Hbc as <-. by rewrite Hab.
  - by rewrite (ascii_compare_lt_trans a b c).
Qed.

Lemma string_compare_refl (s : string) : String.compare s s = Eq.
Proof. induction s as [|a s IH]; simpl; [done|]. by rewrite ascii_compare_refl. Qed.

Lemma string_ltb_trans (s1 s2 s3 : string) :
  String.ltb s1 s2 = true → String.ltb s2 s3 = true → String.ltb s1 s3 = true.
Proof.
  unfold String.ltb. intros H1 H2.
  destruct (String.compare s1 s2) eqn:H12; try done.
  destruct (String.compare s2 s3) eqn:H23; try done.
  by rewrite (string_compare_lt_trans s1 s2 s3).
Qed.

Lemma string_leb_ltb (s1 s2 : string) :
  String.leb s1 s2 = true ↔ String.ltb s1 s2 = true ∨ s1 = s2.
Proof.
  unfold String.leb, String.ltb. split.
  - destruct (String.compare s1 s2) eqn:H; try done; [|by left].
    right. by apply String.compare_eq_iff.
  - intros [H| ->]; [by destruct (String.compare s1 s2)|].
    by rewrite string_compare_refl.
Qed.

Lemma string_leb_trans (s1 s2 s3 : string) :
  String.leb s1 s2 = true → String.leb s2 s3 = true → String.leb s1 s3 = true.
Proof.
  rewrite !string_leb_ltb. intros [H1| ->] [H2| ->]; eauto using string_ltb_trans.
Qed.

Lemma string_leb_false (s1 s2 : string) :
  String.leb s1 s2 = false → String.leb s2 s1 = true.
Proof. intros H. destruct (String.leb_total s1 s2); congruence. Qed.

(** ** The sort puts a list in order *)

Section SortSorted.
Context {A : Type} (le : A → A → bool).
Hypothesis le_trans : ∀ x y z, le x y = true → le y z = true → le x z = true.
Hypothesis le_total : ∀ x y, le x y = false → le y x = true.

Lemma insert_sorted_StronglySorted (x : A) (l : list A) :
  StronglySorted (λ a b, le a b = true) l →
  StronglySorted (λ a b, le a b = true) (insert_sorted le x l).
Proof.
  induction 1 as [|y l Hsorted IH Hall]; simpl.
  - repeat constructor.
  - destruct (le x y) eqn:Hxy.
    + constructor; [by constructor|]. constructor; [done|].
      eapply Forall_impl; [exact Hall|]. intros z Hz. by eapply le_trans.
    + constructor; [done|].
      rewrite insert_sorted_Permutation. constructor; [by apply le_total|done].
Qed.

Lemma sort_by_StronglySorted (l : list A) :
  StronglySorted (λ a b, le a b = true) (sort_by le l).
Proof.
  induction l as [|x l IH]; simpl; [constructor|].
  by apply insert_sorted_StronglySorted.
Qed.
End SortSorted.


(** A sorted list without repetition is strictly ascending. *)
Lemma sorted_NoDup_ascending (l : list string) :
  StronglySorted (λ a b, String.leb a b = true) l → NoDup l → ascending l.
Proof.
  unfold ascending. induction 1 as [|x l Hsorted IH Hall]; intros Hnd; [constructor|].
  apply NoDup_cons in Hnd as [Hx Hnd]. constructor; [by apply IH|].
  apply Forall_forall. intros y Hy.
  rewrite Forall_forall in Hall. specialize (Hall y Hy).
  apply string_leb_ltb in Hall as [H| ->]; [done|]. by destruct Hx.
Qed.

Lemma elem_of_drop_1 {A} (n : nat) (l : list A) (x : A) : x ∈ drop n l → x ∈ l.
Proof. intros Hx. rewrite <-(take_drop n l). apply elem_of_app. by right. Qed.

(** [l.slice(-n)] keeps the last [n] elements. *)
Lemma slice_from_last {A} (n : Z) (l : list A) :
  0 < n → slice_from (- n) l = drop (length l - Z.to_nat n) l.
Proof.
  intros Hn. unfold slice_from.
  rewrite bool_decide_eq_true_2 by lia. f_equal. lia.
Qed.

(** ** calculateMonthlyTrends *)

Section TrendFacts.
Context {N : Type} {number : Number N}.
Variable newDate : string → JSDate.

Lemma dom_ensureMonth (k : string) (m : gmap string (Analytics.MonthData N)) :
  dom (Analytics.ensureMonth k m) = {[k]} ∪ dom m.
Proof.
  unfold Analytics.ensureMonth. destruct (m !! k) eqn:Hk.
  - apply (elem_of_dom_2 m) in Hk. set_solver.
  - by rewrite dom_insert_L.
Qed.

Lemma dom_addUsage (m : gmap string (Analytics.MonthData N)) (u : Usage N) :
  dom (Analytics.addUsage newDate m u) = {[usageKey newDate u]} ∪ dom m.
Proof. unfold Analytics.addUsage. cbv zeta. by rewrite dom_alter_L, dom_ensureMonth. Qed.

Lemma dom_addBill (m : gmap string (Analytics.MonthData N)) (b : Bill N) :
  dom (Analytics.addBill newDate m b) = {[billKey newDate b]} ∪ dom m.
Proof. unfold Analytics.addBill. cbv zeta. by rewrite dom_alter_L, dom_ensureMonth. Qed.

Lemma dom_foldl_addUsage (us : list (Usage N)) (m : gmap string (Analytics.MonthData N)) :
  dom (foldl (Analytics.addUsage newDate) m us)
  = list_to_set (usageKey newDate <$> us) ∪ dom m.
Proof.
  revert m. induction us as [|u us IH]; intros m; simpl; [set_solver|].
  rewrite IH, dom_addUsage. set_solver.
Qed.

Lemma dom_foldl_addBill (bs : list (Bill N)) (m : gmap string (Analytics.MonthData N)) :
  dom (foldl (Analytics.addBill newDate) m bs)
  = list_to_set (billKey newDate <$> bs) ∪ dom m.
Proof.
  revert m. induction bs as [|b bs IH]; intros m; simpl; [set_solver|].
  rewrite IH, dom_addBill. set_solver.
Qed.

(** The keys of [monthMap] are the months with a usage event or a bill. *)
Lemma elem_of_dom_buildMonthMap (us : list (Usage N)) (bs : list (Bill N)) (k : string) :
  k ∈ dom (Analytics.buildMonthMap newDate us bs) ↔ k ∈ activeMonths newDate us bs.
Proof.
  unfold Analytics.buildMonthMap, activeMonths.
  rewrite dom_foldl_addBill, dom_foldl_addUsage, dom_empty_L. set_solver.
Qed.

Lemma elem_of_keys (m : gmap string (Analytics.MonthData N)) (k : string) :
  k ∈ (map_to_list m).*1 ↔ k ∈ dom m.
Proof.
  rewrite elem_of_dom, list_elem_of_fmap. split.
  - intros [[k' v] [-> Hkv]]. apply elem_of_map_to_list in Hkv. simpl. eauto.
  - intros [v Hv]. exists (k, v). split; [done|]. by apply elem_of_map_to_list.
Qed.

(** What [Object.keys(monthMap).sort()] is. *)
Lemma sorted_keys (m : gmap string (Analytics.MonthData N)) :
  ascending (sort_by String.leb (map_to_list m).*1)
  ∧ ∀ k, k ∈ sort_by String.leb (map_to_list m).*1 ↔ k ∈ dom m.
Proof.
  split.
  - apply sorted_NoDup_ascending.
    + apply sort_by_StronglySorted; [apply string_leb_trans|apply string_leb_false].
    + rewrite sort_by_Permutation. apply NoDup_fst_map_to_list.
  - intros k. by rewrite elem_of_sort_by, elem_of_keys.
Qed.



Lemma calculateMonthlyTrends_never_throws (env : Env N) (months : Z) :
  ∃ trends, Analytics.calculateMonthlyTrends newDate env months = Ok trends.
Proof. apply try_catch_total. Qed.

Lemma calculateMonthlyTrends_read_failure (env : Env N) (months : Z) :
  throws (usageTable env) ∨ throws (billsTable env) →
  Analytics.calculateMonthlyTrends newDate env months = Ok [].
Proof.
  unfold Analytics.calculateMonthlyTrends, getAllUsage, getAllBills.
  intros [[e He]|[e He]]; rewrite He.
  - done.
  - by destruct (usageTable env).
Qed.
End TrendFacts.

(** ** The order of the month keys *)



Lemma append_String (a : ascii) (s t : string) : String a s +:+ t = String a (s +:+ t).
Proof. reflexivity. Qed.


Lemma compare_String (a b : ascii) (s t : string) :
  String.compare (String a s) (String b t)
  = match Ascii.compare a b with
    | Eq => String.compare s t
    | ne => ne
    end.
Proof. reflexivity. Qed.







Section TrendTheorem.
Context {N : Type} {number : Number N}.
Variable newDate : string → JSDate.

End TrendTheorem.

(** Seven months of bills: the oldest month is dropped. *)
Example sevenMonths_trends :
  Analytics.month <$>
    (match Analytics.calculateMonthlyTrends utcDate
             (mkEnv (Ok [mkUsage 1 90 "2024-03-02"; mkUsage 2 30 "2024-03-02"])
                (Ok [mkBill "a" 5 "2023-09-10" 100; mkBill "b" 5 "2023-10-10" 100;
                     mkBill "c" 5 "2023-11-10" 100; mkBill "d" 5 "2023-12-10" 100;
                     mkBill "e" 5 "2024-01-10" 100; mkBill "f" 5 "2024-02-10" 100])
                (Ok (rainy 5)) : Env float) 6 with
     | Ok trends => trends
     | Throw _ => []
     end)
  = ["2023-10"; "2023-11"; "2023-12"; "2024-01"; "2024-02"; "2024-03"].
Proof. vm_compute. reflexivity. Qed.

(** ** generateUsageReport *)

Section ReportFacts.
Context {N : Type} {number : Number N}.
Variable newDate : string → JSDate.

Lemma generateUsageReport_Ok (env : Env N) (us : list (Usage N)) (bs : list (Bill N)) :
  usageTable env = Ok us → billsTable env = Ok bs →
  ∃ patterns trends opportunities,
    Analytics.analyzeUsagePatterns newDate env = Ok patterns
    ∧ Analytics.calculateMonthlyTrends newDate env 6 = Ok trends
    ∧ Analytics.identifySavingsOpportunities env = Ok opportunities
    ∧ Analytics.generateUsageReport newDate env
      = Ok {| Analytics.summary :=
                {| Analytics.summary_totalDays := distinct_count (usage_date <$> us);
                   Analytics.summary_totalUsage := litersOf us;
                   Analytics.summary_averageDaily :=
                     if bool_decide (0 < distinct_count (usage_date <$> us))%nat
                     then (litersOf us / of_nat (distinct_count (usage_date <$> us)))%num
                     else zero;
                   Analytics.summary_totalCost := total (amount <$> bs) |};
              Analytics.patterns := patterns;
              Analytics.trends := trends;
              Analytics.opportunities := opportunities |}.
Proof.
  intros Hus Hbs.
  destruct (analyzeUsagePatterns_never_throws newDate env) as [patterns Hp].
  destruct (calculateMonthlyTrends_never_throws newDate env 6) as [trends Ht].
  destruct (identifySavingsOpportunities_never_throws env) as [opportunities Ho].
  exists patterns, trends, opportunities. repeat (split; [done|]).
  unfold Analytics.generateUsageReport, getAllUsage, getAllBills.
  rewrite Hus, Hbs, Hp, Ht, Ho, !bind_Ok.
  by rewrite reduce_sum_liters, (reduce_sum_total amount).
Qed.

Lemma generateUsageReport_Throw (env : Env N) (e : error) :
  Analytics.generateUsageReport newDate env = Throw e
  ↔ usageTable env = Throw e
    ∨ ((∃ us, usageTable env = Ok us) ∧ billsTable env = Throw e).
Proof.
  destruct (usageTable env) as [us|e1] eqn:Hus;
    [destruct (billsTable env) as [bs|e2] eqn:Hbs|].
  - destruct (generateUsageReport_Ok env us bs Hus Hbs) as (p & t & o & _ & _ & _ & ->).
    split; [done|]. by intros [|[_ ?]].
  - unfold Analytics.generateUsageReport, getAllUsage, getAllBills.
    rewrite Hus, Hbs. simpl. split.
    + intros [= ->]. right. eauto.
    + intros [[=]|[_ [= ->]]]. done.
  - unfold Analytics.generateUsageReport, getAllUsage. rewrite Hus. simpl. split.
    + intros [= ->]. by left.
    + intros [[= ->]|[[us [=]] _]]. done.
Qed.

(** C2: generateUsageReport rejects exactly when the read of the usage
    table or of the bills table fails, with the error of that read; on
    readable tables without rows it resolves to the report of zeros and
    empty lists; analyzeUsagePatterns, calculateMonthlyTrends and
    identifySavingsOpportunities resolve to the empty list when a read they
    make fails. *)
Theorem generateUsageReport_raises_on_read_failure (env : Env N) :
  (throws (Analytics.generateUsageReport newDate env)
   ↔ throws (usageTable env) ∨ throws (billsTable env))
  ∧ (∀ e, Analytics.generateUsageReport newDate env = Throw e
      ↔ usageTable env = Throw e
        ∨ ((∃ us, usageTable env = Ok us) ∧ billsTable env = Throw e))
  ∧ (usageTable env = Ok [] → billsTable env = Ok [] →
      Analytics.generateUsageReport newDate env = Ok emptyReport)
  ∧ (throws (usageTable env) →
      Analytics.analyzeUsagePatterns newDate env = Ok []
      ∧ Analytics.calculateMonthlyTrends newDate env 6 = Ok []
      ∧ Analytics.identifySavingsOpportunities env = Ok [])
  ∧ (throws (billsTable env) →
      Analytics.calculateMonthlyTrends newDate env 6 = Ok []).
Proof.
  split; [|split; [|split; [|split]]].
  - unfold throws. setoid_rewrite generateUsageReport_Throw. split.
    + intros [e [H|[_ H]]]; eauto.
    + intros [[e H]|[e H]]; [eauto|].
      destruct (usageTable env) as [us|e'] eqn:Hus; eauto 6.
  - apply generateUsageReport_Throw.
  - intros Hus Hbs.
    unfold Analytics.generateUsageReport, Analytics.analyzeUsagePatterns,
      Analytics.calculateMonthlyTrends, Analytics.identifySavingsOpportunities,
      getAllUsage, getAllBills.
    rewrite Hus, Hbs. reflexivity.
  - intros Hus. split; [by apply analyzeUsagePatterns_read_failure|].
    split; [apply calculateMonthlyTrends_read_failure; by left|].
    by apply identifySavingsOpportunities_read_failure.
  - intros Hbs. apply calculateMonthlyTrends_read_failure. by right.
Qed.

(** C8: in the summary of generateUsageReport, totalDays is the number
    of distinct dates with a usage event, totalUsage the sum of the liters
    of all events, totalCost the sum of the amounts of all bills (each sum
    taken in the order of the rows), and averageDaily is
    totalUsage / totalDays when totalDays > 0 and 0 when totalDays = 0:
    the division 0 / 0, whose value is NaN, is not made. *)
Theorem generateUsageReport_summary (env : Env N) (us : list (Usage N)) (bs : list (Bill N)) :
  usageTable env = Ok us → billsTable env = Ok bs →
  ∃ report,
    Analytics.generateUsageReport newDate env = Ok report
    ∧ Analytics.summary_totalDays (Analytics.summary report) = distinct (usage_date <$> us)
    ∧ Analytics.summary_totalUsage (Analytics.summary report) = total (liters <$> us)
    ∧ Analytics.summary_totalCost (Analytics.summary report) = total (amount <$> bs)
    ∧ ((0 < distinct (usage_date <$> us))%nat →
        Analytics.summary_averageDaily (Analytics.summary report)
        = (total (liters <$> us) / of_nat (distinct (usage_date <$> us)))%num)
    ∧ (distinct (usage_date <$> us) = 0%nat →
        us = [] ∧ Analytics.summary_averageDaily (Analytics.summary report) = zero).
Proof.
  intros Hus Hbs.
  destruct (generateUsageReport_Ok env us bs Hus Hbs) as (p & t & o & _ & _ & _ & Hr).
  eexists. split; [exact Hr|]. cbn [Analytics.summary Analytics.summary_totalDays
    Analytics.summary_totalUsage Analytics.summary_totalCost Analytics.summary_averageDaily].
  rewrite <-!distinct_count_remove_dups. fold (litersOf us).
  split; [done|]. split; [done|]. split; [done|]. split.
  - intros Hpos. by rewrite bool_decide_eq_true_2.
  - intros Hzero. split.
    + destruct us as [|u us]; [done|].
      pose proof (distinct_count_pos (usage_date <$> u :: us)) as Hpos.
      rewrite Hzero in Hpos. exfalso. by apply (Nat.lt_irrefl 0), Hpos.
    + by rewrite bool_decide_eq_false_2 by lia.
Qed.
End ReportFacts.

Lemma generateUsageReport_summary_witness :
  (usageTable envJanuary = Ok (twoMondays (N:=float))
   ∧ billsTable envJanuary = Ok [januaryBill (N:=float)])
  ∧ (distinct (usage_date <$> twoMondays (N:=float)) = 2%nat
     ∧ total (liters <$> twoMondays (N:=float)) = 300%float
     ∧ total (amount <$> [januaryBill (N:=float)]) = 2%float
     ∧ (300 / 2 = 150)%float)
  ∧ ∃ report,
      Analytics.generateUsageReport utcDate envJanuary = Ok report
      ∧ Analytics.summary_totalDays (Analytics.summary report)
        = distinct (usage_date <$> twoMondays (N:=float))
      ∧ Analytics.summary_totalUsage (Analytics.summary report)
        = total (liters <$> twoMondays (N:=float))
      ∧ Analytics.summary_totalCost (Analytics.summary report)
        = total (amount <$> [januaryBill (N:=float)])
      ∧ ((0 < distinct (usage_date <$> twoMondays (N:=float)))%nat →
          Analytics.summary_averageDaily (Analytics.summary report)
          = (total (liters <$> twoMondays (N:=float))
             / of_nat (distinct (usage_date <$> twoMondays (N:=float))))%num)
      ∧ (distinct (usage_date <$> twoMondays (N:=float)) = 0%nat →
          twoMondays (N:=float) = []
          ∧ Analytics.summary_averageDaily (Analytics.summary report) = zero).
Proof.
  split; [split; reflexivity|].
  split; [repeat split; vm_compute; reflexivity|].
  exact (generateUsageReport_summary utcDate envJanuary twoMondays [januaryBill]
           eq_refl eq_refl).
Defined.

(** The summary of two days of 100 L and 200 L and one bill of 2, and the
    summary of empty tables. *)
Example january_summary :
  Analytics.summary <$>
    (match Analytics.generateUsageReport utcDate envJanuary with
     | Ok report => Some report
     | Throw _ => None
     end)
  = Some {| Analytics.summary_totalDays := 2;
            Analytics.summary_totalUsage := 300%float;
            Analytics.summary_averageDaily := 150%float;
            Analytics.summary_totalCost := 2%float |}
  ∧ Analytics.generateUsageReport utcDate (envWeatherDown (N:=float)) = Ok emptyReport.
Proof. split; vm_compute; reflexivity. Qed.

(** ** The advisor's readers *)

Section AdvisorFacts.
Context {N : Type} {number : Number N}.

Lemma getAverageDailyUsage_Ok (env : Env N) (rows : list (Usage N)) (days : Z) :
  usageTable env = Ok rows → ∃ avg, getAverageDailyUsage env days = Ok avg.
Proof.
  intros Hrows. unfold getAverageDailyUsage. rewrite Hrows, bind_Ok. eauto.
Qed.

Lemma getUserUsageAnalysis_Ok (env : Env N) (rows : list (Usage N)) :
  usageTable env = Ok rows → ∃ ua, Advisor.getUserUsageAnalysis env = Ok ua.
Proof.
  intros Hrows. unfold Advisor.getUserUsageAnalysis, getTotalUsageByDate.
  destruct (getAverageDailyUsage_Ok env rows 30 Hrows) as [a30 H30].
  destruct (getAverageDailyUsage_Ok env rows 7 Hrows) as [a7 H7].
  rewrite Hrows, !bind_Ok, H30, !bind_Ok, H7, !bind_Ok. eauto.
Qed.

Lemma getUserUsageAnalysis_Throw (env : Env N) (e : error) :
  usageTable env = Throw e → Advisor.getUserUsageAnalysis env = Throw e.
Proof.
  intros Hrows. unfold Advisor.getUserUsageAnalysis, getTotalUsageByDate. by rewrite Hrows.
Qed.

Lemma getBillsAnalysis_Ok (env : Env N) (bs : list (Bill N)) :
  billsTable env = Ok bs → ∃ ba, Advisor.getBillsAnalysis env = Ok ba.
Proof.
  intros Hbs. unfold Advisor.getBillsAnalysis, getAllBills, getTotalConsumption.
  rewrite Hbs, !bind_Ok. eauto.
Qed.

Lemma getBillsAnalysis_Throw (env : Env N) (e : error) :
  billsTable env = Throw e → Advisor.getBillsAnalysis env = Throw e.
Proof.
  intros Hbs. unfold Advisor.getBillsAnalysis, getAllBills. by rewrite Hbs.
Qed.

(** [getLocation] falls back to the default location: it never rejects. *)
Lemma getLocation_never_throws (env : Env N) : ∃ l, getLocation env = Ok l.
Proof.
  unfold getLocation, getSavedLocation, getLocationFromIP. rewrite bind_Ok.
  destruct (savedLocation env); [by eexists|].
  destruct (ipLocation env); by eexists.
Qed.

Lemma getRegionalWaterContext_never_throws (env : Env N) :
  ∃ ctx, Advisor.getRegionalWaterContext env = Ok ctx.
Proof. apply try_catch_total. Qed.

Lemma getRegionalWaterContext_failure (env : Env N) :
  throws (getLocation env)
  ∨ (∃ l, getLocation env = Ok l ∧ throws (getCurrentWeather env (lat l) (lon l))) →
  Advisor.getRegionalWaterContext env = Ok regionalFallback.
Proof.
  unfold Advisor.getRegionalWaterContext. intros [[e He]|[l [Hl [e He]]]].
  - by rewrite He.
  - by rewrite Hl, bind_Ok, He.
Qed.

Lemma getRegionalWaterContext_Ok (env : Env N) (l : LocationData N) (w : OpenMeteo.WeatherData N) :
  getLocation env = Ok l → getCurrentWeather env (lat l) (lon l) = Ok w →
  Advisor.getRegionalWaterContext env
  = Ok {| Advisor.temperature := OpenMeteo.temperature w;
          Advisor.humidity := OpenMeteo.humidity w;
          Advisor.precipitation := OpenMeteo.precipitation w;
          Advisor.recommendation := Advisor.weatherAdvice w |}.
Proof.
  intros Hl Hw. unfold Advisor.getRegionalWaterContext. by rewrite Hl, bind_Ok, Hw.
Qed.

(** ** generateRecommendations *)

Lemma generateRecommendations_Ok (env : Env N) (ua : Advisor.UsageAnalysis N)
    (ba : Advisor.BillsAnalysis N) (ctx : Advisor.RegionalContext N) :
  Advisor.getUserUsageAnalysis env = Ok ua →
  Advisor.getBillsAnalysis env = Ok ba →
  Advisor.getRegionalWaterContext env = Ok ctx →
  Advisor.generateRecommendations env = Ok (normalRecommendations ua ba ctx).
Proof.
  intros Hua Hba Hctx. unfold Advisor.generateRecommendations, Advisor.tryBlock.
  by rewrite Hua, Hba, Hctx.
Qed.

Lemma generateRecommendations_catch (env : Env N) :
  throws (Advisor.getUserUsageAnalysis env)
  ∨ throws (Advisor.getBillsAnalysis env) →
  Advisor.generateRecommendations env = Ok [Advisor.startTracking].
Proof.
  unfold Advisor.generateRecommendations, Advisor.tryBlock.
  intros [[e He]|[e He]]; rewrite He; [done|].
  by destruct (Advisor.getUserUsageAnalysis env).
Qed.

Lemma elem_of_push_if {A} (test : bool) (x y : A) (l : list A) :
  y ∈ Advisor.push_if test x l → y ∈ l ∨ (test = true ∧ y = x).
Proof.
  unfold Advisor.push_if. destruct test; [|by left].
  rewrite elem_of_app, list_elem_of_singleton. intros [?|?]; eauto.
Qed.

Lemma elem_of_push_if_further {A} (test : bool) (x y : A) (l : list A) :
  y ∈ l → y ∈ Advisor.push_if test x l.
Proof.
  intros Hy. unfold Advisor.push_if. destruct test; [|done].
  apply elem_of_app. by left.
Qed.

Lemma elem_of_push_if_true {A} (x : A) (l : list A) : x ∈ Advisor.push_if true x l.
Proof. apply elem_of_app. right. by apply list_elem_of_singleton. Qed.

Lemma length_push_if {A} (test : bool) (x : A) (l : list A) :
  (length l ≤ length (Advisor.push_if test x l))%nat.
Proof. unfold Advisor.push_if. destruct test; [rewrite length_app|]; lia. Qed.

Lemma normalRecommendations_head (ua : Advisor.UsageAnalysis N) (ba : Advisor.BillsAnalysis N)
    (ctx : Advisor.RegionalContext N) :
  ∃ rest, normalRecommendations ua ba ctx = Advisor.usageRecommendation ua :: rest.
Proof.
  unfold normalRecommendations, Advisor.push_if.
  repeat match goal with |- context [if ?b then _ else _] => destruct b end;
    simpl; eauto.
Qed.

(** None of the regular recommendations is the onboarding one. *)
Lemma startTracking_not_normal (ua : Advisor.UsageAnalysis N) (ba : Advisor.BillsAnalysis N)
    (ctx : Advisor.RegionalContext N) :
  Advisor.startTracking ∉ normalRecommendations ua ba ctx.
Proof.
  unfold normalRecommendations. intros H.
  apply elem_of_push_if in H as [H|[_ H]]; [|discriminate H].
  apply elem_of_push_if in H as [H|[_ H]]; [|discriminate H].
  apply elem_of_push_if in H as [H|[_ H]]; [|discriminate H].
  apply list_elem_of_singleton in H. unfold Advisor.usageRecommendation in H.
  destruct (_ >? _)%num; discriminate H.
Qed.

(** C1 (as amended): generateRecommendations never rejects and returns at
    least one recommendation, whatever the tables and the weather service
    do.  When the read of the usage table or of the bills table throws, the
    error is caught and the result is the single low-priority 'usage'
    onboarding recommendation.  When both tables are readable the result is
    the regular list, which has no onboarding recommendation, also when the
    weather request throws: that error is caught inside
    getRegionalWaterContext, which answers with its fallback reading. *)
Theorem generateRecommendations_always_answers (env : Env N) :
  ∃ recs,
    Advisor.generateRecommendations env = Ok recs
    ∧ (1 ≤ length recs)%nat
    ∧ (throws (usageTable env) ∨ throws (billsTable env) →
        recs = [Advisor.startTracking]
        ∧ Advisor.type (Advisor.startTracking (N:=N)) = Advisor.usage
        ∧ Advisor.priority (Advisor.startTracking (N:=N)) = Advisor.low)
    ∧ ((∃ us, usageTable env = Ok us) → (∃ bs, billsTable env = Ok bs) →
        Advisor.startTracking ∉ recs
        ∧ ∃ ua ba ctx,
            Advisor.getUserUsageAnalysis env = Ok ua
            ∧ Advisor.getBillsAnalysis env = Ok ba
            ∧ Advisor.getRegionalWaterContext env = Ok ctx
            ∧ recs = normalRecommendations ua ba ctx
            ∧ ((∃ l, getLocation env = Ok l
                  ∧ throws (getCurrentWeather env (lat l) (lon l))) →
                ctx = regionalFallback)).
Proof.
  destruct (usageTable env) as [us|e] eqn:Hus;
    [destruct (billsTable env) as [bs|e] eqn:Hbs|].
  - destruct (getUserUsageAnalysis_Ok env us Hus) as [ua Hua].
    destruct (getBillsAnalysis_Ok env bs Hbs) as [ba Hba].
    destruct (getRegionalWaterContext_never_throws env) as [ctx Hctx].
    exists (normalRecommendations ua ba ctx).
    split; [by apply generateRecommendations_Ok|]. split; [|split].
    + destruct (normalRecommendations_head ua ba ctx) as [rest ->]. simpl. lia.
    + intros [[e [=]]|[e [=]]].
    + intros _ _. split; [apply startTracking_not_normal|].
      exists ua, ba, ctx. repeat (split; [done|]).
      intros Hdown. rewrite getRegionalWaterContext_failure in Hctx by (by right).
      congruence.
  - exists [Advisor.startTracking]. split.
    { apply generateRecommendations_catch. right.
      exists e. by apply getBillsAnalysis_Throw. }
    split; [simpl; lia|]. split; [done|]. by intros _ [bs' [=]].
  - exists [Advisor.startTracking]. split.
    { apply generateRecommendations_catch. left.
      exists e. by apply getUserUsageAnalysis_Throw. }
    split; [simpl; lia|]. split; [done|]. by intros [us' [=]].
Qed.

Lemma generateRecommendations_withWeather (env : Env N) (w : OpenMeteo.WeatherData N) :
  (throws (getLocation env)
   ∨ (∃ l, getLocation env = Ok l ∧ throws (getCurrentWeather env (lat l) (lon l)))) →
  OpenMeteo.precipitation w = zero →
  Advisor.generateRecommendations (withWeather env (Ok w))
  = Advisor.generateRecommendations env.
Proof.
  intros Hdown Hzero.
  assert (Advisor.getUserUsageAnalysis (withWeather env (Ok w))
          = Advisor.getUserUsageAnalysis env) as Hua by reflexivity.
  assert (Advisor.getBillsAnalysis (withWeather env (Ok w))
          = Advisor.getBillsAnalysis env) as Hba by reflexivity.
  destruct (getLocation_never_throws env) as [l Hl].
  assert (getLocation (withWeather env (Ok w)) = Ok l) as Hl' by exact Hl.
  pose proof (getRegionalWaterContext_Ok (withWeather env (Ok w)) l w Hl' eq_refl) as Hctx'.
  pose proof (getRegionalWaterContext_failure env Hdown) as Hctx.
  unfold Advisor.generateRecommendations, Advisor.tryBlock.
  rewrite Hua, Hba, Hctx, Hctx'.
  destruct (Advisor.getUserUsageAnalysis env) as [ua|e]; [|done].
  destruct (Advisor.getBillsAnalysis env) as [ba|e]; [|done].
  unfold Advisor.regionalRecommendation. cbn [Advisor.precipitation].
  by rewrite Hzero.
Qed.

End AdvisorFacts.

(** The statement C1 fails when only the weather request throws: the
    result is the regular list, not the onboarding recommendation. *)
Lemma weather_failure_is_not_onboarding :
  throws (getCurrentWeather (envWeatherDown (N:=float))
            (lat defaultLocation) (lon defaultLocation))
  ∧ getLocation (envWeatherDown (N:=float)) = Ok defaultLocation
  ∧ Advisor.generateRecommendations (envWeatherDown (N:=float))
    ≠ Ok [Advisor.startTracking]
  ∧ ∃ first second,
      Advisor.generateRecommendations (envWeatherDown (N:=float)) = Ok [first; second]
      ∧ Advisor.title first = "Excellent Water Conservation!"
      ∧ Advisor.title second = "Low Rainfall in Your Area".
Proof.
  split; [by eexists|]. split; [reflexivity|]. split.
  - vm_compute. discriminate.
  - eexists _, _. split; [vm_compute; reflexivity|]. split; reflexivity.
Qed.

(** C4 (as amended): when the average cost per liter is 0.02, the 30-day
    average is not above 100 L, the trend is not increasing and the
    precipitation is not below 1 mm, generateRecommendations returns
    exactly two recommendations: the low-priority 'usage' recommendation
    "Excellent Water Conservation!", which is pushed whenever the average
    is within the target, and then the 'bill' cost recommendation with
    potentialSavings = 20. *)
Theorem generateRecommendations_cost_trigger (env : Env float) (ua : Advisor.UsageAnalysis float)
    (ba : Advisor.BillsAnalysis float) (ctx : Advisor.RegionalContext float) :
  Advisor.getUserUsageAnalysis env = Ok ua →
  Advisor.getBillsAnalysis env = Ok ba →
  Advisor.getRegionalWaterContext env = Ok ctx →
  Advisor.averageCostPerLiter ba = dec 2 100 →
  (Advisor.avgDailyUsage ua >? Advisor.RECOMMENDED_DAILY_USAGE)%num = false →
  Advisor.trend ua ≠ Advisor.increasing →
  (Advisor.precipitation ctx <? int 1)%num = false →
  Advisor.generateRecommendations env
  = Ok [Advisor.usageRecommendation ua; costAtTwoCents]
  ∧ Advisor.type (Advisor.usageRecommendation ua) = Advisor.usage
  ∧ Advisor.priority (Advisor.usageRecommendation ua) = Advisor.low
  ∧ Advisor.title (Advisor.usageRecommendation ua) = "Excellent Water Conservation!"
  ∧ Advisor.potentialSavings (Advisor.usageRecommendation ua) = None
  ∧ Advisor.type (costAtTwoCents (N:=float)) = Advisor.bill
  ∧ Advisor.potentialSavings (costAtTwoCents (N:=float)) = Some (int 20).
Proof.
  intros Hua Hba Hctx Hcost Havg Htrend Hrain. split.
  - rewrite (generateRecommendations_Ok env ua ba ctx) by done.
    unfold normalRecommendations. rewrite Hrain, bool_decide_eq_false_2 by done.
    assert (Advisor.costRecommendation ba = costAtTwoCents) as Hc.
    { unfold Advisor.costRecommendation. rewrite Hcost. vm_compute. reflexivity. }
    rewrite Hcost, Hc. reflexivity.
  - unfold Advisor.usageRecommendation. rewrite Havg. repeat split.
Qed.

Lemma generateRecommendations_cost_trigger_witness :
  (Advisor.getUserUsageAnalysis envTwoCents = Ok (analysisOfNothing (N:=float))
   ∧ Advisor.getBillsAnalysis envTwoCents = Ok (billsAtTwoCents (N:=float))
   ∧ Advisor.getRegionalWaterContext envTwoCents = Ok (contextOfRain (N:=float))
   ∧ Advisor.averageCostPerLiter (billsAtTwoCents (N:=float)) = dec 2 100
   ∧ (Advisor.avgDailyUsage (analysisOfNothing (N:=float))
      >? Advisor.RECOMMENDED_DAILY_USAGE)%num = false
   ∧ Advisor.trend (analysisOfNothing (N:=float)) ≠ Advisor.increasing
   ∧ (Advisor.precipitation (contextOfRain (N:=float)) <? int 1)%num = false)
  ∧ Advisor.generateRecommendations (envTwoCents (N:=float))
    = Ok [Advisor.usageRecommendation analysisOfNothing; costAtTwoCents]
  ∧ Advisor.type (Advisor.usageRecommendation (analysisOfNothing (N:=float)))
    = Advisor.usage
  ∧ Advisor.priority (Advisor.usageRecommendation (analysisOfNothing (N:=float)))
    = Advisor.low
  ∧ Advisor.title (Advisor.usageRecommendation (analysisOfNothing (N:=float)))
    = "Excellent Water Conservation!"
  ∧ Advisor.potentialSavings (Advisor.usageRecommendation (analysisOfNothing (N:=float)))
    = None
  ∧ Advisor.type (costAtTwoCents (N:=float)) = Advisor.bill
  ∧ Advisor.potentialSavings (costAtTwoCents (N:=float)) = Some (int 20).
Proof.
  assert (Advisor.getUserUsageAnalysis envTwoCents = Ok (analysisOfNothing (N:=float)))
    as Hua by (vm_compute; reflexivity).
  assert (Advisor.getBillsAnalysis envTwoCents = Ok (billsAtTwoCents (N:=float)))
    as Hba by (vm_compute; reflexivity).
  assert (Advisor.getRegionalWaterContext envTwoCents = Ok (contextOfRain (N:=float)))
    as Hctx by (vm_compute; reflexivity).
  assert (Advisor.averageCostPerLiter (billsAtTwoCents (N:=float)) = dec 2 100)
    as Hcost by reflexivity.
  assert ((Advisor.avgDailyUsage (analysisOfNothing (N:=float))
           >? Advisor.RECOMMENDED_DAILY_USAGE)%num = false)
    as Havg by (vm_compute; reflexivity).
  assert (Advisor.trend (analysisOfNothing (N:=float)) ≠ Advisor.increasing) as Htrend
    by discriminate.
  assert ((Advisor.precipitation (contextOfRain (N:=float)) <? int 1)%num = false)
    as Hrain by (vm_compute; reflexivity).
  split; [done|].
  exact (generateRecommendations_cost_trigger envTwoCents analysisOfNothing
           billsAtTwoCents contextOfRain Hua Hba Hctx Hcost Havg Htrend Hrain).
Defined.

(** The statement C4 fails: with 0.02 per liter and no other trigger the
    result has two recommendations, not one. *)
Lemma cost_trigger_returns_two :
  Advisor.getBillsAnalysis envTwoCents = Ok (billsAtTwoCents (N:=float))
  ∧ Advisor.averageCostPerLiter (billsAtTwoCents (N:=float)) = dec 2 100
  ∧ Advisor.getUserUsageAnalysis envTwoCents = Ok (analysisOfNothing (N:=float))
  ∧ Advisor.avgDailyUsage (analysisOfNothing (N:=float)) = zero
  ∧ Advisor.trend (analysisOfNothing (N:=float)) = Advisor.stable
  ∧ Advisor.getRegionalWaterContext envTwoCents = Ok (contextOfRain (N:=float))
  ∧ Advisor.precipitation (contextOfRain (N:=float)) = int 5
  ∧ ∃ recs, Advisor.generateRecommendations (envTwoCents (N:=float)) = Ok recs
      ∧ length recs = 2%nat
      ∧ recs ≠ [costAtTwoCents].
Proof.
  split; [vm_compute; reflexivity|]. split; [reflexivity|].
  split; [vm_compute; reflexivity|]. split; [reflexivity|]. split; [reflexivity|].
  split; [vm_compute; reflexivity|]. split; [reflexivity|].
  exists [Advisor.usageRecommendation analysisOfNothing; costAtTwoCents].
  split; [vm_compute; reflexivity|]. split; [reflexivity|]. discriminate.
Qed.

(** In doubles the fallback reading is below the threshold, and its
    recommendation reports 0.0mm. *)
Lemma regionalFallback_is_dry :
  (Advisor.precipitation (regionalFallback (N:=float)) <? int 1)%num = true
  ∧ Advisor.regionalRecommendation (regionalFallback (N:=float)) = lowRainfallAtZero.
Proof. split; vm_compute; reflexivity. Qed.

(** C10 (as amended): when the weather request made by
    getRegionalWaterContext throws, it answers with a reading of zeros;
    0 mm being below the threshold of 1 mm, generateRecommendations, the
    usage and bill reads succeeding, then contains the high-priority
    'regional' recommendation "Low Rainfall in Your Area" reporting 0.0mm,
    and its whole result is the one it gives for a weather service that
    reports a precipitation of 0.  A location request that fails does not
    have this effect: getLocation then answers with the default location,
    and the weather of the place that getLocation names is asked for and,
    when the request succeeds, reported. *)
Theorem weather_failure_reads_as_drought (env : Env float) (l : LocationData float) :
  getLocation env = Ok l →
  (throws (getCurrentWeather env (lat l) (lon l)) →
    Advisor.getRegionalWaterContext env = Ok regionalFallback
    ∧ Advisor.precipitation (regionalFallback (N:=float)) = zero
    ∧ (∀ ua ba,
        Advisor.getUserUsageAnalysis env = Ok ua → Advisor.getBillsAnalysis env = Ok ba →
        ∃ recs, Advisor.generateRecommendations env = Ok recs ∧ lowRainfallAtZero ∈ recs)
    ∧ (∀ w, OpenMeteo.precipitation w = zero →
        Advisor.generateRecommendations (withWeather env (Ok w))
        = Advisor.generateRecommendations env))
  ∧ (savedLocation env = None → throws (ipLocation env) → l = defaultLocation)
  ∧ (∀ w, getCurrentWeather env (lat l) (lon l) = Ok w →
      Advisor.getRegionalWaterContext env
      = Ok {| Advisor.temperature := OpenMeteo.temperature w;
              Advisor.humidity := OpenMeteo.humidity w;
              Advisor.precipitation := OpenMeteo.precipitation w;
              Advisor.recommendation := Advisor.weatherAdvice w |}).
Proof.
  intros Hl. split; [|split].
  - intros Hweather.
    assert (throws (getLocation env)
            ∨ (∃ l, getLocation env = Ok l
                 ∧ throws (getCurrentWeather env (lat l) (lon l)))) as Hdown
      by (right; eauto).
    pose proof (getRegionalWaterContext_failure env Hdown) as Hctx.
    split; [done|]. split; [done|]. split.
    + intros ua ba Hua Hba. eexists. split.
      * by apply generateRecommendations_Ok.
      * unfold normalRecommendations.
        destruct regionalFallback_is_dry as [-> ->].
        apply elem_of_push_if_further, elem_of_push_if_true.
    + intros w Hw. by apply generateRecommendations_withWeather.
  - intros Hsaved [e Hip]. revert Hl.
    unfold getLocation, getSavedLocation, getLocationFromIP.
    rewrite Hsaved, Hip. by intros [= <-].
  - intros w Hw. by apply (getRegionalWaterContext_Ok env l w).
Qed.

Lemma weather_failure_reads_as_drought_witness :
  getLocation (envDryOrDown (N:=float)) = Ok defaultLocation
  ∧ throws (getCurrentWeather (envDryOrDown (N:=float))
              (lat defaultLocation) (lon defaultLocation))
  ∧ Advisor.getRegionalWaterContext (envDryOrDown (N:=float)) = Ok regionalFallback
  ∧ Advisor.precipitation (regionalFallback (N:=float)) = zero
  ∧ (∀ ua ba,
      Advisor.getUserUsageAnalysis (envDryOrDown (N:=float)) = Ok ua →
      Advisor.getBillsAnalysis (envDryOrDown (N:=float)) = Ok ba →
      ∃ recs, Advisor.generateRecommendations (envDryOrDown (N:=float)) = Ok recs
        ∧ lowRainfallAtZero ∈ recs)
  ∧ (∀ w, OpenMeteo.precipitation w = zero →
      Advisor.generateRecommendations (withWeather (envDryOrDown (N:=float)) (Ok w))
      = Advisor.generateRecommendations (envDryOrDown (N:=float))).
Proof.
  assert (throws (getCurrentWeather (envDryOrDown (N:=float))
                    (lat defaultLocation) (lon defaultLocation))) as Hdown
    by (by eexists).
  split; [reflexivity|]. split; [exact Hdown|].
  exact (proj1 (weather_failure_reads_as_drought (envDryOrDown (N:=float)) defaultLocation
                  eq_refl) Hdown).
Defined.

(** The statement C10 fails for the location: when the location request
    fails (and no location is saved), getLocation answers with the default
    location, the weather of that place is fetched, and
    getRegionalWaterContext returns that reading, here 5 mm, not the
    reading of zeros; no 'regional' recommendation is made. *)
Lemma location_failure_is_not_drought :
  savedLocation (envJanuary (N:=float)) = None
  ∧ throws (ipLocation (envJanuary (N:=float)))
  ∧ throws (getLocationFromIP (envJanuary (N:=float)))
  ∧ getLocation (envJanuary (N:=float)) = Ok defaultLocation
  ∧ Advisor.getRegionalWaterContext (envJanuary (N:=float)) = Ok contextOfRain
  ∧ Advisor.getRegionalWaterContext (envJanuary (N:=float)) ≠ Ok regionalFallback
  ∧ Advisor.precipitation (contextOfRain (N:=float)) = int 5
  ∧ (∃ ua, Advisor.getUserUsageAnalysis (envJanuary (N:=float)) = Ok ua)
  ∧ (∃ ba, Advisor.getBillsAnalysis (envJanuary (N:=float)) = Ok ba)
  ∧ ∃ recs,
      Advisor.generateRecommendations (envJanuary (N:=float)) = Ok recs
      ∧ lowRainfallAtZero ∉ recs
      ∧ Advisor.type <$> recs = [Advisor.usage; Advisor.bill].
Proof.
  split; [reflexivity|]. split; [by eexists|]. split; [by eexists|].
  split; [reflexivity|]. split; [vm_compute; reflexivity|].
  split; [vm_compute; discriminate|]. split; [reflexivity|].
  split; [eexists; vm_compute; reflexivity|].
  split; [eexists; vm_compute; reflexivity|].
  eexists. split; [vm_compute; reflexivity|]. split; [|reflexivity].
  intros Hin. repeat (apply elem_of_cons in Hin as [Hin|Hin]; [discriminate Hin|]).
  by apply elem_of_nil in Hin.
Qed.

(** With the weather service down and with a service that reports 0 mm
    the recommendations are the same two. *)
Example drought_or_down :
  Advisor.title <$>
    (match Advisor.generateRecommendations (envDryOrDown (N:=float)) with
     | Ok recs => recs
     | Throw _ => []
     end)
  = ["Reduce Daily Water Usage"; "Low Rainfall in Your Area"]
  ∧ Advisor.generateRecommendations (withWeather (envDryOrDown (N:=float)) (Ok (rainy 0)))
    = Advisor.generateRecommendations (envDryOrDown (N:=float)).
Proof.
  split; [vm_compute; reflexivity|].
  vm_compute. reflexivity.
Qed.

(** ** The entries of the monthly trends *)

Lemma reduce_sum_snoc {N A} `{Number N} (f : A → N) (l : list A) (x : A) :
  reduce_sum f (l ++ [x]) = (reduce_sum f l + f x)%num.
Proof. unfold reduce_sum. by rewrite foldl_app. Qed.

Section MonthFacts.
Context {N : Type} {number : Number N}.
Variable newDate : string → JSDate.

Lemma addUsage_lookup (m : gmap string (Analytics.MonthData N)) (u : Usage N) (k : string) :
  Analytics.addUsage newDate m u !! k
  = if decide (usageKey newDate u = k)
    then Some (withEvent (default emptyMonth (m !! k)) u)
    else m !! k.
Proof.
  unfold Analytics.addUsage, Analytics.ensureMonth. fold (usageKey newDate u).
  set (key := usageKey newDate u). destruct (decide (key = k)) as [<-|Hne].
  - destruct (m !! key) as [d|] eqn:Hd.
    + by rewrite lookup_alter_eq, Hd.
    + by rewrite lookup_alter_eq, lookup_insert_eq.
  - rewrite lookup_alter_ne by done.
    destruct (m !! key); [done|]. by rewrite lookup_insert_ne.
Qed.

Lemma addBill_lookup (m : gmap string (Analytics.MonthData N)) (b : Bill N) (k : string) :
  Analytics.addBill newDate m b !! k
  = if decide (billKey newDate b = k)
    then Some (withBill (default emptyMonth (m !! k)) b)
    else m !! k.
Proof.
  unfold Analytics.addBill, Analytics.ensureMonth. fold (billKey newDate b).
  set (key := billKey newDate b). destruct (decide (key = k)) as [<-|Hne].
  - destruct (m !! key) as [d|] eqn:Hd.
    + by rewrite lookup_alter_eq, Hd.
    + by rewrite lookup_alter_eq, lookup_insert_eq.
  - rewrite lookup_alter_ne by done.
    destruct (m !! key); [done|]. by rewrite lookup_insert_ne.
Qed.

Lemma foldl_addUsage_lookup (us : list (Usage N)) (m : gmap string (Analytics.MonthData N))
    (k : string) :
  foldl (Analytics.addUsage newDate) m us !! k
  = match usageOfMonth newDate k us with
    | [] => m !! k
    | evs => Some (foldl withEvent (default emptyMonth (m !! k)) evs)
    end.
Proof.
  revert m. induction us as [|u us IH]; intros m; [done|].
  cbn [foldl]. rewrite IH, addUsage_lookup. unfold usageOfMonth.
  rewrite filter_cons. destruct (decide (usageKey newDate u = k)) as [Hk|Hk].
  - cbn [default foldl]. by destruct (filter _ us).
  - done.
Qed.

Lemma foldl_addBill_lookup (bs : list (Bill N)) (m : gmap string (Analytics.MonthData N))
    (k : string) :
  foldl (Analytics.addBill newDate) m bs !! k
  = match billsOfMonth newDate k bs with
    | [] => m !! k
    | bk => Some (foldl withBill (default emptyMonth (m !! k)) bk)
    end.
Proof.
  revert m. induction bs as [|b bs IH]; intros m; [done|].
  cbn [foldl]. rewrite IH, addBill_lookup. unfold billsOfMonth.
  rewrite filter_cons. destruct (decide (billKey newDate b = k)) as [Hk|Hk].
  - cbn [default foldl]. by destruct (filter _ bs).
  - done.
Qed.

Lemma foldl_withEvent (evs : list (Usage N)) (d : Analytics.MonthData N) :
  Analytics.usage (foldl withEvent d evs)
  = foldl (λ sum u, sum + liters u)%num (Analytics.usage d) evs
  ∧ Analytics.cost (foldl withEvent d evs) = Analytics.cost d
  ∧ Analytics.days (foldl withEvent d evs)
    = list_to_set (usage_date <$> evs) ∪ Analytics.days d.
Proof.
  revert d. induction evs as [|u evs IH]; intros d.
  - cbn. split; [done|]. split; [done|]. set_solver.
  - cbn [foldl]. destruct (IH (withEvent d u)) as (-> & -> & ->).
    cbn. split; [done|]. split; [done|]. set_solver.
Qed.

Lemma foldl_withBill (bk : list (Bill N)) (d : Analytics.MonthData N) :
  Analytics.usage (foldl withBill d bk) = Analytics.usage d
  ∧ Analytics.cost (foldl withBill d bk)
    = foldl (λ sum b, sum + amount b)%num (Analytics.cost d) bk
  ∧ Analytics.days (foldl withBill d bk) = Analytics.days d.
Proof.
  revert d. induction bk as [|b bk IH]; intros d; [done|].
  cbn [foldl]. by destruct (IH (withBill d b)) as (-> & -> & ->).
Qed.

(** What [monthMap] holds under a key it has. *)
Lemma buildMonthMap_lookup (us : list (Usage N)) (bs : list (Bill N)) (k : string)
    (data : Analytics.MonthData N) :
  Analytics.buildMonthMap newDate us bs !! k = Some data →
  Analytics.usage data = litersOf (usageOfMonth newDate k us)
  ∧ Analytics.cost data = reduce_sum amount (billsOfMonth newDate k bs)
  ∧ size (Analytics.days data)
    = distinct_count (usage_date <$> usageOfMonth newDate k us).
Proof.
  unfold Analytics.buildMonthMap. rewrite foldl_addBill_lookup, foldl_addUsage_lookup.
  rewrite lookup_empty. cbn [default]. rewrite <-reduce_sum_liters.
  unfold reduce_sum, distinct_count.
  intros Hdata.
  assert (data = foldl withBill (foldl withEvent emptyMonth (usageOfMonth newDate k us))
                   (billsOfMonth newDate k bs)) as ->.
  { destruct (billsOfMonth newDate k bs) as [|b bk];
      destruct (usageOfMonth newDate k us) as [|u evs]; by simplify_eq/=. }
  destruct (foldl_withBill (billsOfMonth newDate k bs)
              (foldl withEvent emptyMonth (usageOfMonth newDate k us))) as (-> & -> & ->).
  destruct (foldl_withEvent (usageOfMonth newDate k us) emptyMonth) as (-> & -> & ->).
  cbn. split; [done|]. split; [done|]. f_equal. set_solver.
Qed.

Lemma forEach_pushTrend_values (m : gmap string (Analytics.MonthData N)) (keys : list string)
    (f : string → Analytics.MonthlyTrend N) (trends : list (Analytics.MonthlyTrend N)) :
  (∀ k, k ∈ keys → Analytics.pushTrend m [] k = Ok [f k]) →
  forEachM (Analytics.pushTrend m) keys trends = Ok (trends ++ (f <$> keys)).
Proof.
  revert trends. induction keys as [|k keys IH]; intros trends Hkeys.
  - cbn. by rewrite app_nil_r.
  - cbn [forEachM].
    assert (Analytics.pushTrend m trends k = Ok (trends ++ [f k])) as ->.
    { specialize (Hkeys k (list_elem_of_here _ _)). unfold Analytics.pushTrend in *.
      destruct (m !! k) as [data|]; [|discriminate Hkeys].
      cbn in Hkeys. injection Hkeys as <-. done. }
    rewrite bind_Ok, IH by (intros; by apply Hkeys, list_elem_of_further).
    by rewrite <- app_assoc.
Qed.

Lemma pushTrend_monthTrend (us : list (Usage N)) (bs : list (Bill N)) (k : string) :
  k ∈ dom (Analytics.buildMonthMap newDate us bs) →
  Analytics.pushTrend (Analytics.buildMonthMap newDate us bs) [] k
  = Ok [monthTrend newDate us bs k].
Proof.
  intros [data Hdata]%elem_of_dom. unfold Analytics.pushTrend. rewrite Hdata.
  destruct (buildMonthMap_lookup us bs k data Hdata) as (Hu & Hc & Hd).
  cbn. unfold monthTrend. by rewrite Hu, Hc, Hd.
Qed.
End MonthFacts.

Section MonthTheorems.
Context {N : Type} {number : Number N}.
Variable newDate : string → JSDate.

Lemma elem_of_sortedMonths (m : gmap string (Analytics.MonthData N)) (months : Z) (k : string) :
  k ∈ Analytics.sortedMonths m months → k ∈ dom m.
Proof.
  unfold Analytics.sortedMonths, slice_from. intros Hk%elem_of_drop_1.
  by apply elem_of_sort_by, elem_of_keys in Hk.
Qed.

Lemma calculateMonthlyTrends_values (env : Env N) (us : list (Usage N)) (bs : list (Bill N))
    (months : Z) :
  usageTable env = Ok us → billsTable env = Ok bs →
  Analytics.calculateMonthlyTrends newDate env months
  = Ok (monthTrend newDate us bs
          <$> Analytics.sortedMonths (Analytics.buildMonthMap newDate us bs) months).
Proof.
  intros Hus Hbs. unfold Analytics.calculateMonthlyTrends, getAllUsage, getAllBills.
  rewrite Hus, Hbs, !bind_Ok.
  rewrite (forEach_pushTrend_values _ _ (monthTrend newDate us bs)); [done|].
  intros k Hk. apply pushTrend_monthTrend. by eapply elem_of_sortedMonths.
Qed.

(** X1: Each entry of calculateMonthlyTrends stands for a month that has a
    usage event or a bill, and carries the liters of the events of that
    month, the amounts of its bills, and the liters divided by the number of
    distinct dates with an event ([days.size || 1]). *)
Theorem calculateMonthlyTrends_month_totals (env : Env N) (us : list (Usage N))
    (bs : list (Bill N)) (months : Z) :
  usageTable env = Ok us → billsTable env = Ok bs →
  ∃ trends,
    Analytics.calculateMonthlyTrends newDate env months = Ok trends
    ∧ ∀ t, t ∈ trends →
        let evs := usageOfMonth newDate (Analytics.month t) us in
        Analytics.month t ∈ activeMonths newDate us bs
        ∧ Analytics.totalUsage t = litersOf evs
        ∧ Analytics.totalCost t
          = reduce_sum amount (billsOfMonth newDate (Analytics.month t) bs)
        ∧ Analytics.averageDaily t
          = (litersOf evs
             / or_else (of_nat (distinct (usage_date <$> evs))) (int 1))%num.
Proof.
  intros Hus Hbs. eexists. split; [by apply calculateMonthlyTrends_values|].
  intros t [k [-> Hk]]%list_elem_of_fmap. cbn.
  rewrite <- distinct_count_remove_dups. split; [|done].
  by apply elem_of_sortedMonths, elem_of_dom_buildMonthMap in Hk.
Qed.

(** X2: The argument [months] of calculateMonthlyTrends: a positive [months]
    keeps the last [months] of the ascending list of the months that have a
    usage event or a bill; 0 keeps them all ([slice(-0)] is [slice(0)]); a
    negative one drops the first [-months] of them. *)
Theorem calculateMonthlyTrends_window (env : Env N) (us : list (Usage N))
    (bs : list (Bill N)) (months : Z) :
  usageTable env = Ok us → billsTable env = Ok bs →
  ∃ trends all,
    Analytics.calculateMonthlyTrends newDate env months = Ok trends
    ∧ ascending all
    ∧ (∀ k, k ∈ all ↔ k ∈ activeMonths newDate us bs)
    ∧ (0 < months →
        Analytics.month <$> trends = drop (length all - Z.to_nat months) all
        ∧ (length trends ≤ Z.to_nat months)%nat)
    ∧ (months = 0 → Analytics.month <$> trends = all)
    ∧ (months < 0 → Analytics.month <$> trends = drop (Z.to_nat (- months)) all).
Proof.
  intros Hus Hbs.
  destruct (sorted_keys (Analytics.buildMonthMap newDate us bs)) as [Hasc Hkeys].
  eexists. eexists. split; [by apply calculateMonthlyTrends_values|].
  split; [exact Hasc|]. split.
  { intros k. by rewrite Hkeys, elem_of_dom_buildMonthMap. }
  assert (∀ keys : list string,
    Analytics.month <$> (monthTrend newDate us bs <$> keys) = keys) as Hmonth.
  { intros keys. rewrite <- list_fmap_compose. apply list_fmap_id. }
  rewrite Hmonth. unfold Analytics.sortedMonths. split; [|split].
  - intros Hpos. rewrite slice_from_last by done. split; [done|].
    rewrite length_fmap, length_drop. lia.
  - intros ->. unfold slice_from. cbn [Z.opp].
    rewrite bool_decide_eq_false_2 by lia.
    replace (Z.to_nat _) with 0%nat by lia. done.
  - intros Hneg. unfold slice_from. rewrite bool_decide_eq_false_2 by lia.
    set (l := sort_by _ _).
    destruct (decide (- months ≤ Z.of_nat (length l))) as [Hle|Hgt].
    + by rewrite Z.min_l.
    + rewrite Z.min_r by lia. rewrite Nat2Z.id.
      rewrite !drop_ge; [done|lia|lia].
Qed.
End MonthTheorems.

(** X3: In doubles: a month that has bills but no usage event is reported with
    0 liters and a daily average of 0 (0 over 1), not with [NaN]. *)
Theorem calculateMonthlyTrends_month_of_bills_only (newDate : string → JSDate)
    (env : Env float) (us : list (Usage float)) (bs : list (Bill float)) (months : Z)
    (k : string) :
  usageTable env = Ok us → billsTable env = Ok bs →
  usageOfMonth newDate k us = [] →
  ∃ trends,
    Analytics.calculateMonthlyTrends newDate env months = Ok trends
    ∧ ∀ t, t ∈ trends → Analytics.month t = k →
        Analytics.totalUsage t = 0%float
        ∧ Analytics.averageDaily t = 0%float
        ∧ Analytics.totalCost t = reduce_sum amount (billsOfMonth newDate k bs).
Proof.
  intros Hus Hbs Hnone. eexists. split; [by apply calculateMonthlyTrends_values|].
  intros t [k' [-> Hk]]%list_elem_of_fmap. cbn. intros ->. by rewrite Hnone.
Qed.

Lemma calculateMonthlyTrends_month_totals_witness :
  (usageTable envSpring = Ok (springUsage (N:=float))
   ∧ billsTable envSpring = Ok (springBills (N:=float)))
  ∧ ∃ trends,
      Analytics.calculateMonthlyTrends utcDate (envSpring (N:=float)) 6 = Ok trends
      ∧ ∀ t, t ∈ trends →
          let evs := usageOfMonth utcDate (Analytics.month t) springUsage in
          Analytics.month t ∈ activeMonths utcDate springUsage (springBills (N:=float))
          ∧ Analytics.totalUsage t = litersOf evs
          ∧ Analytics.totalCost t
            = reduce_sum amount (billsOfMonth utcDate (Analytics.month t) springBills)
          ∧ Analytics.averageDaily t
            = (litersOf evs
               / or_else (of_nat (distinct (usage_date <$> evs))) (int 1))%num.
Proof.
  split; [split; reflexivity|].
  apply (calculateMonthlyTrends_month_totals utcDate envSpring springUsage springBills 6);
    reflexivity.
Defined.

Lemma calculateMonthlyTrends_window_witness :
  (usageTable envSpring = Ok (springUsage (N:=float))
   ∧ billsTable envSpring = Ok (springBills (N:=float)))
  ∧ ∃ trends all,
      Analytics.calculateMonthlyTrends utcDate (envSpring (N:=float)) 0 = Ok trends
      ∧ ascending all
      ∧ (∀ k, k ∈ all ↔ k ∈ activeMonths utcDate springUsage (springBills (N:=float)))
      ∧ (0 < 0 →
          Analytics.month <$> trends = drop (length all - Z.to_nat 0) all
          ∧ (length trends ≤ Z.to_nat 0)%nat)
      ∧ (0 = 0 → Analytics.month <$> trends = all)
      ∧ (0 < 0 → Analytics.month <$> trends = drop (Z.to_nat (- 0)) all).
Proof.
  split; [split; reflexivity|].
  apply (calculateMonthlyTrends_window utcDate envSpring springUsage springBills 0);
    reflexivity.
Defined.

Lemma calculateMonthlyTrends_month_of_bills_only_witness :
  (usageTable envSpring = Ok (springUsage (N:=float))
   ∧ billsTable envSpring = Ok (springBills (N:=float))
   ∧ usageOfMonth utcDate "2024-02" (springUsage (N:=float)) = [])
  ∧ ∃ trends,
      Analytics.calculateMonthlyTrends utcDate (envSpring (N:=float)) 6 = Ok trends
      ∧ ∀ t, t ∈ trends → Analytics.month t = "2024-02" →
          Analytics.totalUsage t = 0%float
          ∧ Analytics.averageDaily t = 0%float
          ∧ Analytics.totalCost t
            = reduce_sum amount (billsOfMonth utcDate "2024-02" springBills).
Proof.
  split; [split; [|split]; reflexivity|].
  apply (calculateMonthlyTrends_month_of_bills_only utcDate envSpring springUsage
           springBills 6 "2024-02"); reflexivity.
Defined.

(** The two months of [envSpring], with every month asked for and with one. *)
Example spring_trends :
  Analytics.calculateMonthlyTrends utcDate (envSpring (N:=float)) 0
  = Ok [{| Analytics.month := "2024-02"; Analytics.totalUsage := 0%float;
           Analytics.totalCost := 12%float; Analytics.averageDaily := 0%float |};
        {| Analytics.month := "2024-03"; Analytics.totalUsage := 180%float;
           Analytics.totalCost := 8%float; Analytics.averageDaily := 90%float |}]
  ∧ Analytics.month <$>
      (match Analytics.calculateMonthlyTrends utcDate (envSpring (N:=float)) 1 with
       | Ok trends => trends
       | Throw _ => []
       end) = ["2024-03"].
Proof. split; vm_compute; reflexivity. Qed.

(** ** Dates the runtime cannot read *)

Lemma pretty_N_char_below_N (x : N) : Ascii.compare (pretty_N_char x) "N" = Lt.
Proof. unfold pretty_N_char. by repeat case_match. Qed.

Lemma pretty_N_go_head (x : N) (s : string) :
  (0 < x)%N →
  ∃ c t, pretty_N_go x s = String c t ∧ Ascii.compare c "N" = Lt.
Proof.
  revert s. induction (N.lt_wf_0 x) as [x _ IH]; intros s Hx.
  rewrite pretty_N_go_step by done.
  destruct (decide (x `div` 10 = 0)%N) as [->|Hdiv].
  - rewrite pretty_N_go_0. eauto using pretty_N_char_below_N.
  - apply IH; [apply N.div_lt; lia|by apply N.neq_0_lt_0].
Qed.

(** A year, negative or not, is written with a first character below [N]. *)
Lemma pretty_Z_head (z : Z) :
  ∃ c t, pretty z = String c t ∧ Ascii.compare c "N" = Lt.
Proof.
  destruct z as [|p|p].
  - by exists "0"%char, EmptyString.
  - unfold pretty, pretty_Z, pretty, pretty_positive, pretty, pretty_N.
    destruct (decide (N.pos p = 0%N)); [done|]. by apply pretty_N_go_head.
  - by exists "-"%char, (pretty p).
Qed.

Lemma monthKeyOf_None : Analytics.monthKeyOf None = invalidMonthKey.
Proof. reflexivity. Qed.

Lemma monthKeyOf_Some_ltb (d : DateFields) :
  String.ltb (Analytics.monthKeyOf (Some d)) invalidMonthKey = true.
Proof.
  unfold Analytics.monthKeyOf, getFullYear, intToString. cbn [fmap option_fmap option_map].
  destruct (pretty_Z_head (fullYear d)) as (c & t & -> & Hc).
  unfold String.ltb, invalidMonthKey. rewrite append_String, compare_String. by rewrite Hc.
Qed.

Lemma string_ltb_irrefl (s : string) : String.ltb s s = false.
Proof. unfold String.ltb. by rewrite string_compare_refl. Qed.

Lemma monthKeyOf_invalid (date : JSDate) :
  Analytics.monthKeyOf date = invalidMonthKey ↔ date = None.
Proof.
  destruct date as [d|]; [|done]. split; [|done]. intros Hk.
  pose proof (monthKeyOf_Some_ltb d) as Hlt. rewrite Hk in Hlt.
  by rewrite string_ltb_irrefl in Hlt.
Qed.

Lemma monthKeyOf_leb (date : JSDate) :
  String.leb (Analytics.monthKeyOf date) invalidMonthKey = true.
Proof.
  apply string_leb_ltb. destruct date as [d|]; [left; apply monthKeyOf_Some_ltb|by right].
Qed.

(** The greatest element of an ascending list is its last one. *)
Lemma last_of_ascending (l : list string) (x : string) :
  ascending l → x ∈ l → (∀ k, k ∈ l → String.leb k x = true) → last l = Some x.
Proof.
  intros Hasc Hx Hmax. destruct l as [|y l _] using rev_ind; [by apply elem_of_nil in Hx|].
  rewrite last_snoc. f_equal.
  apply elem_of_app in Hx as [Hx|Hx%list_elem_of_singleton]; [|done].
  assert (String.ltb x y = true) as Hlt.
  { apply (StronglySorted_app_1_elem_of (λ a b, String.ltb a b = true) l [y] x y Hasc Hx).
    apply list_elem_of_here. }
  assert (String.leb y x = true) as Hle by (apply Hmax; set_solver).
  apply string_leb_ltb in Hle as [Hle| ->]; [|done].
  pose proof (string_ltb_trans _ _ _ Hlt Hle) as Hxx.
  by rewrite string_ltb_irrefl in Hxx.
Qed.

Lemma last_drop_end {A} (l : list A) (n : nat) :
  (0 < n)%nat → last (drop (length l - n) l) = last l.
Proof.
  intros Hn. destruct l as [|y l _] using rev_ind; [done|].
  rewrite drop_app_le by (rewrite length_app; simpl; lia). by rewrite !last_snoc.
Qed.

Section UnreadableDates.
Context {N : Type} {number : Number N}.
Variable newDate : string → JSDate.

(** An event or a bill whose date is not a date. *)
Lemma usageOfMonth_invalid (us : list (Usage N)) :
  usageOfMonth newDate invalidMonthKey us
  = filter (λ u, newDate (usage_date u) = None) us.
Proof.
  unfold usageOfMonth, usageKey. apply list_filter_iff. intros u.
  apply monthKeyOf_invalid.
Qed.

Lemma billsOfMonth_invalid (bs : list (Bill N)) :
  billsOfMonth newDate invalidMonthKey bs
  = filter (λ b, newDate (bill_date b) = None) bs.
Proof.
  unfold billsOfMonth, billKey. apply list_filter_iff. intros b.
  apply monthKeyOf_invalid.
Qed.

(** X4: The events and the bills whose date the runtime cannot read are not
    left out by calculateMonthlyTrends: they are gathered under the key
    NaN-NaN, which sorts after every other key, so that for a positive
    [months] the last entry returned is the one of these rows. *)
Theorem calculateMonthlyTrends_unreadable_dates (env : Env N) (us : list (Usage N))
    (bs : list (Bill N)) (months : Z) :
  usageTable env = Ok us → billsTable env = Ok bs → 0 < months →
  Exists (λ u, newDate (usage_date u) = None) us
  ∨ Exists (λ b, newDate (bill_date b) = None) bs →
  ∃ trends t,
    Analytics.calculateMonthlyTrends newDate env months = Ok trends
    ∧ last trends = Some t
    ∧ Analytics.month t = "NaN-NaN"
    ∧ Analytics.totalUsage t
      = litersOf (filter (λ u, newDate (usage_date u) = None) us)
    ∧ Analytics.totalCost t
      = reduce_sum amount (filter (λ b, newDate (bill_date b) = None) bs).
Proof.
  intros Hus Hbs Hmonths Hbad.
  exists (monthTrend newDate us bs
            <$> Analytics.sortedMonths (Analytics.buildMonthMap newDate us bs) months),
    (monthTrend newDate us bs invalidMonthKey).
  split; [by apply calculateMonthlyTrends_values|]. split.
  - rewrite fmap_last. unfold Analytics.sortedMonths.
    rewrite slice_from_last by done. rewrite last_drop_end by lia.
    destruct (sorted_keys (Analytics.buildMonthMap newDate us bs)) as [Hasc Hkeys].
    rewrite (last_of_ascending _ invalidMonthKey); [done|done|..].
    + apply Hkeys, elem_of_dom_buildMonthMap. unfold activeMonths.
      apply elem_of_app. destruct Hbad as [Hbad|Hbad].
      * left. apply Exists_exists in Hbad as (u & Hu & Hnone).
        apply list_elem_of_fmap. exists u. split; [|done].
        unfold usageKey. by rewrite Hnone.
      * right. apply Exists_exists in Hbad as (b & Hb & Hnone).
        apply list_elem_of_fmap. exists b. split; [|done].
        unfold billKey. by rewrite Hnone.
    + intros k Hk. apply Hkeys, elem_of_dom_buildMonthMap in Hk.
      unfold activeMonths in Hk.
      apply elem_of_app in Hk as [(u & -> & _)%list_elem_of_fmap|(b & -> & _)%list_elem_of_fmap];
        apply monthKeyOf_leb.
  - cbn. by rewrite usageOfMonth_invalid, billsOfMonth_invalid.
Qed.
End UnreadableDates.

Lemma calculateMonthlyTrends_unreadable_dates_witness :
  (usageTable (mkEnv (Ok [mkUsage 1 40 "2024-03-02"; mkUsage 2 7 "yesterday"]) (Ok [])
                 (Ok (rainy 5)))
   = Ok [mkUsage 1 40 "2024-03-02"; mkUsage 2 7 "yesterday" : Usage float]
   ∧ billsTable (mkEnv (Ok [mkUsage 1 40 "2024-03-02"; mkUsage 2 7 "yesterday"]) (Ok [])
                   (Ok (rainy 5)))
     = Ok ([] : list (Bill float))
   ∧ 0 < 6
   ∧ (Exists (λ u, utcDate (usage_date u) = None)
        [mkUsage 1 40 "2024-03-02"; mkUsage 2 7 "yesterday" : Usage float]
      ∨ Exists (λ b : Bill float, utcDate (bill_date b) = None) []))
  ∧ ∃ trends t,
      Analytics.calculateMonthlyTrends utcDate
        (mkEnv (Ok [mkUsage 1 40 "2024-03-02"; mkUsage 2 7 "yesterday"]) (Ok [])
           (Ok (rainy 5)) : Env float) 6 = Ok trends
      ∧ last trends = Some t
      ∧ Analytics.month t = "NaN-NaN"
      ∧ Analytics.totalUsage t
        = litersOf (filter (λ u, utcDate (usage_date u) = None)
                      [mkUsage 1 40 "2024-03-02"; mkUsage 2 7 "yesterday"])
      ∧ Analytics.totalCost t
        = reduce_sum amount (filter (λ b : Bill float, utcDate (bill_date b) = None) []).
Proof.
  assert (Exists (λ u, utcDate (usage_date u) = None)
            [mkUsage 1 40 "2024-03-02"; mkUsage 2 7 "yesterday" : Usage float]) as Hbad.
  { right. left. reflexivity. }
  split; [split; [reflexivity|split; [reflexivity|split; [lia|by left]]]|].
  apply (calculateMonthlyTrends_unreadable_dates utcDate _ _ [] 6);
    [reflexivity|reflexivity|lia|by left].
Defined.

(** ** The order of the savings opportunities *)

Section OpportunityOrder.
Context {N : Type} {number : Number N}.

Lemma sort_pushedOpportunities (dailyAvg : N) :
  sort_by Analytics.byPriority (Analytics.pushedOpportunities dailyAvg)
  = opportunitiesInOrder dailyAvg.
Proof.
  unfold Analytics.pushedOpportunities, opportunitiesInOrder,
    Analytics.showerOpportunity, Analytics.toiletOpportunity,
    Analytics.kitchenOpportunity, Analytics.generalOpportunity.
  destruct (_ >? _)%num; destruct (_ >? _)%num; destruct (_ >? _)%num;
    destruct (_ >? _)%num; reflexivity.
Qed.

(** X6: identifySavingsOpportunities lists the opportunities of high priority
    before those of medium priority, and within a priority in the order of
    the source: Shower & Bath, General, Toilet, Kitchen, each at most once.
    No opportunity has the priority low. *)
Theorem identifySavingsOpportunities_order (env : Env N) (rows : list (Usage N)) :
  usageTable env = Ok rows → rows ≠ [] →
  ∃ opportunities,
    Analytics.identifySavingsOpportunities env = Ok opportunities
    ∧ opportunities = opportunitiesInOrder (Analytics.dailyAverage rows)
    ∧ (length opportunities ≤ 4)%nat
    ∧ StronglySorted
        (λ a b, Analytics.priorityOrder (Analytics.priority a)
                ≤ Analytics.priorityOrder (Analytics.priority b)) opportunities
    ∧ NoDup (Analytics.category <$> opportunities)
    ∧ ∀ o, o ∈ opportunities → Analytics.priority o ≠ Analytics.low.
Proof.
  intros Hread Hrows. exists (opportunitiesInOrder (Analytics.dailyAverage rows)). split.
  { rewrite (identifySavingsOpportunities_Ok env rows Hread).
    destruct rows; [done|]. by rewrite sort_pushedOpportunities. }
  split; [done|].
  unfold opportunitiesInOrder, Analytics.showerOpportunity, Analytics.toiletOpportunity,
    Analytics.kitchenOpportunity, Analytics.generalOpportunity.
  destruct (_ >? _)%num; destruct (_ >? _)%num; destruct (_ >? _)%num;
    destruct (_ >? _)%num; cbn;
    (split; [lia|]);
    (split; [repeat (constructor; [|repeat (constructor; [cbn; lia|])]); try constructor|]);
    (split; [repeat (constructor; [set_solver|]); constructor|]);
    intros o Ho; set_unfold in Ho; naive_solver.
Qed.
End OpportunityOrder.

Lemma identifySavingsOpportunities_order_witness :
  (usageTable (mkEnv (Ok oneDayOf200) (Ok []) (Ok (rainy 5))) = Ok (oneDayOf200 (N:=float))
   ∧ oneDayOf200 (N:=float) ≠ [])
  ∧ ∃ opportunities,
      Analytics.identifySavingsOpportunities
        (mkEnv (Ok oneDayOf200) (Ok []) (Ok (rainy 5)) : Env float) = Ok opportunities
      ∧ opportunities = opportunitiesInOrder (Analytics.dailyAverage oneDayOf200)
      ∧ (length opportunities ≤ 4)%nat
      ∧ StronglySorted
          (λ a b, Analytics.priorityOrder (Analytics.priority a)
                  ≤ Analytics.priorityOrder (Analytics.priority b)) opportunities
      ∧ NoDup (Analytics.category <$> opportunities)
      ∧ ∀ o, o ∈ opportunities → Analytics.priority o ≠ Analytics.low.
Proof.
  split; [split; [reflexivity|discriminate]|].
  apply (identifySavingsOpportunities_order
           (mkEnv (Ok oneDayOf200) (Ok []) (Ok (rainy 5))) oneDayOf200);
    [reflexivity|discriminate].
Defined.

(** ** More on the recommendations *)

Section RecommendationShape.
Context {N : Type} {number : Number N}.

Lemma type_usageRecommendation (ua : Advisor.UsageAnalysis N) :
  Advisor.type (Advisor.usageRecommendation ua) = Advisor.usage.
Proof. unfold Advisor.usageRecommendation. by destruct (_ >? _)%num. Qed.

Lemma types_normalRecommendations (ua : Advisor.UsageAnalysis N)
    (ba : Advisor.BillsAnalysis N) (ctx : Advisor.RegionalContext N) :
  Advisor.type <$> normalRecommendations ua ba ctx
  = typesOf (bool_decide (Advisor.trend ua = Advisor.increasing))
      (Advisor.precipitation ctx <? int 1)%num
      (Advisor.averageCostPerLiter ba >? dec 1 100)%num.
Proof.
  unfold normalRecommendations, typesOf, Advisor.push_if.
  destruct (bool_decide _); destruct (_ <? _)%num; destruct (_ >? _)%num;
    cbn; by rewrite type_usageRecommendation.
Qed.

(** X7: generateRecommendations returns between one and four recommendations
    in a fixed order: one on the usage level, then the trend alert (of type
    usage as well), the regional one and the one on the cost, each at most
    once.  The type savings is never used. *)
Theorem generateRecommendations_shape (env : Env N) :
  ∃ recs trendAlert regional cost,
    Advisor.generateRecommendations env = Ok recs
    ∧ Advisor.type <$> recs = typesOf trendAlert regional cost
    ∧ (1 ≤ length recs ≤ 4)%nat
    ∧ ∀ r, r ∈ recs → Advisor.type r ≠ Advisor.savings.
Proof.
  assert (∀ (recs : list (Advisor.AdvisorRecommendation N)) t r c,
    Advisor.type <$> recs = typesOf t r c →
    (1 ≤ length recs ≤ 4)%nat ∧ ∀ x, x ∈ recs → Advisor.type x ≠ Advisor.savings) as Hshape.
  { intros recs t r c Htypes. split.
    - rewrite <- (length_fmap Advisor.type), Htypes.
      unfold typesOf. destruct t, r, c; cbn; lia.
    - intros x Hx Hsav.
      assert (Advisor.savings ∈ Advisor.type <$> recs) as Hin.
      { apply list_elem_of_fmap. by exists x. }
      rewrite Htypes in Hin. unfold typesOf in Hin.
      destruct t, r, c; cbn in Hin; set_unfold in Hin; naive_solver. }
  destruct (usageTable env) as [us|e] eqn:Hus;
    [destruct (billsTable env) as [bs|e] eqn:Hbs|].
  - destruct (getUserUsageAnalysis_Ok env us Hus) as [ua Hua].
    destruct (getBillsAnalysis_Ok env bs Hbs) as [ba Hba].
    destruct (getRegionalWaterContext_never_throws env) as [ctx Hctx].
    eexists _, _, _, _. split; [by apply generateRecommendations_Ok|].
    split; [apply types_normalRecommendations|].
    eapply Hshape, types_normalRecommendations.
  - exists [Advisor.startTracking], false, false, false. split.
    { apply generateRecommendations_catch. right.
      exists e. by apply getBillsAnalysis_Throw. }
    split; [done|]. by apply (Hshape _ false false false).
  - exists [Advisor.startTracking], false, false, false. split.
    { apply generateRecommendations_catch. left.
      exists e. by apply getUserUsageAnalysis_Throw. }
    split; [done|]. by apply (Hshape _ false false false).
Qed.

Lemma getLocation_withWeather (env : Env N) (w : result (OpenMeteo.WeatherData N)) :
  getLocation (withWeather env w) = getLocation env.
Proof. reflexivity. Qed.

(** X8: Of the weather, generateRecommendations reads the precipitation only:
    two readings with the same precipitation give the same list, whatever
    their temperature and humidity, and whatever advice
    getRegionalWaterContext words from them. *)
Theorem generateRecommendations_reads_precipitation_only (env : Env N)
    (w1 w2 : OpenMeteo.WeatherData N) :
  OpenMeteo.precipitation w1 = OpenMeteo.precipitation w2 →
  Advisor.generateRecommendations (withWeather env (Ok w1))
  = Advisor.generateRecommendations (withWeather env (Ok w2)).
Proof.
  intros Hp. unfold Advisor.generateRecommendations, Advisor.tryBlock.
  change (Advisor.getUserUsageAnalysis (withWeather env (Ok w1)))
    with (Advisor.getUserUsageAnalysis env).
  change (Advisor.getUserUsageAnalysis (withWeather env (Ok w2)))
    with (Advisor.getUserUsageAnalysis env).
  change (Advisor.getBillsAnalysis (withWeather env (Ok w1)))
    with (Advisor.getBillsAnalysis env).
  change (Advisor.getBillsAnalysis (withWeather env (Ok w2)))
    with (Advisor.getBillsAnalysis env).
  destruct (Advisor.getUserUsageAnalysis env) as [ua|]; [|done].
  destruct (Advisor.getBillsAnalysis env) as [ba|]; [|done].
  destruct (getLocation_never_throws env) as [l Hl].
  rewrite (getRegionalWaterContext_Ok (withWeather env (Ok w1)) l w1 Hl eq_refl).
  rewrite (getRegionalWaterContext_Ok (withWeather env (Ok w2)) l w2 Hl eq_refl).
  unfold Advisor.regionalRecommendation. cbn [Advisor.precipitation]. by rewrite Hp.
Qed.
End RecommendationShape.

Lemma generateRecommendations_reads_precipitation_only_witness :
  OpenMeteo.precipitation (rainy 0 : OpenMeteo.WeatherData float)
  = OpenMeteo.precipitation
      {| OpenMeteo.latitude := 0; OpenMeteo.longitude := 0;
         OpenMeteo.temperature := 41; OpenMeteo.humidity := 5;
         OpenMeteo.precipitation := 0; OpenMeteo.windSpeed := 30;
         OpenMeteo.weatherCode := 0 |}%float
  ∧ Advisor.generateRecommendations (withWeather envJanuary (Ok (rainy 0)))
    = Advisor.generateRecommendations
        (withWeather envJanuary
           (Ok {| OpenMeteo.latitude := 0; OpenMeteo.longitude := 0;
                  OpenMeteo.temperature := 41; OpenMeteo.humidity := 5;
                  OpenMeteo.precipitation := 0; OpenMeteo.windSpeed := 30;
                  OpenMeteo.weatherCode := 0 |}%float)).
Proof.
  split; [reflexivity|].
  by apply (generateRecommendations_reads_precipitation_only envJanuary).
Defined.

(** X9: In doubles: over readable tables without a row, as after a first
    start, generateRecommendations does not answer with the onboarding
    recommendation: it praises a daily average of 0.0L, adds the regional
    recommendation when the precipitation read is below 1 mm, and nothing
    else. *)
Theorem generateRecommendations_empty_tables (env : Env float) :
  usageTable env = Ok [] → billsTable env = Ok [] →
  ∃ ctx,
    Advisor.getRegionalWaterContext env = Ok ctx
    ∧ Advisor.generateRecommendations env
      = Ok (excellentAtZero
              :: (if (Advisor.precipitation ctx <? int 1)%num
                  then [Advisor.regionalRecommendation ctx] else []))
    ∧ Advisor.generateRecommendations env ≠ Ok [Advisor.startTracking].
Proof.
  intros Hus Hbs.
  destruct (getRegionalWaterContext_never_throws env) as [ctx Hctx]. exists ctx.
  assert (Advisor.generateRecommendations env
          = Ok (excellentAtZero
                  :: (if (Advisor.precipitation ctx <? int 1)%num
                      then [Advisor.regionalRecommendation ctx] else []))) as Hrecs.
  { refine (eq_trans (generateRecommendations_Ok env analysisOfNothing
                        (billsOfNoConsumption 0) ctx _ _ Hctx) _).
    - unfold Advisor.getUserUsageAnalysis, getTotalUsageByDate, getAverageDailyUsage.
      rewrite Hus. reflexivity.
    - unfold Advisor.getBillsAnalysis, getAllBills, getTotalConsumption.
      rewrite Hbs. reflexivity.
    - unfold normalRecommendations.
      change (Advisor.averageCostPerLiter (billsOfNoConsumption 0) >? dec 1 100)%num
        with false.
      change (bool_decide (Advisor.trend (analysisOfNothing (N:=float)) = Advisor.increasing))
        with false.
      change (Advisor.usageRecommendation analysisOfNothing)
        with (excellentAtZero (N:=float)).
      unfold Advisor.push_if. by destruct (_ <? _)%num. }
  split; [done|]. split; [done|]. rewrite Hrecs. by intros [=].
Qed.

Lemma generateRecommendations_empty_tables_witness :
  (usageTable (envWeatherDown (N:=float)) = Ok []
   ∧ billsTable (envWeatherDown (N:=float)) = Ok [])
  ∧ ∃ ctx,
      Advisor.getRegionalWaterContext (envWeatherDown (N:=float)) = Ok ctx
      ∧ Advisor.generateRecommendations (envWeatherDown (N:=float))
        = Ok (excellentAtZero
                :: (if (Advisor.precipitation ctx <? int 1)%num
                    then [Advisor.regionalRecommendation ctx] else []))
      ∧ Advisor.generateRecommendations (envWeatherDown (N:=float))
        ≠ Ok [Advisor.startTracking].
Proof.
  split; [split; reflexivity|].
  apply (generateRecommendations_empty_tables envWeatherDown); reflexivity.
Defined.

(** X10: In doubles: when the consumption of the bills adds up to nothing (0,
    or a sum that is not a number), getBillsAnalysis does not divide: the
    average cost per liter is 0, and generateRecommendations has no
    recommendation on the cost. *)
Theorem getBillsAnalysis_no_consumption (env : Env float) (bs : list (Bill float)) :
  billsTable env = Ok bs → truthy (reduce_sum consumptionLiters bs) = false →
  Advisor.getBillsAnalysis env = Ok (billsOfNoConsumption (length bs))
  ∧ ∀ recs, Advisor.generateRecommendations env = Ok recs →
      ∀ r, r ∈ recs → Advisor.type r ≠ Advisor.bill.
Proof.
  intros Hbs Hzero.
  assert (Advisor.getBillsAnalysis env = Ok (billsOfNoConsumption (length bs))) as Hba.
  { unfold Advisor.getBillsAnalysis, getAllBills, getTotalConsumption.
    rewrite Hbs, !bind_Ok. unfold or_else. rewrite Hzero. reflexivity. }
  split; [done|]. intros recs Hrecs r Hr.
  destruct (usageTable env) as [us|e] eqn:Hus.
  - destruct (getUserUsageAnalysis_Ok env us Hus) as [ua Hua].
    destruct (getRegionalWaterContext_never_throws env) as [ctx Hctx].
    rewrite (generateRecommendations_Ok env ua _ ctx Hua Hba Hctx) in Hrecs.
    injection Hrecs as <-. unfold normalRecommendations in Hr.
    change (Advisor.averageCostPerLiter (billsOfNoConsumption (length bs)) >? dec 1 100)%num
      with false in Hr.
    unfold Advisor.push_if in Hr at 1.
    apply elem_of_push_if in Hr as [Hr|[_ ->]]; [|done].
    apply elem_of_push_if in Hr as [Hr|[_ ->]]; [|done].
    apply list_elem_of_singleton in Hr as ->. by rewrite type_usageRecommendation.
  - rewrite generateRecommendations_catch in Hrecs
      by (left; exists e; by apply getUserUsageAnalysis_Throw).
    injection Hrecs as <-. by apply list_elem_of_singleton in Hr as ->.
Qed.

Lemma getBillsAnalysis_no_consumption_witness :
  (billsTable (mkEnv (Ok []) (Ok [mkBill "B7" 9 "2024-01-20" 0]) (Ok (rainy 5)))
   = Ok [mkBill "B7" 9 "2024-01-20" 0 : Bill float]
   ∧ truthy (reduce_sum consumptionLiters [mkBill "B7" 9 "2024-01-20" 0 : Bill float])
     = false)
  ∧ Advisor.getBillsAnalysis
      (mkEnv (Ok []) (Ok [mkBill "B7" 9 "2024-01-20" 0]) (Ok (rainy 5)) : Env float)
    = Ok (billsOfNoConsumption 1)
  ∧ ∀ recs,
      Advisor.generateRecommendations
        (mkEnv (Ok []) (Ok [mkBill "B7" 9 "2024-01-20" 0]) (Ok (rainy 5)) : Env float)
      = Ok recs →
      ∀ r, r ∈ recs → Advisor.type r ≠ Advisor.bill.
Proof.
  split; [split; reflexivity|].
  apply (getBillsAnalysis_no_consumption _ [mkBill "B7" 9 "2024-01-20" 0]); reflexivity.
Defined.

(** ** A date that is not a date, in the report *)

Section ReportUnreadable.
Context {N : Type} {number : Number N}.
Variable newDate : string → JSDate.

(** X5: One usage event whose date the runtime cannot read empties the
    weekday patterns of the whole report (the loop throws and
    analyzeUsagePatterns answers with no pattern), while the report is
    still produced and its summary counts every event, that one included. *)
Theorem generateUsageReport_unreadable_date (env : Env N) (us : list (Usage N))
    (bs : list (Bill N)) :
  usageTable env = Ok us → billsTable env = Ok bs →
  Exists (λ u, newDate (usage_date u) = None) us →
  ∃ report,
    Analytics.generateUsageReport newDate env = Ok report
    ∧ Analytics.patterns report = []
    ∧ Analytics.summary_totalUsage (Analytics.summary report) = litersOf us
    ∧ Analytics.summary_totalDays (Analytics.summary report)
      = distinct (usage_date <$> us).
Proof.
  intros Hus Hbs Hbad.
  destruct (generateUsageReport_Ok newDate env us bs Hus Hbs)
    as (patterns & trends & opportunities & Hp & _ & _ & ->).
  eexists. split; [done|]. cbn. rewrite <- distinct_count_remove_dups.
  split; [|done].
  rewrite (analyzeUsagePatterns_invalid_date newDate env us Hus) in Hp.
  - by injection Hp as <-.
  - eapply Exists_impl; [exact Hbad|]. intros u Hu. unfold weekdayOf. by rewrite Hu.
Qed.
End ReportUnreadable.

Lemma generateUsageReport_unreadable_date_witness :
  (usageTable (mkEnv (Ok [mkUsage 1 40 "2024-03-02"; mkUsage 2 7 "yesterday"]) (Ok [])
                 (Ok (rainy 5)))
   = Ok [mkUsage 1 40 "2024-03-02"; mkUsage 2 7 "yesterday" : Usage float]
   ∧ billsTable (mkEnv (Ok [mkUsage 1 40 "2024-03-02"; mkUsage 2 7 "yesterday"]) (Ok [])
                   (Ok (rainy 5)))
     = Ok ([] : list (Bill float))
   ∧ Exists (λ u, utcDate (usage_date u) = None)
       [mkUsage 1 40 "2024-03-02"; mkUsage 2 7 "yesterday" : Usage float])
  ∧ ∃ report,
      Analytics.generateUsageReport utcDate
        (mkEnv (Ok [mkUsage 1 40 "2024-03-02"; mkUsage 2 7 "yesterday"]) (Ok [])
           (Ok (rainy 5)) : Env float) = Ok report
      ∧ Analytics.patterns report = []
      ∧ Analytics.summary_totalUsage (Analytics.summary report)
        = litersOf [mkUsage 1 40 "2024-03-02"; mkUsage 2 7 "yesterday"]
      ∧ Analytics.summary_totalDays (Analytics.summary report)
        = distinct (usage_date <$>
                      [mkUsage 1 40 "2024-03-02"; mkUsage 2 7 "yesterday" : Usage float]).
Proof.
  assert (Exists (λ u, utcDate (usage_date u) = None)
            [mkUsage 1 40 "2024-03-02"; mkUsage 2 7 "yesterday" : Usage float]) as Hbad.
  { right. left. reflexivity. }
  split; [split; [reflexivity|split; [reflexivity|exact Hbad]]|].
  apply (generateUsageReport_unreadable_date utcDate _ _ []); [reflexivity|reflexivity|exact Hbad].
Defined.

(** ** The cache *)

Section CacheFacts.
Context {T : Type} {json : Json T}.

Lemma setCache_Some (s : Cache.State) (db : gmap string Cache.Entry) (key : string) (v : T)
    (ttl : Z) :
  Cache.table s = Some db →
  Cache.setCache key v ttl s
  = (Ok (), {| Cache.table :=
                 Some (<[key := {| Cache.value := stringify v;
                                   Cache.timestamp := Cache.clock s |}]> db);
               Cache.clock := Cache.clock s |}).
Proof.
  intros Hdb. unfold Cache.setCache, mbind, Cache.action_bind, Cache.getDatabase,
    Cache.now, Cache.runAsync. by rewrite Hdb.
Qed.

Lemma setCache_None (s : Cache.State) (key : string) (v : T) (ttl : Z) :
  Cache.table s = None →
  Cache.setCache key v ttl s
  = (Throw "Database not initialized. Call initDatabase first.", s).
Proof.
  intros Hdb. unfold Cache.setCache, mbind, Cache.action_bind, Cache.getDatabase.
  by rewrite Hdb.
Qed.

Lemma getCache_None (s : Cache.State) (key : string) (ttl : Z) :
  Cache.table s = None →
  Cache.getCache (T:=T) key ttl s
  = (Throw "Database not initialized. Call initDatabase first.", s).
Proof.
  intros Hdb. unfold Cache.getCache, mbind, Cache.action_bind, Cache.getDatabase.
  by rewrite Hdb.
Qed.

Lemma getCache_absent (s : Cache.State) (db : gmap string Cache.Entry) (key : string)
    (ttl : Z) :
  Cache.table s = Some db → db !! key = None →
  Cache.getCache (T:=T) key ttl s = (Ok None, s).
Proof.
  intros Hdb Hkey. unfold Cache.getCache, mbind, Cache.action_bind, Cache.getDatabase.
  by rewrite Hdb, Hkey.
Qed.

Lemma getCache_fresh (s : Cache.State) (db : gmap string Cache.Entry) (key : string)
    (ttl : Z) (e : Cache.Entry) :
  Cache.table s = Some db → db !! key = Some e →
  Cache.clock s - Cache.timestamp e ≤ ttl * 60 * 1000 →
  Cache.getCache (T:=T) key ttl s
  = (match parse (Cache.value e) with
     | Ok cached => Ok (Some cached)
     | Throw error => Throw error
     end, s).
Proof.
  intros Hdb Hkey Hage.
  unfold Cache.getCache, mbind, Cache.action_bind, Cache.getDatabase, Cache.now, Cache.lift.
  rewrite Hdb, Hkey. rewrite bool_decide_eq_false_2 by lia.
  by destruct (parse (Cache.value e)).
Qed.

Lemma getCache_expired (s : Cache.State) (db : gmap string Cache.Entry) (key : string)
    (ttl : Z) (e : Cache.Entry) :
  Cache.table s = Some db → db !! key = Some e →
  ttl * 60 * 1000 < Cache.clock s - Cache.timestamp e →
  Cache.getCache (T:=T) key ttl s
  = (Ok None, {| Cache.table := Some (delete key db); Cache.clock := Cache.clock s |}).
Proof.
  intros Hdb Hkey Hage.
  unfold Cache.getCache, mbind, Cache.action_bind, Cache.getDatabase, Cache.now,
    Cache.deleteCache, Cache.runAsync, mbind, Cache.action_bind, Cache.getDatabase.
  rewrite Hdb, Hkey. rewrite bool_decide_eq_true_2 by lia. by rewrite Hdb.
Qed.

(** X12: On the native database, a value written by setCache is read
    back by getCache, through [JSON.stringify] and [JSON.parse], as long as
    no more than the reader's [ttlMinutes] have passed, the last
    millisecond included; the [ttlMinutes] that the writer passed plays no
    part.  After that the read answers [null] and deletes the row. *)
Theorem setCache_then_getCache (s : Cache.State) (db : gmap string Cache.Entry)
    (key : string) (v : T) (written_ttl ttl d : Z) :
  Cache.table s = Some db →
  ∃ written,
    Cache.setCache key v written_ttl s = (Ok (), written)
    ∧ (d ≤ ttl * 60 * 1000 →
        Cache.getCache key ttl (Cache.later d written)
        = (match parse (stringify v) with
           | Ok cached => Ok (Some cached)
           | Throw error => Throw error
           end, Cache.later d written))
    ∧ (ttl * 60 * 1000 < d →
        Cache.getCache (T:=T) key ttl (Cache.later d written)
        = (Ok None, {| Cache.table := Some (delete key db);
                       Cache.clock := Cache.clock s + d |})).
Proof.
  intros Hdb.
  set (e := {| Cache.value := stringify v; Cache.timestamp := Cache.clock s |}).
  set (written := {| Cache.table := Some (<[key := e]> db); Cache.clock := Cache.clock s |}).
  exists written. split; [by apply setCache_Some|].
  split; intros Hd.
  - rewrite (getCache_fresh (Cache.later d written) (<[key := e]> db) key ttl e eq_refl
               (lookup_insert_eq _ _ _)); [done|cbn; lia].
  - rewrite (getCache_expired (Cache.later d written) (<[key := e]> db) key ttl e eq_refl
               (lookup_insert_eq _ _ _)); [|cbn; lia].
    cbn. by rewrite delete_insert_eq.
Qed.

(** X13: A read with a short [ttlMinutes] deletes a row that a read with a
    longer one accepts: after it, the longer read finds nothing. *)
Theorem getCache_short_ttl_deletes (s : Cache.State) (db : gmap string Cache.Entry)
    (key : string) (e : Cache.Entry) (short long : Z) (v : T) :
  Cache.table s = Some db → db !! key = Some e → parse (Cache.value e) = Ok v →
  short * 60 * 1000 < Cache.clock s - Cache.timestamp e ≤ long * 60 * 1000 →
  Cache.getCache key long s = (Ok (Some v), s)
  ∧ ∃ s', Cache.getCache (T:=T) key short s = (Ok None, s')
      ∧ Cache.getCache (T:=T) key long s' = (Ok None, s').
Proof.
  intros Hdb Hkey Hv Hage. split.
  - rewrite (getCache_fresh s db key long e Hdb Hkey) by lia. by rewrite Hv.
  - eexists. split; [apply (getCache_expired s db key short e); [done|done|lia]|].
    apply (getCache_absent _ (delete key db)); [done|]. apply lookup_delete_eq.
Qed.

(** X14: clearOldCache and getCache draw the same line: clearOldCache removes
    the rows older than [maxAgeMinutes] and no other, and right after it a
    read with that [ttlMinutes] finds no row to delete. *)
Theorem clearOldCache_keeps_fresh (s : Cache.State) (db : gmap string Cache.Entry)
    (maxAgeMinutes : Z) :
  Cache.table s = Some db →
  ∃ db',
    Cache.clearOldCache maxAgeMinutes s
    = (Ok (), {| Cache.table := Some db'; Cache.clock := Cache.clock s |})
    ∧ (∀ key e, db' !! key = Some e
        ↔ db !! key = Some e
          ∧ Cache.clock s - Cache.timestamp e ≤ maxAgeMinutes * 60 * 1000)
    ∧ ∀ key,
        (Cache.getCache (T:=T) key maxAgeMinutes
           {| Cache.table := Some db'; Cache.clock := Cache.clock s |}).2
        = {| Cache.table := Some db'; Cache.clock := Cache.clock s |}.
Proof.
  intros Hdb.
  set (db' := filter (λ row : string * Cache.Entry,
                        ¬ Cache.timestamp row.2
                          < Cache.clock s - maxAgeMinutes * 60 * 1000) db).
  exists db'. split.
  { unfold Cache.clearOldCache, mbind, Cache.action_bind, Cache.getDatabase, Cache.now,
      Cache.runAsync. by rewrite Hdb. }
  assert (∀ key e,
    db' !! key = Some e
    ↔ db !! key = Some e
      ∧ Cache.clock s - Cache.timestamp e ≤ maxAgeMinutes * 60 * 1000) as Hrows.
  { intros key e. unfold db'. rewrite map_lookup_filter_Some. cbn.
    split; intros [? ?]; split; [done|lia|done|lia]. }
  split; [exact Hrows|]. intros key.
  destruct (db' !! key) as [e|] eqn:He.
  - pose proof He as [_ Hage]%Hrows.
    by rewrite (getCache_fresh {| Cache.table := Some _; Cache.clock := Cache.clock s |}
                  _ key maxAgeMinutes e eq_refl He Hage).
  - by rewrite (getCache_absent {| Cache.table := Some _; Cache.clock := Cache.clock s |}
                  _ key maxAgeMinutes eq_refl He).
Qed.
End CacheFacts.

Lemma setCache_then_getCache_witness :
  Cache.table emptyCache = Some ∅
  ∧ ∃ written,
      Cache.setCache (json:=jsonOfString) "tip" "save water" 5 emptyCache = (Ok (), written)
      ∧ (1800000 ≤ 60 * 60 * 1000 →
          Cache.getCache (json:=jsonOfString) "tip" 60 (Cache.later 1800000 written)
          = (match parse (Json:=jsonOfString)
                     (stringify (Json:=jsonOfString) "save water") with
             | Ok cached => Ok (Some cached)
             | Throw error => Throw error
             end, Cache.later 1800000 written))
      ∧ (60 * 60 * 1000 < 1800000 →
          Cache.getCache (json:=jsonOfString) "tip" 60 (Cache.later 1800000 written)
          = (Ok None, {| Cache.table := Some (delete "tip" ∅);
                         Cache.clock := Cache.clock emptyCache + 1800000 |})).
Proof.
  split; [reflexivity|].
  apply (setCache_then_getCache (json:=jsonOfString) emptyCache ∅ "tip" "save water"
           5 60 1800000). reflexivity.
Defined.

Lemma getCache_short_ttl_deletes_witness :
  (Cache.table {| Cache.table :=
                    Some {["k" := {| Cache.value := "{}"; Cache.timestamp := 0 |}]};
                  Cache.clock := 5400000 |}
   = Some {["k" := {| Cache.value := "{}"; Cache.timestamp := 0 |}]}
   ∧ ({["k" := {| Cache.value := "{}"; Cache.timestamp := 0 |}]}
        : gmap string Cache.Entry) !! "k"
     = Some {| Cache.value := "{}"; Cache.timestamp := 0 |}
   ∧ parse (Json:=jsonOfOne "{}" ()) "{}" = Ok ()
   ∧ 60 * 60 * 1000 < 5400000 - 0 ≤ 120 * 60 * 1000)
  ∧ Cache.getCache (json:=jsonOfOne "{}" ()) "k" 120
      {| Cache.table := Some {["k" := {| Cache.value := "{}"; Cache.timestamp := 0 |}]};
         Cache.clock := 5400000 |}
    = (Ok (Some ()),
       {| Cache.table := Some {["k" := {| Cache.value := "{}"; Cache.timestamp := 0 |}]};
          Cache.clock := 5400000 |})
  ∧ ∃ s',
      Cache.getCache (json:=jsonOfOne "{}" ()) "k" 60
        {| Cache.table := Some {["k" := {| Cache.value := "{}"; Cache.timestamp := 0 |}]};
           Cache.clock := 5400000 |}
      = (Ok None, s')
      ∧ Cache.getCache (json:=jsonOfOne "{}" ()) "k" 120 s' = (Ok None, s').
Proof.
  split; [split; [reflexivity|split; [reflexivity|split; [reflexivity|lia]]]|].
  apply (getCache_short_ttl_deletes (json:=jsonOfOne "{}" ())
           {| Cache.table :=
                Some {["k" := {| Cache.value := "{}"; Cache.timestamp := 0 |}]};
              Cache.clock := 5400000 |}
           {["k" := {| Cache.value := "{}"; Cache.timestamp := 0 |}]} "k"
           {| Cache.value := "{}"; Cache.timestamp := 0 |} 60 120 ());
    [reflexivity|reflexivity|reflexivity|cbn; lia].
Defined.

Lemma clearOldCache_keeps_fresh_witness :
  Cache.table {| Cache.table :=
                   Some {["k" := {| Cache.value := "{}"; Cache.timestamp := 0 |}]};
                 Cache.clock := 5400000 |}
  = Some {["k" := {| Cache.value := "{}"; Cache.timestamp := 0 |}]}
  ∧ ∃ db',
      Cache.clearOldCache 60
        {| Cache.table := Some {["k" := {| Cache.value := "{}"; Cache.timestamp := 0 |}]};
           Cache.clock := 5400000 |}
      = (Ok (), {| Cache.table := Some db'; Cache.clock := 5400000 |})
      ∧ (∀ key e, db' !! key = Some e
          ↔ ({["k" := {| Cache.value := "{}"; Cache.timestamp := 0 |}]}
               : gmap string Cache.Entry) !! key = Some e
            ∧ 5400000 - Cache.timestamp e ≤ 60 * 60 * 1000)
      ∧ ∀ key,
          (Cache.getCache (json:=jsonOfOne "{}" ()) key 60
             {| Cache.table := Some db'; Cache.clock := 5400000 |}).2
          = {| Cache.table := Some db'; Cache.clock := 5400000 |}.
Proof.
  split; [reflexivity|].
  apply (clearOldCache_keeps_fresh (json:=jsonOfOne "{}" ())
           {| Cache.table :=
                Some {["k" := {| Cache.value := "{}"; Cache.timestamp := 0 |}]};
              Cache.clock := 5400000 |}
           {["k" := {| Cache.value := "{}"; Cache.timestamp := 0 |}]} 60).
  reflexivity.
Defined.

Example cache_round_trip :
  (Cache.getCache (json:=jsonOfString) "tip" 60
     (Cache.later 3600000 (Cache.setCache (json:=jsonOfString) "tip" "save water" 5 emptyCache).2)).1
  = Ok (Some "save water")
  ∧ (Cache.getCache (json:=jsonOfString) "tip" 60
       (Cache.later 3600001
          (Cache.setCache (json:=jsonOfString) "tip" "save water" 5 emptyCache).2)).1
    = Ok None.
Proof. split; vm_compute; reflexivity. Qed.

(** ** The requests of the weather *)

Section WeatherFacts.
Context {N : Type} {number : Number N}.
Variable numberToString : N → string.
Variable isoDate : Z → string.
Context {jsonWeather : Json (OpenMeteo.WeatherData N)}
  {jsonClimate : Json (WeatherApi.ClimateData N)}
  {jsonDrought : Json (WeatherApi.DroughtIndicator N)}.

Lemma action_bind_Ok {A B} (m : Cache.action A) (f : A → Cache.action B) (s s' : Cache.State)
    (a : A) :
  m s = (Ok a, s') → (m ≫= f) s = f a s'.
Proof. intros Hm. unfold mbind, Cache.action_bind. by rewrite Hm. Qed.

Lemma action_bind_Throw {A B} (m : Cache.action A) (f : A → Cache.action B)
    (s s' : Cache.State) (e : error) :
  m s = (Throw e, s') → (m ≫= f) s = (Throw e, s').
Proof. intros Hm. unfold mbind, Cache.action_bind. by rewrite Hm. Qed.

(** What getCurrentWeather does once the cache gave nothing. *)
Lemma getCurrentWeather_request (latitude longitude : N) (useCache : bool)
    (request : WeatherApi.Request (option (WeatherApi.Current N)))
    (s s0 : Cache.State) (db : gmap string Cache.Entry) :
  (if useCache
   then Cache.getCache (T:=OpenMeteo.WeatherData N)
          (WeatherApi.weatherKey numberToString latitude longitude) 60
   else mret None) s = (Ok None, s0) →
  Cache.table s0 = Some db →
  WeatherApi.getCurrentWeather numberToString latitude longitude useCache request s
  = match WeatherApi.outcome request with
    | WeatherApi.Rejected error =>
        (Throw (WeatherApi.handleApiError error "Failed to fetch weather data"),
         Cache.later (WeatherApi.elapsed request) s0)
    | WeatherApi.Resolved None =>
        (Throw "TypeError: Cannot read property 'temperature_2m' of undefined",
         Cache.later (WeatherApi.elapsed request) s0)
    | WeatherApi.Resolved (Some current) =>
        (Ok (weatherOf latitude longitude current),
         withRow (Cache.later (WeatherApi.elapsed request) s0) db
           (WeatherApi.weatherKey numberToString latitude longitude)
           (stringify (weatherOf latitude longitude current)))
    end.
Proof.
  intros Hcache Hdb. unfold WeatherApi.getCurrentWeather.
  rewrite (action_bind_Ok _ _ s s0 None Hcache).
  destruct (WeatherApi.outcome request) as [[current|]|error]; [|done|done].
  rewrite (setCache_Some (Cache.later (WeatherApi.elapsed request) s0) db); done.
Qed.

Lemma getCurrentWeather_fresh_row (latitude longitude : N) (s : Cache.State)
    (db : gmap string Cache.Entry) (e : Cache.Entry)
    (request : WeatherApi.Request (option (WeatherApi.Current N))) :
  Cache.table s = Some db →
  db !! WeatherApi.weatherKey numberToString latitude longitude = Some e →
  Cache.clock s - Cache.timestamp e ≤ 60 * 60 * 1000 →
  WeatherApi.getCurrentWeather numberToString latitude longitude true request s
  = (parse (Cache.value e), s).
Proof.
  intros Hdb Hkey Hage. unfold WeatherApi.getCurrentWeather.
  pose proof (getCache_fresh (T:=OpenMeteo.WeatherData N) s db _ 60 e Hdb Hkey Hage) as Hget.
  destruct (parse (Cache.value e)) as [w|m].
  - by rewrite (action_bind_Ok _ _ s s (Some w) Hget).
  - by rewrite (action_bind_Throw _ _ s s m Hget).
Qed.

(** X15: On the native database, a row of the cache that is at most 60
    minutes old and holds the text of a reading answers getCurrentWeather
    without a request: the reading of the row is returned whatever the
    network would have answered, and the state is not touched. *)
Theorem getCurrentWeather_cache_hit (latitude longitude : N) (s : Cache.State)
    (db : gmap string Cache.Entry) (e : Cache.Entry) (reading : OpenMeteo.WeatherData N) :
  Cache.table s = Some db →
  db !! WeatherApi.weatherKey numberToString latitude longitude = Some e →
  Cache.clock s - Cache.timestamp e ≤ 60 * 60 * 1000 →
  parse (Cache.value e) = Ok reading →
  ∀ request,
    WeatherApi.getCurrentWeather numberToString latitude longitude true request s
    = (Ok reading, s).
Proof.
  intros Hdb Hkey Hage Hreading request.
  rewrite (getCurrentWeather_fresh_row _ _ s db e); [|done..]. by rewrite Hreading.
Qed.

(** X16: On the native database, a reading that getCurrentWeather
    fetched (the cache was not asked, or had no row) is returned and
    cached, and for the next 60 minutes every call that may use the cache
    returns it again without a request, provided the reading survives
    [JSON.stringify] and [JSON.parse]. *)
Theorem getCurrentWeather_fetch_then_hit (latitude longitude : N) (useCache : bool)
    (s : Cache.State) (db : gmap string Cache.Entry)
    (request : WeatherApi.Request (option (WeatherApi.Current N)))
    (current : WeatherApi.Current N) :
  Cache.table s = Some db →
  useCache = false ∨ db !! WeatherApi.weatherKey numberToString latitude longitude = None →
  WeatherApi.outcome request = WeatherApi.Resolved (Some current) →
  parse (stringify (weatherOf latitude longitude current))
  = Ok (weatherOf latitude longitude current) →
  ∃ s1,
    WeatherApi.getCurrentWeather numberToString latitude longitude useCache request s
    = (Ok (weatherOf latitude longitude current), s1)
    ∧ ∀ d request', d ≤ 60 * 60 * 1000 →
        WeatherApi.getCurrentWeather numberToString latitude longitude true request'
          (Cache.later d s1)
        = (Ok (weatherOf latitude longitude current), Cache.later d s1).
Proof.
  intros Hdb Hmiss Hout Hjson. eexists. split.
  - rewrite (getCurrentWeather_request latitude longitude useCache request s s db);
      [by rewrite Hout| |done].
    destruct Hmiss as [->|Hnone]; [done|].
    destruct useCache; [|done]. by apply (getCache_absent s db).
  - intros d request' Hd.
    erewrite getCurrentWeather_fresh_row;
      [|reflexivity|apply lookup_insert_eq|cbn; lia].
    cbn [Cache.value]. by rewrite Hjson.
Qed.

(** X17: When the request fails, getCurrentWeather throws the message
    that handleApiError words and serves no stale reading: a row older
    than 60 minutes has been deleted by then. *)
Theorem getCurrentWeather_request_fails (latitude longitude : N) (s : Cache.State)
    (db : gmap string Cache.Entry)
    (request : WeatherApi.Request (option (WeatherApi.Current N)))
    (error : WeatherApi.Thrown) :
  Cache.table s = Some db →
  (∀ e, db !! WeatherApi.weatherKey numberToString latitude longitude = Some e →
        60 * 60 * 1000 < Cache.clock s - Cache.timestamp e) →
  WeatherApi.outcome request = WeatherApi.Rejected error →
  WeatherApi.getCurrentWeather numberToString latitude longitude true request s
  = (Throw (WeatherApi.handleApiError error "Failed to fetch weather data"),
     {| Cache.table :=
          Some (delete (WeatherApi.weatherKey numberToString latitude longitude) db);
        Cache.clock := Cache.clock s + WeatherApi.elapsed request |})
  ∧ (error = WeatherApi.AxiosError None →
      WeatherApi.handleApiError error "Failed to fetch weather data"
      = "No internet connection. Please check your network.")
  ∧ (∀ response, error = WeatherApi.AxiosError (Some response) →
      WeatherApi.handleApiError error "Failed to fetch weather data"
      = WeatherApi.string_or_else response "Failed to fetch weather data").
Proof.
  intros Hdb Hstale Hout. split; [|split; [by intros ->|intros [[|a r]|] ->; done]].
  set (key := WeatherApi.weatherKey numberToString latitude longitude) in *.
  destruct (db !! key) as [e|] eqn:Hkey.
  - rewrite (getCurrentWeather_request latitude longitude true request s
               {| Cache.table := Some (delete key db); Cache.clock := Cache.clock s |}
               (delete key db));
      [by rewrite Hout| |done].
    apply (getCache_expired s db _ 60 e Hdb Hkey). by apply Hstale.
  - rewrite (getCurrentWeather_request latitude longitude true request s s db);
      [|by apply (getCache_absent s db)|done].
    rewrite Hout. unfold Cache.later. rewrite Hdb. by rewrite delete_id.
Qed.

(** X18: Without an initialised database getCurrentWeather cannot
    answer: a call that may use the cache throws before any request, and a
    call that may not throws after a request that succeeded, losing the
    reading. *)
Theorem getCurrentWeather_without_database (latitude longitude : N) (s : Cache.State)
    (request : WeatherApi.Request (option (WeatherApi.Current N))) :
  Cache.table s = None →
  WeatherApi.getCurrentWeather numberToString latitude longitude true request s
  = (Throw notInitialized, s)
  ∧ (∀ current, WeatherApi.outcome request = WeatherApi.Resolved (Some current) →
      WeatherApi.getCurrentWeather numberToString latitude longitude false request s
      = (Throw notInitialized, Cache.later (WeatherApi.elapsed request) s)).
Proof.
  intros Hdb. split.
  - unfold WeatherApi.getCurrentWeather.
    by rewrite (action_bind_Throw _ _ s s notInitialized (getCache_None s _ 60 Hdb)).
  - intros current Hout. unfold WeatherApi.getCurrentWeather.
    rewrite (action_bind_Ok (mret None) _ s s None eq_refl). rewrite Hout.
    by rewrite (setCache_None (Cache.later (WeatherApi.elapsed request) s)).
Qed.
End WeatherFacts.

Section DroughtFacts.
Context {N : Type} {number : Number N}.
Variable numberToString : N → string.
Variable isoDate : Z → string.
Context {jsonWeather : Json (OpenMeteo.WeatherData N)}
  {jsonClimate : Json (WeatherApi.ClimateData N)}
  {jsonDrought : Json (WeatherApi.DroughtIndicator N)}.

Lemma getHistoricalClimate_refresh (latitude longitude : N) (startDate endDate : string)
    (request : WeatherApi.Request (option (WeatherApi.Daily N)))
    (s : Cache.State) (db : gmap string Cache.Entry) :
  Cache.table s = Some db →
  WeatherApi.getHistoricalClimate numberToString latitude longitude startDate endDate
    false request s
  = match WeatherApi.outcome request with
    | WeatherApi.Rejected error =>
        (Throw (WeatherApi.handleApiError error "Failed to fetch climate data"),
         Cache.later (WeatherApi.elapsed request) s)
    | WeatherApi.Resolved None =>
        (Throw "TypeError: Cannot read property 'precipitation_sum' of undefined",
         Cache.later (WeatherApi.elapsed request) s)
    | WeatherApi.Resolved (Some daily) =>
        (Ok (climateOf latitude longitude daily),
         withRow (Cache.later (WeatherApi.elapsed request) s) db
           (WeatherApi.climateKey numberToString latitude longitude startDate endDate)
           (stringify (climateOf latitude longitude daily)))
    end.
Proof.
  intros Hdb. unfold WeatherApi.getHistoricalClimate.
  rewrite (action_bind_Ok (mret None) _ s s None eq_refl).
  destruct (WeatherApi.outcome request) as [[daily|]|error]; [|done|done].
  rewrite (setCache_Some (Cache.later (WeatherApi.elapsed request) s) db); done.
Qed.

(** The dates of the request of getDroughtIndicator. *)
Lemma getDroughtIndicator_refresh (latitude longitude : N) (days : Z)
    (request : WeatherApi.Request (option (WeatherApi.Daily N))) (s : Cache.State) :
  WeatherApi.getDroughtIndicator numberToString isoDate latitude longitude days false
    request s
  = match WeatherApi.getHistoricalClimate numberToString latitude longitude
            (isoDate (Cache.clock s - days * 24 * 60 * 60 * 1000))
            (isoDate (Cache.clock s)) false request s with
    | (Throw message, s) => (Throw message, s)
    | (Ok climateData, s) =>
        match Cache.setCache (WeatherApi.droughtKey numberToString latitude longitude days)
                (WeatherApi.droughtOf (WeatherApi.dailyRainfall climateData)) 120 s with
        | (Ok _, s) =>
            (Ok (WeatherApi.droughtOf (WeatherApi.dailyRainfall climateData)), s)
        | (Throw message, s) => (Throw message, s)
        end
    end.
Proof. reflexivity. Qed.

Lemma getDroughtIndicator_resolved (latitude longitude : N) (days : Z)
    (request : WeatherApi.Request (option (WeatherApi.Daily N)))
    (daily : WeatherApi.Daily N) (s : Cache.State) (db : gmap string Cache.Entry) :
  Cache.table s = Some db →
  WeatherApi.outcome request = WeatherApi.Resolved (Some daily) →
  ∃ s',
    WeatherApi.getDroughtIndicator numberToString isoDate latitude longitude days false
      request s
    = (Ok (WeatherApi.droughtOf (WeatherApi.precipitation_sum daily)), s')
    ∧ Cache.clock s' = Cache.clock s + WeatherApi.elapsed request
    ∧ ∃ db', Cache.table s' = Some db'
        ∧ is_Some (db' !! WeatherApi.droughtKey numberToString latitude longitude days)
        ∧ is_Some (db' !! WeatherApi.climateKey numberToString latitude longitude
                            (isoDate (Cache.clock s - days * 24 * 60 * 60 * 1000))
                            (isoDate (Cache.clock s))).
Proof.
  intros Hdb Hout. rewrite getDroughtIndicator_refresh.
  rewrite (getHistoricalClimate_refresh _ _ _ _ request s db Hdb), Hout.
  unfold withRow at 1.
  erewrite setCache_Some by reflexivity. eexists. split; [reflexivity|].
  cbn. split; [done|]. eexists. split; [done|]. split.
  - rewrite lookup_insert_eq. by eexists.
  - destruct (decide (WeatherApi.droughtKey numberToString latitude longitude days
                      = WeatherApi.climateKey numberToString latitude longitude
                          (isoDate (Cache.clock s - days * 24 * 60 * 60 * 1000))
                          (isoDate (Cache.clock s)))) as [<-|Hne].
    + rewrite lookup_insert_eq. by eexists.
    + rewrite lookup_insert_ne, lookup_insert_eq by done. by eexists.
Qed.

(** The keys of the two rows differ. *)
Lemma droughtKey_climateKey (latitude longitude : N) (days : Z) (startDate endDate : string) :
  WeatherApi.droughtKey numberToString latitude longitude days
  ≠ WeatherApi.climateKey numberToString latitude longitude startDate endDate.
Proof. unfold WeatherApi.droughtKey, WeatherApi.climateKey. cbn. discriminate. Qed.

(** X19: On the native database, a refreshing call of getDroughtIndicator
    whose request succeeds returns the mean of the daily rainfall (the sum
    of the series over its length) and whether it is below 1.5, and leaves
    two rows in the cache: the series and the indicator.  When the request
    fails, the message thrown is the one of getHistoricalClimate: the
    wording of getDroughtIndicator's own [catch] is not used, since what it
    catches is an [Error] already. *)
Theorem getDroughtIndicator_refreshing (latitude longitude : N) (days : Z)
    (request : WeatherApi.Request (option (WeatherApi.Daily N)))
    (s : Cache.State) (db : gmap string Cache.Entry) :
  Cache.table s = Some db →
  (∀ daily, WeatherApi.outcome request = WeatherApi.Resolved (Some daily) →
     ∃ indicator s',
       WeatherApi.getDroughtIndicator numberToString isoDate latitude longitude days false
         request s
       = (Ok indicator, s')
       ∧ WeatherApi.avgPrecipitation indicator
         = (total (WeatherApi.precipitation_sum daily)
            / of_nat (length (WeatherApi.precipitation_sum daily)))%num
       ∧ WeatherApi.isDroughtRisk indicator
         = (WeatherApi.avgPrecipitation indicator <? dec 15 10)%num
       ∧ Cache.clock s' = Cache.clock s + WeatherApi.elapsed request
       ∧ ∃ db', Cache.table s' = Some db'
           ∧ db' !! WeatherApi.droughtKey numberToString latitude longitude days
             = Some {| Cache.value := stringify indicator;
                       Cache.timestamp := Cache.clock s + WeatherApi.elapsed request |}
           ∧ db' !! WeatherApi.climateKey numberToString latitude longitude
                      (isoDate (Cache.clock s - days * 24 * 60 * 60 * 1000))
                      (isoDate (Cache.clock s))
             = Some {| Cache.value := stringify (climateOf latitude longitude daily);
                       Cache.timestamp := Cache.clock s + WeatherApi.elapsed request |})
  ∧ (∀ error, WeatherApi.outcome request = WeatherApi.Rejected error →
       WeatherApi.getDroughtIndicator numberToString isoDate latitude longitude days false
         request s
       = (Throw (WeatherApi.handleApiError error "Failed to fetch climate data"),
          Cache.later (WeatherApi.elapsed request) s)).
Proof.
  intros Hdb. split.
  - intros daily Hout. rewrite getDroughtIndicator_refresh.
    rewrite (getHistoricalClimate_refresh _ _ _ _ request s db Hdb), Hout.
    unfold withRow at 1.
    erewrite setCache_Some by reflexivity. eexists _, _. split; [reflexivity|].
    split.
    { unfold WeatherApi.droughtOf, climateOf.
      cbn [WeatherApi.avgPrecipitation WeatherApi.dailyRainfall].
      by rewrite reduce_sum_id. }
    cbn. split; [done|]. split; [done|].
    eexists. split; [done|]. split.
    + by rewrite lookup_insert_eq.
    + rewrite lookup_insert_ne by apply droughtKey_climateKey.
      by rewrite lookup_insert_eq.
  - intros error Hout. rewrite getDroughtIndicator_refresh.
    by rewrite (getHistoricalClimate_refresh _ _ _ _ request s db Hdb), Hout.
Qed.
End DroughtFacts.

(** X20: In doubles: a response without a daily value gives an average that
    is not a number (0 over 0) and, since no comparison holds of it, no
    risk of drought. *)
Theorem getDroughtIndicator_empty_series (numberToString : float → string)
    (isoDate : Z → string) (jsonClimate : Json (WeatherApi.ClimateData float))
    (jsonDrought : Json (WeatherApi.DroughtIndicator float))
    (latitude longitude : float) (days : Z)
    (request : WeatherApi.Request (option (WeatherApi.Daily float)))
    (daily : WeatherApi.Daily float) (s : Cache.State) (db : gmap string Cache.Entry) :
  Cache.table s = Some db →
  WeatherApi.outcome request = WeatherApi.Resolved (Some daily) →
  WeatherApi.precipitation_sum daily = [] →
  ∃ indicator s',
    WeatherApi.getDroughtIndicator numberToString isoDate latitude longitude days false
      request s = (Ok indicator, s')
    ∧ PrimFloat.is_nan (WeatherApi.avgPrecipitation indicator) = true
    ∧ WeatherApi.isDroughtRisk indicator = false.
Proof.
  intros Hdb Hout Hnone.
  destruct (getDroughtIndicator_resolved numberToString isoDate latitude longitude days
              request daily s db Hdb Hout) as (s' & Hrun & _).
  eexists _, s'. split; [exact Hrun|]. rewrite Hnone. split; reflexivity.
Qed.

(** The key of the default location, in the writing of the language. *)
Lemma weatherKey_tehran :
  WeatherApi.weatherKey float_toString tehranLatitude tehranLongitude
  = "weather_35.6892_51.389".
Proof. vm_compute. reflexivity. Qed.

Lemma getCurrentWeather_cache_hit_witness :
  (Cache.table (cachedRain 1000) = Some (rainCached 1000)
   ∧ rainCached 1000 !! WeatherApi.weatherKey float_toString tehranLatitude tehranLongitude
     = Some {| Cache.value := rainText; Cache.timestamp := 1710504000000 - 1000 |}
   ∧ Cache.clock (cachedRain 1000) - (1710504000000 - 1000) ≤ 60 * 60 * 1000
   ∧ parse (Json:=jsonRain) rainText = Ok rainAtTehran)
  ∧ ∀ request,
      WeatherApi.getCurrentWeather (jsonWeather:=jsonRain) float_toString tehranLatitude
        tehranLongitude true request (cachedRain 1000)
      = (Ok rainAtTehran, cachedRain 1000).
Proof.
  assert (rainCached 1000
            !! WeatherApi.weatherKey float_toString tehranLatitude tehranLongitude
          = Some {| Cache.value := rainText; Cache.timestamp := 1710504000000 - 1000 |})
    as Hrow by (rewrite weatherKey_tehran; reflexivity).
  split; [split; [reflexivity|split; [exact Hrow|split; [cbn; lia|reflexivity]]]|].
  apply (getCurrentWeather_cache_hit (jsonWeather:=jsonRain) float_toString
           tehranLatitude tehranLongitude (cachedRain 1000) (rainCached 1000)
           {| Cache.value := rainText; Cache.timestamp := 1710504000000 - 1000 |}
           rainAtTehran);
    [reflexivity|exact Hrow|cbn; lia|reflexivity].
Defined.

Lemma getCurrentWeather_fetch_then_hit_witness :
  (Cache.table emptyCache = Some ∅
   ∧ (true = false
      ∨ (∅ : gmap string Cache.Entry)
          !! WeatherApi.weatherKey float_toString tehranLatitude tehranLongitude = None)
   ∧ WeatherApi.outcome answered = WeatherApi.Resolved (Some (currentOf 5))
   ∧ parse (Json:=jsonRain)
       (stringify (Json:=jsonRain) (weatherOf tehranLatitude tehranLongitude (currentOf 5)))
     = Ok (weatherOf tehranLatitude tehranLongitude (currentOf 5)))
  ∧ ∃ s1,
      WeatherApi.getCurrentWeather (jsonWeather:=jsonRain) float_toString tehranLatitude
        tehranLongitude true answered emptyCache
      = (Ok (weatherOf tehranLatitude tehranLongitude (currentOf 5)), s1)
      ∧ ∀ d request', d ≤ 60 * 60 * 1000 →
          WeatherApi.getCurrentWeather (jsonWeather:=jsonRain) float_toString tehranLatitude
            tehranLongitude true request' (Cache.later d s1)
          = (Ok (weatherOf tehranLatitude tehranLongitude (currentOf 5)), Cache.later d s1).
Proof.
  split; [split; [reflexivity|split; [by right|split; reflexivity]]|].
  apply (getCurrentWeather_fetch_then_hit (jsonWeather:=jsonRain) float_toString
           tehranLatitude tehranLongitude true emptyCache ∅ answered (currentOf 5));
    [reflexivity|by right|reflexivity|reflexivity].
Defined.

Lemma getCurrentWeather_request_fails_witness :
  (Cache.table (cachedRain 7200000) = Some (rainCached 7200000)
   ∧ (∀ e, rainCached 7200000
             !! WeatherApi.weatherKey float_toString tehranLatitude tehranLongitude = Some e →
           60 * 60 * 1000 < Cache.clock (cachedRain 7200000) - Cache.timestamp e)
   ∧ WeatherApi.outcome offline = WeatherApi.Rejected (WeatherApi.AxiosError None))
  ∧ WeatherApi.getCurrentWeather (jsonWeather:=jsonRain) float_toString tehranLatitude
      tehranLongitude true offline (cachedRain 7200000)
    = (Throw (WeatherApi.handleApiError (WeatherApi.AxiosError None)
                "Failed to fetch weather data"),
       {| Cache.table :=
            Some (delete (WeatherApi.weatherKey float_toString tehranLatitude tehranLongitude)
                    (rainCached 7200000));
          Cache.clock := Cache.clock (cachedRain 7200000) + WeatherApi.elapsed offline |})
  ∧ (WeatherApi.AxiosError None = WeatherApi.AxiosError None →
      WeatherApi.handleApiError (WeatherApi.AxiosError None) "Failed to fetch weather data"
      = "No internet connection. Please check your network.")
  ∧ (∀ response, WeatherApi.AxiosError None = WeatherApi.AxiosError (Some response) →
      WeatherApi.handleApiError (WeatherApi.AxiosError None) "Failed to fetch weather data"
      = WeatherApi.string_or_else response "Failed to fetch weather data").
Proof.
  assert (∀ e, rainCached 7200000
                 !! WeatherApi.weatherKey float_toString tehranLatitude tehranLongitude = Some e →
               60 * 60 * 1000 < Cache.clock (cachedRain 7200000) - Cache.timestamp e)
    as Hstale.
  { intros e. rewrite weatherKey_tehran. unfold rainCached.
    rewrite lookup_singleton_eq. intros [= <-]. cbn. lia. }
  split; [split; [reflexivity|split; [exact Hstale|reflexivity]]|].
  apply (getCurrentWeather_request_fails (jsonWeather:=jsonRain) float_toString
           tehranLatitude tehranLongitude (cachedRain 7200000) (rainCached 7200000)
           offline (WeatherApi.AxiosError None)); [reflexivity|exact Hstale|reflexivity].
Defined.

Lemma getCurrentWeather_without_database_witness :
  Cache.table noDatabase = None
  ∧ WeatherApi.getCurrentWeather (jsonWeather:=jsonRain) float_toString tehranLatitude
      tehranLongitude true answered noDatabase
    = (Throw notInitialized, noDatabase)
  ∧ (∀ current, WeatherApi.outcome answered = WeatherApi.Resolved (Some current) →
      WeatherApi.getCurrentWeather (jsonWeather:=jsonRain) float_toString tehranLatitude
        tehranLongitude false answered noDatabase
      = (Throw notInitialized, Cache.later (WeatherApi.elapsed answered) noDatabase)).
Proof.
  split; [reflexivity|].
  apply (getCurrentWeather_without_database (jsonWeather:=jsonRain) float_toString
           tehranLatitude tehranLongitude noDatabase answered). reflexivity.
Defined.

Lemma getDroughtIndicator_refreshing_witness :
  Cache.table emptyCache = Some ∅
  ∧ (∀ daily, WeatherApi.outcome answeredThreeDays = WeatherApi.Resolved (Some daily) →
       ∃ indicator s',
         WeatherApi.getDroughtIndicator (jsonClimate:=jsonClimateThreeDays)
           (jsonDrought:=jsonDroughtThreeDays) float_toString isoDateUTC tehranLatitude
           tehranLongitude 30 false answeredThreeDays emptyCache
         = (Ok indicator, s')
         ∧ WeatherApi.avgPrecipitation indicator
           = (total (WeatherApi.precipitation_sum daily)
              / of_nat (length (WeatherApi.precipitation_sum daily)))%num
         ∧ WeatherApi.isDroughtRisk indicator
           = (WeatherApi.avgPrecipitation indicator <? dec 15 10)%num
         ∧ Cache.clock s' = Cache.clock emptyCache + WeatherApi.elapsed answeredThreeDays
         ∧ ∃ db', Cache.table s' = Some db'
             ∧ db' !! WeatherApi.droughtKey float_toString tehranLatitude tehranLongitude 30
               = Some {| Cache.value := stringify (Json:=jsonDroughtThreeDays) indicator;
                         Cache.timestamp :=
                           Cache.clock emptyCache + WeatherApi.elapsed answeredThreeDays |}
             ∧ db' !! WeatherApi.climateKey float_toString tehranLatitude tehranLongitude
                        (isoDateUTC (Cache.clock emptyCache - 30 * 24 * 60 * 60 * 1000))
                        (isoDateUTC (Cache.clock emptyCache))
               = Some {| Cache.value :=
                           stringify (Json:=jsonClimateThreeDays)
                             (climateOf tehranLatitude tehranLongitude daily);
                         Cache.timestamp :=
                           Cache.clock emptyCache + WeatherApi.elapsed answeredThreeDays |})
  ∧ (∀ error, WeatherApi.outcome answeredThreeDays = WeatherApi.Rejected error →
       WeatherApi.getDroughtIndicator (jsonClimate:=jsonClimateThreeDays)
         (jsonDrought:=jsonDroughtThreeDays) float_toString isoDateUTC tehranLatitude
         tehranLongitude 30 false answeredThreeDays emptyCache
       = (Throw (WeatherApi.handleApiError error "Failed to fetch climate data"),
          Cache.later (WeatherApi.elapsed answeredThreeDays) emptyCache)).
Proof.
  split; [reflexivity|].
  apply (getDroughtIndicator_refreshing (jsonClimate:=jsonClimateThreeDays)
           (jsonDrought:=jsonDroughtThreeDays) float_toString isoDateUTC tehranLatitude
           tehranLongitude 30 answeredThreeDays emptyCache ∅). reflexivity.
Defined.

(** The indicator of the three days and the rows it leaves. *)
Example drought_of_three_days :
  let run :=
    WeatherApi.getDroughtIndicator (jsonClimate:=jsonClimateThreeDays)
      (jsonDrought:=jsonDroughtThreeDays) float_toString isoDateUTC tehranLatitude
      tehranLongitude 30 false answeredThreeDays emptyCache in
  run.1 = Ok riskOfThreeDays
  ∧ Cache.table run.2
    = Some {["drought_35.6892_51.389_30" :=
               {| Cache.value := riskText; Cache.timestamp := 1710504000400 |};
             "climate_35.6892_51.389_2024-02-14_2024-03-15" :=
               {| Cache.value := threeDaysText; Cache.timestamp := 1710504000400 |}]}.
Proof. vm_compute. split; reflexivity. Qed.

Lemma getDroughtIndicator_empty_series_witness :
  (Cache.table emptyCache = Some ∅
   ∧ WeatherApi.outcome answeredNoDays = WeatherApi.Resolved (Some noDays)
   ∧ WeatherApi.precipitation_sum noDays = [])
  ∧ ∃ indicator s',
      WeatherApi.getDroughtIndicator (jsonClimate:=jsonClimateSample)
        (jsonDrought:=jsonDroughtSample) float_toString isoDateUTC tehranLatitude
        tehranLongitude 30 false answeredNoDays emptyCache
      = (Ok indicator, s')
      ∧ PrimFloat.is_nan (WeatherApi.avgPrecipitation indicator) = true
      ∧ WeatherApi.isDroughtRisk indicator = false.
Proof.
  split; [split; [|split]; reflexivity|].
  apply (getDroughtIndicator_empty_series float_toString isoDateUTC jsonClimateSample
           jsonDroughtSample tehranLatitude tehranLongitude 30 answeredNoDays noDays
           emptyCache ∅); reflexivity.
Defined.

(** A first call fetches, a second one half an hour later does not need
    the network, a third one two hours later does. *)
Example weather_calls :
  let first :=
    WeatherApi.getCurrentWeather (jsonWeather:=jsonRain) float_toString tehranLatitude
      tehranLongitude true answered emptyCache in
  let second :=
    WeatherApi.getCurrentWeather (jsonWeather:=jsonRain) float_toString tehranLatitude
      tehranLongitude true offline (Cache.later 1800000 first.2) in
  let third :=
    WeatherApi.getCurrentWeather (jsonWeather:=jsonRain) float_toString tehranLatitude
      tehranLongitude true offline (Cache.later 7200000 first.2) in
  first.1 = Ok rainAtTehran ∧ second.1 = Ok rainAtTehran
  ∧ third.1 = Throw "No internet connection. Please check your network."
  ∧ Cache.table third.2 = Some ∅.
Proof. vm_compute. repeat split. Qed.

(** The texts of the samples, between the braces: the members of the
    objects in the order of the source. *)
Example json_texts :
  rainText
  = "{" +:+ jsonMember "latitude" "35.6892" +:+ "," +:+ jsonMember "longitude" "51.389"
      +:+ "," +:+ jsonMember "temperature" "20" +:+ "," +:+ jsonMember "humidity" "50"
      +:+ "," +:+ jsonMember "precipitation" "5" +:+ "," +:+ jsonMember "windSpeed" "3"
      +:+ "," +:+ jsonMember "weatherCode" "61" +:+ "}"
  ∧ riskText
    = "{" +:+ jsonMember "avgPrecipitation" "1" +:+ "," +:+ jsonMember "isDroughtRisk" "true"
        +:+ "}"
  ∧ threeDaysText
    = "{" +:+ jsonMember "latitude" "35.6892" +:+ "," +:+ jsonMember "longitude" "51.389"
        +:+ "," +:+ jsonMember "dailyRainfall" "[0,3,0]"
        +:+ "," +:+ jsonMember "dailyTemperature" "[12,13,14]"
        +:+ "," +:+ jsonMember "dates"
                      (jsonArray [jsonString "2024-03-13"; jsonString "2024-03-14";
                                  jsonString "2024-03-15"])
        +:+ "}".
Proof. vm_compute. repeat split. Qed.

(** ** The descriptions of the weather codes *)

(** X21: The two tables of the weather codes know the same codes:
    getWeatherDescription answers Unknown exactly when
    getWeatherDescriptionKey answers weather.unknown, which is the case for
    every number that is not one of the integers of the tables.  A key
    always starts with the prefix of the translations, and no description
    is empty. *)
Theorem weather_descriptions_agree (code : float) :
  (WeatherApi.getWeatherDescriptionKey code = "weather.unknown"
   ↔ WeatherApi.getWeatherDescription code = "Unknown")
  ∧ (WeatherApi.integerOf code = None →
      WeatherApi.getWeatherDescription code = "Unknown")
  ∧ (∃ name, WeatherApi.getWeatherDescriptionKey code = "weather." +:+ name)
  ∧ WeatherApi.getWeatherDescription code ≠ EmptyString.
Proof.
  unfold WeatherApi.getWeatherDescriptionKey, WeatherApi.getWeatherDescription.
  destruct (WeatherApi.integerOf code) as [z|]; cbn [mbind option_bind].
  - unfold WeatherApi.weatherCodeKeys, WeatherApi.weatherCodes, WeatherApi.property.
    repeat case_bool_decide; cbn [WeatherApi.string_or_else];
      (split; [split; intros; done|]); (split; [done|]);
      (split; [eexists; reflexivity|done]).
  - cbn. split; [done|]. split; [done|]. split; [by eexists|done].
Qed.

Example weather_descriptions :
  WeatherApi.getWeatherDescription 61 = "Slight rain"
  ∧ WeatherApi.getWeatherDescriptionKey 61 = "weather.slightRain"
  ∧ WeatherApi.getWeatherDescription (-0) = "Clear sky"
  ∧ WeatherApi.getWeatherDescription 1.5 = "Unknown"
  ∧ WeatherApi.getWeatherDescription 4 = "Unknown"
  ∧ WeatherApi.getWeatherDescriptionKey (0 / 0) = "weather.unknown".
Proof. vm_compute. repeat split. Qed.

(** ** The tip of the day *)

(** X11: Whatever number below 1 and not below 0 [Math.random()] returns,
    getQuickTip returns one of its eight tips, never [undefined]. *)
Theorem getQuickTip_defined (random : Q) :
  (0 <= random)%Q → (random < 1)%Q →
  ∃ tip, getQuickTip random = Some tip ∧ tip ∈ tips.
Proof.
  intros H0 H1. unfold getQuickTip. set (index := Qfloor _).
  assert (0 ≤ index < 8) as Hindex.
  { unfold index. change (Z.of_nat (length tips)) with 8. split.
    - change 0 with (Qfloor (inject_Z 0)). apply Qfloor_resp_le.
      change (inject_Z 0) with (0 * inject_Z 8)%Q. by apply Qmult_le_compat_r.
    - apply Z.lt_nge. intros Hge. rewrite Zle_Qle in Hge.
      pose proof (Qfloor_le (random * inject_Z 8)) as Hfl.
      assert (random * inject_Z 8 < inject_Z 8)%Q as Hlt.
      { change (inject_Z 8) at 2 with (1 * inject_Z 8)%Q.
        by apply Qmult_lt_compat_r. }
      apply (Qlt_irrefl (inject_Z 8)).
      eapply Qle_lt_trans; [exact Hge|]. eapply Qle_lt_trans; [exact Hfl|exact Hlt]. }
  clearbody index. rewrite bool_decide_eq_true_2 by lia.
  destruct (tips !! Z.to_nat index) as [tip|] eqn:Htip.
  - exists tip. split; [done|]. by eapply list_elem_of_lookup_2.
  - apply lookup_ge_None in Htip. change (length tips) with 8%nat in Htip. lia.
Qed.

Lemma getQuickTip_defined_witness :
  ((0 <= 999 # 1000)%Q ∧ (999 # 1000 < 1)%Q)
  ∧ ∃ tip, getQuickTip (999 # 1000) = Some tip ∧ tip ∈ tips.
Proof.
  assert (0 <= 999 # 1000)%Q as H0 by (unfold Qle; cbn; lia).
  assert (999 # 1000 < 1)%Q as H1 by (unfold Qlt; cbn; lia).
  split; [by split|]. by apply (getQuickTip_defined (999 # 1000)).
Defined.

Example quick_tips :
  getQuickTip 0 = Some "A 5-minute shower uses about 50 liters of water. Try to keep it under 4 minutes!"
  ∧ getQuickTip (999 # 1000) = Some "Water your garden early in the morning to reduce evaporation."
  ∧ getQuickTip 1 = None.
Proof. vm_compute. repeat split. Qed.

(** ** The database of the web platform *)

Lemma web_table_name (a b : string) :
  ("waterwise_" +:+ a : string) = "waterwise_" +:+ b → a = b.
Proof. cbn. by intros [=]. Qed.

Lemma getTable_saveTable_ne (a b : string) (data : list Web.Obj) (storage : Web.Storage) :
  a ≠ b → Web.getTable a (Web.saveTable b data storage) = Web.getTable a storage.
Proof.
  intros Hne. destruct storage as [items|]; [|done]. cbn [Web.saveTable Web.getTable].
  rewrite lookup_insert_ne; [done|]. intros H%web_table_name. by apply Hne.
Qed.

Lemma getTable_saveTable (a : string) (data : list Web.Obj)
    (items : gmap string (list Web.Obj)) :
  Web.getTable a (Web.saveTable a data (Some items)) = Web.jsonObj <$> data.
Proof. cbn [Web.saveTable Web.getTable]. by rewrite lookup_insert_eq. Qed.

(** No statement writes the table of the cache. *)
Lemma runAsync_cache (query : string) (params : list Web.Value) (storage : Web.Storage) :
  Web.getTable "cache" (Web.runAsync query params storage).2 = Web.getTable "cache" storage.
Proof.
  unfold Web.runAsync.
  repeat (destruct (Web.includes _ _); [cbn [snd]; try by apply getTable_saveTable_ne|]).
  - destruct (list_find _ _) as [[index b]|]; cbn [snd]; by apply getTable_saveTable_ne.
  - done.
Qed.

Lemma runAll_cache (statements : list (string * list Web.Value)) (storage : Web.Storage) :
  Web.getTable "cache" (Web.runAll statements storage) = Web.getTable "cache" storage.
Proof.
  revert storage. induction statements as [|st statements IH]; intros storage; [done|].
  unfold Web.runAll in *. cbn [foldl]. by rewrite IH, runAsync_cache.
Qed.

Section WebFacts.
Variable numberToString : float → string.
Variable stringToNumber : string → float.
Variable getTime : Web.Value → option Z.
Variable lessEq : Web.Value → Web.Value → bool.

(** X22: On the web platform the cache keeps nothing: the statement of
    setCache changes no table, whatever its arguments, and so do those of
    deleteCache, clearOldCache and clearAllCache; and as long as
    [localStorage] holds no table of the cache to begin with, the query of
    getCache finds no row after any statements whatever, so that getCache
    answers [null] and every request goes to the network. *)
Theorem web_cache_keeps_nothing (storage : Web.Storage)
    (statements : list (string * list Web.Value)) (params : list Web.Value) :
  Web.getTable "cache" storage = [] →
  Web.runAsync Web.setCacheStatement params storage
  = ({| Web.lastInsertRowId := 0; Web.changes := 0 |}, storage)
  ∧ Web.runAll [(Web.deleteCacheStatement, params); (Web.clearOldCacheStatement, params);
                (Web.clearAllCacheStatement, params)] storage = storage
  ∧ Web.getFirstAsync numberToString stringToNumber Web.getCacheQuery params
      (Web.runAll statements storage) = None.
Proof.
  intros Hcache. split; [done|]. split; [done|].
  unfold Web.getFirstAsync.
  change (Web.includes (Web.toLowerCase Web.getCacheQuery) "from bills") with false.
  change (Web.includes (Web.toLowerCase Web.getCacheQuery) "from usage") with false.
  change (Web.includes (Web.toLowerCase Web.getCacheQuery) "from cache") with true.
  cbv iota. by rewrite runAll_cache, Hcache.
Qed.

(** X23: On the web platform getAverageDailyUsage is 0 whatever the table of
    the usage holds: its query is taken for the one of a sum, the object
    that comes back has a [total] and no [avg], and [result?.avg || 0] is
    0. *)
Theorem web_getAverageDailyUsage_zero (startDateStr : Z → string) (days : Z)
    (storage : Web.Storage) :
  Web.getAverageDailyUsage numberToString stringToNumber startDateStr days storage
  = Web.VNumber 0.
Proof.
  unfold Web.getAverageDailyUsage, Web.getFirstAsync.
  set (query := Web.toLowerCase _).
  change (Web.includes query "from bills") with false.
  change (Web.includes query "from usage") with true.
  change (Web.includes query "sum(liters)") with true.
  cbv iota. cbn [fmap option_fmap option_map default]. unfold Web.get.
  by rewrite lookup_singleton_ne.
Qed.

(** X24: On the web platform getUsageByDate does not select by the date: it
    returns every row of the usage, as getAllUsage does (the filter of
    getAllAsync wants two arguments). *)
Theorem web_getUsageByDate_unfiltered (date : string) (storage : Web.Storage) :
  Web.getUsageByDate getTime lessEq date storage = Web.getAllUsage getTime lessEq storage.
Proof.
  unfold Web.getUsageByDate, Web.getAllUsage, Web.getAllAsync.
  set (q1 := Web.toLowerCase _). set (q2 := Web.toLowerCase _).
  change (Web.includes q1 "from bills") with false.
  change (Web.includes q1 "from usage") with true.
  change (Web.includes q2 "from bills") with false.
  change (Web.includes q2 "from usage") with true.
  done.
Qed.
End WebFacts.

Lemma web_cache_keeps_nothing_witness :
  Web.getTable "cache" (Some ∅) = []
  ∧ Web.runAsync Web.setCacheStatement
      [Web.VString "weather_35.6892_51.389"; Web.VString rainText;
       Web.VNumber 1710504000000] (Some ∅)
    = ({| Web.lastInsertRowId := 0; Web.changes := 0 |}, Some ∅)
  ∧ Web.runAll
      [(Web.deleteCacheStatement,
        [Web.VString "weather_35.6892_51.389"; Web.VString rainText;
         Web.VNumber 1710504000000]);
       (Web.clearOldCacheStatement,
        [Web.VString "weather_35.6892_51.389"; Web.VString rainText;
         Web.VNumber 1710504000000]);
       (Web.clearAllCacheStatement,
        [Web.VString "weather_35.6892_51.389"; Web.VString rainText;
         Web.VNumber 1710504000000])] (Some ∅) = Some ∅
  ∧ Web.getFirstAsync (toFixed 0) (λ _, 0%float) Web.getCacheQuery
      [Web.VString "weather_35.6892_51.389"; Web.VString rainText;
       Web.VNumber 1710504000000]
      (Web.runAll
         [(Web.setCacheStatement,
           [Web.VString "weather_35.6892_51.389"; Web.VString rainText;
            Web.VNumber 1710504000000])] (Some ∅)) = None.
Proof.
  split; [reflexivity|].
  apply (web_cache_keeps_nothing (toFixed 0) (λ _, 0%float) (Some ∅)
           [(Web.setCacheStatement,
             [Web.VString "weather_35.6892_51.389"; Web.VString rainText;
              Web.VNumber 1710504000000])]).
  reflexivity.
Defined.

Section WebRows.

Lemma jsonObj_lookup (o : Web.Obj) (k : string) :
  Web.jsonObj o !! k = o !! k ≫= Web.jsonValue.
Proof. unfold Web.jsonObj. apply lookup_omap. Qed.

Lemma jsonValue_orNull (s : option string) :
  Web.jsonValue (Web.orNull s) = Some (Web.orNull s).
Proof. by destruct s as [[|a s]|]. Qed.

(** X25: On the web platform addUsage appends a row whose id is the number of
    rows plus one, whether or not a row has that id already, and it stores
    of the event the liters, the date and, under the name description, the
    time: the description itself, the category and the location are not
    stored. *)
Theorem web_addUsage_row (usage : Usage float) (items : gmap string (list Web.Obj)) :
  ∃ row,
    Web.getTable "usage" (Web.addUsage usage (Some items))
    = (Web.jsonObj <$> Web.getTable "usage" (Some items)) ++ [row]
    ∧ row !! "id"
      = Web.jsonValue
          (Web.VNumber
             (PrimFloat.of_uint63
                (Uint63.of_Z (Z.of_nat (length (Web.getTable "usage" (Some items))))) + 1))
    ∧ row !! "liters" = Web.jsonValue (Web.VNumber (liters usage))
    ∧ row !! "date" = Some (Web.VString (usage_date usage))
    ∧ row !! "description" = Some (Web.orNull (time usage))
    ∧ ∀ k, k ∉ ["id"; "liters"; "date"; "description"] → row !! k = None.
Proof.
  unfold Web.addUsage, Web.runAsync.
  set (q := Web.toLowerCase _).
  change (Web.includes q "insert into bills") with false.
  change (Web.includes q "insert into usage") with true.
  cbv iota. cbn [snd]. rewrite getTable_saveTable, fmap_app. cbn [fmap list_fmap].
  eexists. split; [reflexivity|].
  unfold Web.newUsage. rewrite !jsonObj_lookup.
  change (Web.param ?l 0) with (Web.VNumber (liters usage)).
  change (Web.param ?l 1) with (Web.VString (usage_date usage)).
  change (Web.param ?l 2) with (Web.orNull (time usage)).
  split; [by rewrite lookup_insert_eq|].
  split; [by rewrite lookup_insert_ne, lookup_insert_eq|].
  split; [by rewrite !lookup_insert_ne, lookup_insert_eq by done|].
  split.
  - rewrite !lookup_insert_ne, lookup_singleton_eq by done. cbn. apply jsonValue_orNull.
  - intros k Hk. rewrite jsonObj_lookup.
    rewrite !lookup_insert_ne, lookup_singleton_ne; [done|set_solver..].
Qed.

(** X26: On the web platform addBill appends a row with the id, the amount,
    the date and the consumption.  The currency is not stored, and a row is
    appended also when the table has a row with that id. *)
Theorem web_addBill_row (bill : Bill float) (now : Z) (items : gmap string (list Web.Obj)) :
  ∃ row,
    Web.getTable "bills" (Web.addBill bill now (Some items))
    = (Web.jsonObj <$> Web.getTable "bills" (Some items)) ++ [row]
    ∧ row !! "id"
      = Some (Web.VString (match bill_id bill with
                           | String a s => String a s
                           | EmptyString => "BILL-" +:+ pretty now
                           end))
    ∧ row !! "amount" = Web.jsonValue (Web.VNumber (amount bill))
    ∧ row !! "date" = Some (Web.VString (bill_date bill))
    ∧ row !! "consumptionLiters" = Web.jsonValue (Web.VNumber (consumptionLiters bill))
    ∧ row !! "currency" = None.
Proof.
  unfold Web.addBill, Web.runAsync.
  set (q := Web.toLowerCase _).
  change (Web.includes q "insert into bills") with true.
  cbv iota. cbn [snd]. rewrite getTable_saveTable, fmap_app. cbn [fmap list_fmap].
  eexists. split; [reflexivity|].
  unfold Web.newBill. rewrite !jsonObj_lookup.
  split; [by rewrite lookup_insert_eq|].
  split; [by rewrite lookup_insert_ne, lookup_insert_eq|].
  split; [by rewrite !lookup_insert_ne, lookup_insert_eq by done|].
  split.
  - by rewrite !lookup_insert_ne, lookup_singleton_eq by done.
  - by rewrite !lookup_insert_ne, lookup_singleton_ne by done.
Qed.
End WebRows.

(** Two events, the first one deleted, a third one added: the new row
    gets the id 2, which the second event has; deleting the id 2 then
    removes both. *)
Example web_ids_collide :
  let s2 := Web.addUsage (mkUsage 0 30 "2024-03-02")
              (Web.addUsage (mkUsage 0 90 "2024-03-01") (Some ∅)) in
  let s4 := Web.addUsage (mkUsage 0 60 "2024-03-03") (Web.deleteUsage 1 s2) in
  (λ r, Web.get r "id") <$> Web.getTable "usage" s4 = [Web.VNumber 2; Web.VNumber 2]
  ∧ (λ r, Web.get r "liters") <$> Web.getTable "usage" s4
    = [Web.VNumber 30; Web.VNumber 60]
  ∧ Web.getTable "usage" (Web.deleteUsage 2 s4) = [].
Proof. vm_compute. repeat split. Qed.

(** ** Reminders and the daily goal *)

Section ReminderFacts.
Context {json : Json Notifications.NotificationSettings}.

Lemma getNotificationSettings_insert (items : gmap string string) (key value : string) :
  key ≠ Notifications.NOTIFICATION_STORAGE_KEY →
  Notifications.getNotificationSettings (Some (<[key := value]> items))
  = Notifications.getNotificationSettings (Some items).
Proof.
  intros Hne. unfold Notifications.getNotificationSettings, Notifications.getItem.
  by rewrite lookup_insert_ne.
Qed.

(** X27: shouldShowDailyReminder answers true at most once a day: a call that
    answers true records the day, and from then on every call on that day
    answers false and leaves the storage as it is; so does any call that
    does not answer true.  On another day the answer is true again. *)
Theorem shouldShowDailyReminder_once_a_day (today : string) (items : gmap string string) :
  (∀ storage, Notifications.shouldShowDailyReminder today (Some items) = (Ok true, storage) →
     storage = Some (<[Notifications.LAST_REMINDER_KEY := today]> items)
     ∧ Notifications.shouldShowDailyReminder today storage = (Ok false, storage)
     ∧ ∀ tomorrow, tomorrow ≠ today →
         (Notifications.shouldShowDailyReminder tomorrow storage).1 = Ok true)
  ∧ (∀ answer storage,
       Notifications.shouldShowDailyReminder today (Some items) = (answer, storage) →
       answer ≠ Ok true → storage = Some items).
Proof.
  unfold Notifications.shouldShowDailyReminder.
  pose proof (getNotificationSettings_insert items Notifications.LAST_REMINDER_KEY)
    as Hsettings.
  destruct (negb _ || negb _) eqn:Hoff.
  { split; [by intros storage [=]|by intros answer storage [= <- <-]]. }
  cbn [Notifications.getItem Notifications.setItem].
  destruct (bool_decide (items !! Notifications.LAST_REMINDER_KEY = Some today)) eqn:Hlast.
  { split; [by intros storage [=]|by intros answer storage [= <- <-]]. }
  split; [|by intros answer storage [= <- <-]].
  intros storage [= <-]. split; [done|].
  rewrite Hsettings by done. rewrite Hoff.
  cbn [Notifications.getItem Notifications.setItem]. split.
  - rewrite lookup_insert_eq. by rewrite bool_decide_eq_true_2.
  - intros tomorrow Hne. rewrite lookup_insert_eq.
    rewrite bool_decide_eq_false_2; [done|]. intros [=]. by apply Hne.
Qed.
End ReminderFacts.

(** *** The daily goal *)

Lemma digitOf_pretty_N_char (d : N) :
  (d < 10)%N → digitOf (pretty_N_char d) = Some (Z.of_N d).
Proof.
  intros Hd.
  assert (d = 0 ∨ d = 1 ∨ d = 2 ∨ d = 3 ∨ d = 4 ∨ d = 5 ∨ d = 6 ∨ d = 7 ∨ d = 8 ∨ d = 9)%N
    as Hc by lia.
  destruct Hc as [->|[->|[->|[->|[->|[->|[->|[->|[->| ->]]]]]]]]]; reflexivity.
Qed.

Lemma parseDigits_pretty_N_go (x : N) (s : string) (seen : bool) :
  (0 < x)%N →
  Notifications.parseDigits 0 seen (pretty_N_go x s)
  = Notifications.parseDigits (Z.of_N x) true s.
Proof.
  revert s seen. induction (N.lt_wf_0 x) as [x _ IH]; intros s seen Hx.
  rewrite pretty_N_go_step by done.
  pose proof (N.div_mod x 10 ltac:(done)) as Hdm.
  pose proof (N.mod_lt x 10 ltac:(done)) as Hmod.
  destruct (decide (x `div` 10 = 0)%N) as [Hdiv|Hdiv].
  - rewrite Hdiv, pretty_N_go_0. cbn [Notifications.parseDigits].
    rewrite digitOf_pretty_N_char by done. f_equal. lia.
  - rewrite IH; [|apply N.div_lt; lia|by apply N.neq_0_lt_0].
    cbn [Notifications.parseDigits]. rewrite digitOf_pretty_N_char by done. f_equal. lia.
Qed.

(** The writing of a positive number starts with a digit. *)
Lemma pretty_N_go_digit (x : N) (s : string) :
  (0 < x)%N → ∃ d t, (d < 10)%N ∧ pretty_N_go x s = String (pretty_N_char d) t.
Proof.
  revert s. induction (N.lt_wf_0 x) as [x _ IH]; intros s Hx.
  rewrite pretty_N_go_step by done.
  destruct (decide (x `div` 10 = 0)%N) as [->|Hdiv].
  - rewrite pretty_N_go_0. eexists _, _. split; [|done]. by apply N.mod_lt.
  - apply IH; [apply N.div_lt; lia|by apply N.neq_0_lt_0].
Qed.

Lemma parseInt_digits (d : N) (t : string) :
  (d < 10)%N →
  Notifications.parseInt (String (pretty_N_char d) t)
  = Notifications.parseDigits 0 false (String (pretty_N_char d) t).
Proof.
  intros Hd.
  assert (d = 0 ∨ d = 1 ∨ d = 2 ∨ d = 3 ∨ d = 4 ∨ d = 5 ∨ d = 6 ∨ d = 7 ∨ d = 8 ∨ d = 9)%N
    as Hc by lia.
  destruct Hc as [->|[->|[->|[->|[->|[->|[->|[->|[->| ->]]]]]]]]]; reflexivity.
Qed.

Lemma string_app_empty (s : string) : s +:+ EmptyString = s.
Proof.
  induction s as [|c s IH]; [done|].
  change (String c s +:+ EmptyString) with (String c (s +:+ EmptyString)).
  by rewrite IH.
Qed.

Lemma pretty_N_go_app (x : N) (s rest : string) :
  pretty_N_go x s +:+ rest = pretty_N_go x (s +:+ rest).
Proof.
  revert s. induction (N.lt_wf_0 x) as [x _ IH]; intros s.
  destruct (decide (x = 0)%N) as [->|Hx]; [by rewrite !pretty_N_go_0|].
  rewrite (pretty_N_go_step x s), (pretty_N_go_step x (s +:+ rest)) by lia.
  rewrite IH by (apply N.div_lt; lia). done.
Qed.

Lemma parseDigits_end (acc : Z) (rest : string) :
  endsNumber rest → Notifications.parseDigits acc true rest = Some acc.
Proof. destruct rest as [|c rest]; [done|]. cbn. by intros ->. Qed.

(** [parseInt] reads the whole number that a string starts with. *)
Lemma parseInt_pretty (z : Z) (rest : string) :
  endsNumber rest →
  ∃ a s, pretty z +:+ rest = String a s
    ∧ Notifications.parseInt (pretty z +:+ rest) = Some z.
Proof.
  intros Hrest. destruct z as [|p|p].
  - exists "0"%char, rest. split; [done|].
    change (pretty 0 +:+ rest) with (String "0" rest).
    unfold Notifications.parseInt. cbn. by apply parseDigits_end.
  - unfold pretty, pretty_Z, pretty, pretty_positive, pretty, pretty_N.
    destruct (decide (N.pos p = 0%N)); [done|].
    rewrite pretty_N_go_app. change (EmptyString +:+ rest) with rest.
    destruct (pretty_N_go_digit (N.pos p) rest ltac:(done)) as (d & t & Hd & Hgo).
    exists (pretty_N_char d), t. split; [done|].
    rewrite Hgo, parseInt_digits by done. rewrite <- Hgo.
    rewrite parseDigits_pretty_N_go by done. by apply parseDigits_end.
  - exists "-"%char, (pretty p +:+ rest). split; [done|].
    change (pretty (Z.neg p) +:+ rest) with (String "-" (pretty p +:+ rest)).
    unfold Notifications.parseInt. cbn [Notifications.trimStart].
    change (Notifications.isWhiteSpace "-") with false. cbv iota.
    unfold pretty, pretty_positive, pretty, pretty_N.
    destruct (decide (N.pos p = 0%N)); [done|].
    rewrite pretty_N_go_app. change (EmptyString +:+ rest) with rest.
    rewrite parseDigits_pretty_N_go by done. rewrite parseDigits_end by done. done.
Qed.

Lemma writtenInDigits_true (count : nat) (z0 z : Z) :
  writtenInDigits count z0 = true → z0 ≤ z < z0 + Z.of_nat count →
  float_toString (float_of_Z z) = pretty z.
Proof.
  revert z0. induction count as [|count IH]; intros z0 Hall Hz; [lia|].
  cbn [writtenInDigits] in Hall. apply andb_true_iff in Hall as [Hhere Hrest].
  destruct (decide (z = z0)) as [->|Hne]; [by apply bool_decide_eq_true in Hhere|].
  apply (IH (z0 + 1)); [done|lia].
Qed.

(** The whole numbers from 1 to 1000, one by one. *)
Lemma writtenInDigits_checked : writtenInDigits (Z.to_nat 1000) 1 = true.
Proof. vm_compute. reflexivity. Qed.

Lemma getDailyGoal_after_set (goal : float) (z : Z) (rest : string)
    (items : gmap string string) :
  float_toString goal = pretty z +:+ rest → endsNumber rest →
  ∃ storage,
    Notifications.setDailyGoal goal (Some items) = (Ok (), storage)
    ∧ Notifications.getDailyGoal storage = Some z.
Proof.
  intros Hwritten Hrest. eexists. split; [reflexivity|].
  unfold Notifications.getDailyGoal, Notifications.getItem. rewrite lookup_insert_eq.
  destruct (parseInt_pretty z rest Hrest) as (a & s & Hs & Hparse).
  rewrite Hwritten, <- Hparse. by rewrite Hs.
Qed.

(** X28: getDailyGoal reads back the whole number that the string of the
    stored goal starts with.  A goal from 1 to 1000 is read back as it is;
    a goal that [toString] writes with a fraction or with an exponent, as
    1e+21, is read back as the digits before the point or the [e].  As
    long as no goal is stored, or when the storage fails, the goal is
    100. *)
Theorem dailyGoal_round_trip (items : gmap string string) :
  (∀ goal z rest,
     float_toString goal = pretty z +:+ rest → endsNumber rest →
     ∃ storage,
       Notifications.setDailyGoal goal (Some items) = (Ok (), storage)
       ∧ Notifications.getDailyGoal storage = Some z)
  ∧ (∀ z, 1 ≤ z ≤ 1000 →
     ∃ storage,
       Notifications.setDailyGoal (float_of_Z z) (Some items) = (Ok (), storage)
       ∧ Notifications.getDailyGoal storage = Some z)
  ∧ (items !! Notifications.DAILY_GOAL_STORAGE_KEY = None →
      Notifications.getDailyGoal (Some items) = Some 100)
  ∧ Notifications.getDailyGoal None = Some 100.
Proof.
  split; [|split; [|split; [|done]]].
  - intros goal z rest. apply getDailyGoal_after_set.
  - intros z Hz. apply (getDailyGoal_after_set _ z EmptyString); [|done].
    rewrite (writtenInDigits_true _ 1 z writtenInDigits_checked) by lia.
    by rewrite string_app_empty.
  - intros Hnone. unfold Notifications.getDailyGoal, Notifications.getItem. by rewrite Hnone.
Qed.

(** A goal of 150 liters comes back; 12.5 comes back as 12, and a goal of
    1e21, which is written 1e+21, as 1. *)
Example daily_goals :
  float_toString 150 = "150" ∧ float_toString 12.5 = "12.5"
  ∧ float_toString 1e21 = "1e+21"
  ∧ Notifications.getDailyGoal (Notifications.setDailyGoal 150 (Some ∅)).2 = Some 150
  ∧ Notifications.getDailyGoal (Notifications.setDailyGoal 12.5 (Some ∅)).2 = Some 12
  ∧ Notifications.getDailyGoal (Notifications.setDailyGoal 1e21 (Some ∅)).2 = Some 1.
Proof. vm_compute. repeat split. Qed.

Example parseInt_samples :
  Notifications.parseInt "120" = Some 120 ∧ Notifications.parseInt "  -7 liters" = Some (-7)
  ∧ Notifications.parseInt "99.5" = Some 99 ∧ Notifications.parseInt "1e+21" = Some 1
  ∧ Notifications.parseInt "liters" = None ∧ Notifications.parseInt "" = None.
Proof. vm_compute. repeat split. Qed.

(** The first call of a day answers true, the second one false. *)
Example reminder_of_a_day :
  let first := Notifications.shouldShowDailyReminder (json:=jsonSettings) "2024-03-15"
                 (Some ∅) in
  first.1 = Ok true
  ∧ (Notifications.shouldShowDailyReminder (json:=jsonSettings) "2024-03-15" first.2).1
    = Ok false
  ∧ (Notifications.shouldShowDailyReminder (json:=jsonSettings) "2024-03-16" first.2).1
    = Ok true.
Proof. vm_compute. repeat split. Qed.

(** ** Import of a backup *)

Section ImportFacts.
Variable now : nat → Z.

Lemma addBill_outcome (amount : option float) (date : option string)
    (consumptionLiters : option float) (t : Z) (tables : DataExport.Tables) :
  (∃ row,
     DataExport.addBill None amount date consumptionLiters None t (Some tables)
     = (Ok (),
        Some {| DataExport.billRows :=
                  <["BILL-" +:+ pretty t := row]> (DataExport.billRows tables);
                DataExport.usageRows := DataExport.usageRows tables;
                DataExport.nextUsageId := DataExport.nextUsageId tables |})
     ∧ DataExport.billRows tables !! ("BILL-" +:+ pretty t) = None
     ∧ DataExport.row_currency row = "USD")
  ∨ (∃ error,
       DataExport.addBill None amount date consumptionLiters None t (Some tables)
       = (Throw error, Some tables)).
Proof.
  unfold DataExport.addBill.
  destruct amount, date, consumptionLiters; try (right; by eexists).
  destruct (DataExport.billRows tables !! _) eqn:Hrow; [right; by eexists|].
  left. eexists. split; [reflexivity|]. by split.
Qed.

Lemma importBills_None (i : nat) (bills : list DataExport.ImportedBill) (n : nat) :
  DataExport.importBills now i bills n None = (n, None).
Proof.
  revert i. induction bills as [|bill bills IH]; intros i; [done|].
  cbn [DataExport.importBills DataExport.addBill]. apply IH.
Qed.

Lemma importUsage_None (usage : list DataExport.ImportedUsage) (n : nat) :
  DataExport.importUsage usage n None = (n, None).
Proof.
  induction usage as [|u usage IH]; [done|].
  cbn [DataExport.importUsage DataExport.addUsage]. apply IH.
Qed.

(** What the loop over the bills leaves: the rows that were there, and
    new rows under ids made of the clock's time. *)
Lemma importBills_Some (i : nat) (bills : list DataExport.ImportedBill) (n : nat)
    (tables : DataExport.Tables) :
  ∃ n' tables',
    DataExport.importBills now i bills n (Some tables) = (n', Some tables')
    ∧ (n ≤ n' ≤ n + length bills)%nat
    ∧ DataExport.usageRows tables' = DataExport.usageRows tables
    ∧ DataExport.nextUsageId tables' = DataExport.nextUsageId tables
    ∧ (∀ k row, DataExport.billRows tables !! k = Some row →
        DataExport.billRows tables' !! k = Some row)
    ∧ (∀ k row, DataExport.billRows tables' !! k = Some row →
        DataExport.billRows tables !! k = Some row
        ∨ (DataExport.row_currency row = "USD"
           ∧ ∃ j, (i ≤ j < i + length bills)%nat ∧ k = "BILL-" +:+ pretty (now j))).
Proof.
  revert i n tables. induction bills as [|bill bills IH]; intros i n tables.
  { exists n, tables. split; [done|]. split; [cbn; lia|]. by eauto 10. }
  cbn [DataExport.importBills].
  destruct (addBill_outcome (DataExport.amount bill) (DataExport.date bill)
              (DataExport.consumptionLiters bill) (now i) tables)
    as [(row & -> & Hfresh & Hcur)|(error & ->)].
  - destruct (IH (S i) (S n)
                {| DataExport.billRows :=
                     <["BILL-" +:+ pretty (now i) := row]> (DataExport.billRows tables);
                   DataExport.usageRows := DataExport.usageRows tables;
                   DataExport.nextUsageId := DataExport.nextUsageId tables |})
      as (n' & tables' & -> & Hn & Hu & Hid & Hold & Hnew).
    exists n', tables'. split; [done|]. split; [cbn; lia|]. split; [done|]. split; [done|].
    cbn in Hold, Hnew. split.
    + intros k r Hk. apply Hold. rewrite lookup_insert_ne; [done|].
      intros <-. by rewrite Hfresh in Hk.
    + intros k r Hk. destruct (Hnew k r Hk) as [Hwas|(Hc & j & Hj & ->)].
      * destruct (decide ("BILL-" +:+ pretty (now i) = k)) as [<-|Hne].
        -- rewrite lookup_insert_eq in Hwas. injection Hwas as <-.
           right. split; [done|]. exists i. split; [cbn; lia|done].
        -- rewrite lookup_insert_ne in Hwas by done. by left.
      * right. split; [done|]. exists j. split; [cbn; lia|done].
  - destruct (IH (S i) n tables) as (n' & tables' & -> & Hn & Hu & Hid & Hold & Hnew).
    exists n', tables'. split; [done|]. split; [cbn; lia|]. split; [done|]. split; [done|].
    split; [done|]. intros k r Hk. destruct (Hnew k r Hk) as [Hwas|(Hc & j & Hj & ->)].
    + by left.
    + right. split; [done|]. exists j. split; [cbn; lia|done].
Qed.

(** Once the id of the millisecond is taken, no bill of that
    millisecond enters. *)
Lemma importBills_same_time_taken (t : Z) (i : nat) (bills : list DataExport.ImportedBill)
    (n : nat) (tables : DataExport.Tables) :
  (∀ j, now j = t) →
  is_Some (DataExport.billRows tables !! ("BILL-" +:+ pretty t)) →
  DataExport.importBills now i bills n (Some tables) = (n, Some tables).
Proof.
  intros Hnow [row Hrow]. revert i. induction bills as [|bill bills IH]; intros i; [done|].
  cbn [DataExport.importBills].
  destruct (addBill_outcome (DataExport.amount bill) (DataExport.date bill)
              (DataExport.consumptionLiters bill) (now i) tables)
    as [(r & _ & Hfresh & _)|(error & ->)].
  - rewrite Hnow in Hfresh. by rewrite Hrow in Hfresh.
  - apply IH.
Qed.

Lemma importBills_same_time (t : Z) (i : nat) (bills : list DataExport.ImportedBill)
    (n : nat) (tables : DataExport.Tables) :
  (∀ j, now j = t) →
  ∃ n' db', DataExport.importBills now i bills n (Some tables) = (n', db')
    ∧ (n' ≤ n + 1)%nat.
Proof.
  intros Hnow. revert i. induction bills as [|bill bills IH]; intros i.
  { eexists _, _. split; [done|]. lia. }
  cbn [DataExport.importBills].
  destruct (addBill_outcome (DataExport.amount bill) (DataExport.date bill)
              (DataExport.consumptionLiters bill) (now i) tables)
    as [(r & -> & Hfresh & _)|(error & ->)].
  - rewrite (importBills_same_time_taken t); [eexists _, _; split; [done|lia]|done|].
    cbn. rewrite Hnow, lookup_insert_eq. by eexists.
  - apply IH.
Qed.
End ImportFacts.

Section ImportTheorems.
Context {json : Json DataExport.ExportData}.

(** X29: Whatever makes importFromJSON fail, a text that is no JSON or a file
    without a version, bills or usage, the caller gets the one message
    Failed to import data.  Without an initialised database it does not
    fail: every row is refused and it reports that nothing was imported.  It
    never reports more rows than the file has. *)
Theorem importFromJSON_outcomes (jsonString : string) (now : nat → Z)
    (db : DataExport.Database) :
  (∀ error, (DataExport.importFromJSON jsonString now db).1 = Throw error →
     error = "Failed to import data")
  ∧ (∀ data a v bills usage,
       parse jsonString = Ok data →
       DataExport.version data = Some (String a v) →
       DataExport.bills data = Some bills → DataExport.usage data = Some usage →
       ∃ imported db',
         DataExport.importFromJSON jsonString now db = (Ok imported, db')
         ∧ (DataExport.billsImported imported ≤ length bills)%nat
         ∧ (DataExport.usageImported imported ≤ length usage)%nat
         ∧ (db = None →
             db' = None ∧ DataExport.billsImported imported = 0%nat
             ∧ DataExport.usageImported imported = 0%nat)).
Proof.
  split.
  - intros error. unfold DataExport.importFromJSON.
    destruct (parse jsonString) as [data|e]; [|by intros [= <-]].
    destruct (DataExport.version data) as [[|a v]|]; try by intros [= <-].
    destruct (DataExport.bills data) as [bills|]; [|by intros [= <-]].
    destruct (DataExport.usage data) as [usage|]; [|by intros [= <-]].
    destruct (DataExport.importBills _ _ _ _ _) as [n d].
    by destruct (DataExport.importUsage _ _ _) as [m d'].
  - intros data a v bills usage Hparse Hv Hb Hu. unfold DataExport.importFromJSON.
    rewrite Hparse, Hv, Hb, Hu.
    assert (∀ usage n d, ∃ m d', DataExport.importUsage usage n d = (m, d')
              ∧ (n ≤ m ≤ n + length usage)%nat) as Husage.
    { clear. intros usage. induction usage as [|u usage IH]; intros n d.
      - eexists _, _. split; [done|]. cbn. lia.
      - cbn [DataExport.importUsage].
        destruct (DataExport.addUsage _ _ _ d) as [[[]|e] d1].
        + destruct (IH (S n) d1) as (m & d' & -> & Hm).
          eexists _, _. split; [done|]. cbn. lia.
        + destruct (IH n d1) as (m & d' & -> & Hm).
          eexists _, _. split; [done|]. cbn. lia. }
    destruct db as [tables|].
    + destruct (importBills_Some now 0 bills 0 tables) as (n & tables' & -> & Hn & _).
      destruct (Husage usage 0%nat (Some tables')) as (m & d' & -> & Hm).
      eexists _, _. split; [done|]. cbn. split; [lia|]. split; [lia|done].
    + rewrite importBills_None, importUsage_None.
      eexists _, _. split; [done|]. cbn. split; [lia|]. split; [lia|done].
Qed.

(** X30: On the native database, whose table of bills has the id for its
    primary key, importFromJSON does not keep the ids of the bills of the
    file: a row it adds has an id made of the time of its insertion, BILL-
    and the milliseconds, and the currency USD; the rows that were there
    stay.  So of the bills inserted within one millisecond at most one
    enters the table. *)
Theorem importFromJSON_bill_ids (jsonString : string) (now : nat → Z)
    (tables : DataExport.Tables) (data : DataExport.ExportData) (a : ascii) (v : string)
    (bills : list DataExport.ImportedBill) (usage : list DataExport.ImportedUsage) :
  parse jsonString = Ok data →
  DataExport.version data = Some (String a v) →
  DataExport.bills data = Some bills → DataExport.usage data = Some usage →
  ∃ imported tables',
    DataExport.importFromJSON jsonString now (Some tables) = (Ok imported, Some tables')
    ∧ (∀ k row, DataExport.billRows tables !! k = Some row →
        DataExport.billRows tables' !! k = Some row)
    ∧ (∀ k row, DataExport.billRows tables' !! k = Some row →
        DataExport.billRows tables !! k = Some row
        ∨ (DataExport.row_currency row = "USD"
           ∧ ∃ j, (j < length bills)%nat ∧ k = "BILL-" +:+ pretty (now j)))
    ∧ ((∃ t, ∀ j, now j = t) → (DataExport.billsImported imported ≤ 1)%nat).
Proof.
  intros Hparse Hv Hb Hu. unfold DataExport.importFromJSON.
  rewrite Hparse, Hv, Hb, Hu.
  destruct (importBills_Some now 0 bills 0 tables)
    as (n & tables1 & Hrun & Hn & Hu1 & Hid1 & Hold & Hnew).
  assert (∀ usage m tables1, ∃ m' tables',
            DataExport.importUsage usage m (Some tables1) = (m', Some tables')
            ∧ DataExport.billRows tables' = DataExport.billRows tables1) as Husage.
  { clear. intros usage. induction usage as [|u usage IH]; intros m tables1.
    - by eexists _, _.
    - cbn [DataExport.importUsage DataExport.addUsage].
      destruct (DataExport.liters u), (DataExport.usage_date u);
        try (destruct (IH m tables1) as (m' & t' & -> & Hb); by eexists _, _).
      match goal with
      | |- context [DataExport.importUsage usage (S m) (Some ?t)] =>
          destruct (IH (S m) t) as (m' & t' & -> & Hb)
      end.
      by eexists _, _. }
  rewrite Hrun. destruct (Husage usage 0%nat tables1) as (m & tables' & -> & Hbills).
  eexists _, tables'. split; [done|]. rewrite Hbills. split; [done|]. split.
  - intros k row Hk. destruct (Hnew k row Hk) as [?|(Hc & j & Hj & ->)]; [by left|].
    right. split; [done|]. exists j. split; [lia|done].
  - intros [t Ht]. cbn.
    destruct (importBills_same_time now t 0 bills 0 tables Ht) as (n' & db' & Hrun' & Hle).
    rewrite Hrun in Hrun'. injection Hrun' as <- _. lia.
Qed.
End ImportTheorems.

Lemma importFromJSON_bill_ids_witness :
  (parse (Json:=jsonBackup) "backup" = Ok sampleBackup
   ∧ DataExport.version sampleBackup = Some "1.0"
   ∧ DataExport.bills sampleBackup = Some sampleBills
   ∧ DataExport.usage sampleBackup = Some sampleEvents)
  ∧ ∃ imported tables',
      DataExport.importFromJSON (json:=jsonBackup) "backup" standingClock (Some noTables)
      = (Ok imported, Some tables')
      ∧ (∀ k row, DataExport.billRows noTables !! k = Some row →
          DataExport.billRows tables' !! k = Some row)
      ∧ (∀ k row, DataExport.billRows tables' !! k = Some row →
          DataExport.billRows noTables !! k = Some row
          ∨ (DataExport.row_currency row = "USD"
             ∧ ∃ j, (j < length sampleBills)%nat
                 ∧ k = "BILL-" +:+ pretty (standingClock j)))
      ∧ ((∃ t, ∀ j, standingClock j = t) → (DataExport.billsImported imported ≤ 1)%nat).
Proof.
  split; [split; [|split; [|split]]; reflexivity|].
  apply (importFromJSON_bill_ids (json:=jsonBackup) "backup" standingClock noTables
           sampleBackup "1" ".0" sampleBills sampleEvents); reflexivity.
Defined.

(** The sample backup on a clock that stands still and on one that
    moves: one bill enters, or both; the ids of the file are not kept. *)
Example import_of_the_backup :
  (DataExport.importFromJSON (json:=jsonBackup) "backup" standingClock (Some noTables)).1
  = Ok {| DataExport.billsImported := 1; DataExport.usageImported := 1 |}
  ∧ (DataExport.importFromJSON (json:=jsonBackup) "backup" runningClock (Some noTables)).1
    = Ok {| DataExport.billsImported := 2; DataExport.usageImported := 1 |}
  ∧ (DataExport.importFromJSON (json:=jsonBackup) "backup" runningClock None).1
    = Ok {| DataExport.billsImported := 0; DataExport.usageImported := 0 |}
  ∧ (DataExport.importFromJSON (json:=jsonBackup) "not a backup" runningClock
       (Some noTables)).1 = Throw "Failed to import data".
Proof. vm_compute. repeat split. Qed.
